(** * Coda AI Assistant (main.py): model and properties

    The service answers questions about one Coda document: it resolves the
    configured document name, walks pages, tables, columns and rows through
    the Coda REST API, keeps the rows that carry data, renders them as one
    text block, and hands that block with the question to a language model.
    Two module-level variables cache the walk and the rendered text.

    The development follows main.py function by function.

    - A [str] is the bytes of its UTF-8 encoding; [strip] removes the
      white space of Unicode, [lower] folds A..Z, and the lower case of
      the characters beyond ASCII is the runtime's table, a parameter.
    - Cell values are JSON values with Python's [==], truth value and [str].
    - The records of the Coda API (documents, pages, tables, columns, rows)
      have the fields main.py reads, with names and identifiers as strings;
      an answer of any other shape counts as a failed call.
    - Handlers and helpers run in a state-and-exception monad over the two
      cache variables, the log of outgoing requests and the printed lines.
    - The outside world (Coda, the model) is an oracle that answers each
      request as a function of all requests made before it. *)

From Stdlib Require Import String Ascii List ZArith QArith_base Bool Lia.
From Stdlib Require Import DecimalString.
Import ListNotations.

Local Open Scope list_scope.
Local Open Scope string_scope.

(** ** Strings *)

(** The line feed, written [\n] in the Python source. *)
Definition LF : string := String (ascii_of_nat 10) EmptyString.

(** [str(n)] for an integer and for a row number. *)
Definition str_Z (n : Z) : string := NilZero.string_of_int (Z.to_int n).
Definition str_nat (n : nat) : string := NilZero.string_of_uint (Nat.to_uint n).

(** [sep.join(parts)]. *)
Definition join (sep : string) (parts : list string) : string :=
  String.concat sep parts.

Definition is_empty (s : string) : bool :=
  match s with EmptyString => true | String _ _ => false end.

(** A [str] is held as the bytes of its UTF-8 encoding: a character is one
    byte below 128, or a lead byte followed by one to three bytes of
    128..191. *)

(** The byte [c] lies between [lo] and [hi]. *)
Definition byte_in (lo hi : nat) (c : ascii) : bool :=
  let n := nat_of_ascii c in
  ((lo <=? n) && (n <=? hi))%nat.

(** The characters [str.isspace] holds of, and [str.strip] removes, by the
    length of their encoding:
    - one byte: U+0009..U+000D, U+001C..U+0020;
    - two bytes: U+0085 (C2 85), U+00A0 (C2 A0);
    - three bytes: U+1680 (E1 9A 80), U+2000..U+200A (E2 80 80..8A),
      U+2028, U+2029 (E2 80 A8..A9), U+202F (E2 80 AF), U+205F (E2 81 9F),
      U+3000 (E3 80 80). *)
Definition space1 (c : ascii) : bool :=
  byte_in 9 13 c || byte_in 28 32 c.

Definition space2 (c1 c2 : ascii) : bool :=
  byte_in 194 194 c1 && (byte_in 133 133 c2 || byte_in 160 160 c2).

Definition space3 (c1 c2 c3 : ascii) : bool :=
  (byte_in 225 225 c1 && (byte_in 154 154 c2 && byte_in 128 128 c3))
  || (byte_in 226 226 c1 &&
      ((byte_in 128 128 c2 &&
        (byte_in 128 138 c3 || byte_in 168 169 c3 || byte_in 175 175 c3))
       || (byte_in 129 129 c2 && byte_in 159 159 c3)))
  || (byte_in 227 227 c1 && (byte_in 128 128 c2 && byte_in 128 128 c3)).

(** A byte that a white-space character can begin with. *)
Definition starts_space (c : ascii) : bool :=
  space1 c || byte_in 194 194 c || byte_in 225 227 c.

(** [s] without its first character, when that character is white space. *)
Definition after_space (s : string) : option string :=
  match s with
  | EmptyString => None
  | String c1 s1 =>
      if space1 c1 then Some s1
      else
        match s1 with
        | EmptyString => None
        | String c2 s2 =>
            if space2 c1 c2 then Some s2
            else
              match s2 with
              | EmptyString => None
              | String c3 s3 => if space3 c1 c2 c3 then Some s3 else None
              end
        end
  end.

(** [s.lstrip()]: white-space characters are dropped from the left until a
    character that is none. *)
Fixpoint lstrip (s : string) : string :=
  match s with
  | EmptyString => EmptyString
  | String c1 s1 =>
      if space1 c1 then lstrip s1
      else
        match s1 with
        | EmptyString => s
        | String c2 s2 =>
            if space2 c1 c2 then lstrip s2
            else
              match s2 with
              | EmptyString => s
              | String c3 s3 => if space3 c1 c2 c3 then lstrip s3 else s
              end
        end
  end.

(** Every character of [s] is white space (the empty string included). *)
Fixpoint all_space (s : string) : bool :=
  match s with
  | EmptyString => true
  | String c1 s1 =>
      if space1 c1 then all_space s1
      else
        match s1 with
        | EmptyString => false
        | String c2 s2 =>
            if space2 c1 c2 then all_space s2
            else
              match s2 with
              | EmptyString => false
              | String c3 s3 => space3 c1 c2 c3 && all_space s3
              end
        end
  end.

(** [s.rstrip()]: the text up to the point from which only white space
    follows. *)
Fixpoint rstrip (s : string) : string :=
  match s with
  | EmptyString => EmptyString
  | String c s' => if all_space s then EmptyString else String c (rstrip s')
  end.

(** [s.strip()]. *)
Definition strip (s : string) : string := rstrip (lstrip s).

(** What [str.lower] does to a letter of A..Z; every other byte, and so
    every byte of a character beyond ASCII, is left as it is. *)
Definition fold_letter (c : ascii) : ascii :=
  if byte_in 65 90 c then ascii_of_nat (nat_of_ascii c + 32) else c.

(** [s] with its letters A..Z in lower case. *)
Fixpoint lower (s : string) : string :=
  match s with
  | EmptyString => EmptyString
  | String c s' => String (fold_letter c) (lower s')
  end.

(** [s.isascii()]. *)
Fixpoint is_ascii (s : string) : bool :=
  match s with
  | EmptyString => true
  | String c s' => byte_in 0 127 c && is_ascii s'
  end.

(** [s.lower()].  Of an ASCII text it is [lower s].  What becomes of the
    characters beyond ASCII is settled by the Unicode tables of the
    runtime, [unicode_lower], a function on whole texts that stands for
    [str.lower] itself; it is given the text with A..Z folded, which
    [str.lower] maps as it maps the text. *)
Definition py_lower (unicode_lower : string -> string) (s : string) : string :=
  if is_ascii s then lower s else unicode_lower (lower s).

(** ** Python dictionaries with string keys

    A [dict] keeps its keys in insertion order; assigning to a key that is
    present replaces the value in place. *)

Definition dict (V : Type) : Type := list (string * V).

Fixpoint dict_get {V : Type} (d : dict V) (k : string) : option V :=
  match d with
  | [] => None
  | (k', v) :: d' => if String.eqb k' k then Some v else dict_get d' k
  end.

Fixpoint dict_set {V : Type} (d : dict V) (k : string) (v : V) : dict V :=
  match d with
  | [] => [(k, v)]
  | (k', v') :: d' =>
      if String.eqb k' k then (k', v) :: d' else (k', v') :: dict_set d' k v
  end.

Definition dict_keys {V : Type} (d : dict V) : list string := map fst d.
Definition dict_values {V : Type} (d : dict V) : list V := map snd d.

(** [d.get(k, default)]. *)
Definition dict_get_default {V : Type} (d : dict V) (k : string) (default : V) : V :=
  match dict_get d k with Some v => v | None => default end.

(** ** Cell values *)

(** What [res.json()] can hold in a cell.  A float stands for the rational
    it denotes. *)
#[local] Unset Elimination Schemes.
Inductive value : Type :=
| VNone
| VBool (b : bool)
| VInt (n : Z)
| VFloat (q : Q)
| VStr (s : string)
| VList (l : list value)
| VDict (d : list (string * value)).
#[local] Set Elimination Schemes.

(** Python's [a == b].  [bool] is a subtype of [int], so [False == 0] and
    [True == 1]; numbers compare by value; lists compare pointwise and
    dictionaries key by key. *)
Fixpoint py_eq (a b : value) {struct a} : bool :=
  match a, b with
  | VNone, VNone => true
  | VBool x, VBool y => Bool.eqb x y
  | VBool x, VInt n => Z.eqb (Z.b2z x) n
  | VBool x, VFloat q => Qeq_bool (inject_Z (Z.b2z x)) q
  | VInt n, VBool y => Z.eqb n (Z.b2z y)
  | VInt n, VInt m => Z.eqb n m
  | VInt n, VFloat q => Qeq_bool (inject_Z n) q
  | VFloat q, VBool y => Qeq_bool q (inject_Z (Z.b2z y))
  | VFloat q, VInt m => Qeq_bool q (inject_Z m)
  | VFloat q, VFloat r => Qeq_bool q r
  | VStr s, VStr t => String.eqb s t
  | VList l1, VList l2 =>
      (fix eq_list (l1 l2 : list value) {struct l1} : bool :=
         match l1, l2 with
         | [], [] => true
         | x :: l1', y :: l2' => py_eq x y && eq_list l1' l2'
         | _, _ => false
         end) l1 l2
  | VDict d1, VDict d2 =>
      Nat.eqb (List.length d1) (List.length d2) &&
      (fix eq_items (d1 : list (string * value)) {struct d1} : bool :=
         match d1 with
         | [] => true
         | (k, v) :: d1' =>
             match dict_get d2 k with
             | Some v' => py_eq v v'
             | None => false
             end && eq_items d1'
         end) d1
  | _, _ => false
  end.

(** [v in xs] for a list [xs]. *)
Definition py_in (v : value) (xs : list value) : bool :=
  existsb (fun x => py_eq v x) xs.

(** [bool(v)]. *)
Definition truthy (v : value) : bool :=
  match v with
  | VNone => false
  | VBool b => b
  | VInt n => negb (Z.eqb n 0)
  | VFloat q => negb (Qeq_bool q (inject_Z 0))
  | VStr s => negb (is_empty s)
  | VList l => match l with [] => false | _ :: _ => true end
  | VDict d => match d with [] => false | _ :: _ => true end
  end.

(** The list literal [[None, "", False, "False"]] of main.py. *)
Definition EMPTY_VALUES : list value :=
  [VNone; VStr ""; VBool false; VStr "False"].

(** [v not in [None, "", False, "False"]]. *)
Definition not_in_empty_values (v : value) : bool :=
  negb (py_in v EMPTY_VALUES).

(** [any(xs)] over values. *)
Definition py_any (xs : list value) : bool := existsb truthy xs.

(** A surviving row: column name to cell value, in column order. *)
Definition row : Type := dict value.

(** ** Records of the Coda API *)

Module Doc.
Record t : Type := { id : string; name : string }.
End Doc.

Module Page.
Record t : Type := { id : string; name : string }.
End Page.

(** [parent] is [table.get('parent', {}).get('id')]: the identifier of the
    page a table was created on, when the API reports one. *)
Module Table.
Record t : Type := { id : string; name : string; parent : option string }.
End Table.

Module Column.
Record t : Type := { id : string; name : string }.
End Column.

(** A row as the API returns it: cell values keyed by column identifier. *)
Module RawRow.
Record t : Type := { values : dict value }.
End RawRow.

(** ** The aggregated structure *)

Record table_data : Type := {
  table_name : string;
  columns : list string;
  rows : list row
}.

Record page_data : Type := {
  page_name : string;
  tables : list table_data
}.

(** ** Requests, the world and the process state *)

Definition BASE_URL : string := "https://coda.io/apis/v1".

(** An outgoing call: a GET on a Coda URL, or a completion request. *)
Inductive request : Type :=
| Get (url : string)
| GenerateContent (prompt : string).

Definition is_generate (r : request) : bool :=
  match r with Get _ => false | GenerateContent _ => true end.

(** What a call gives back: the [items] of the answer, or an exception
    with its message ([requests.get], [res.json()] or the model raised). *)
Inductive response (A : Type) : Type :=
| Answer (items : A)
| Failure (msg : string).
Arguments Answer {A} items.
Arguments Failure {A} msg.

(** The world answers a call as a function of the calls made so far
    (latest first) and of the identifiers in the URL. *)
Record World : Type := {
  list_docs : list request -> response (list Doc.t);
  list_pages : list request -> string -> response (list Page.t);
  list_tables : list request -> string -> response (list Table.t);
  list_columns : list request -> string -> string -> response (list Column.t);
  list_rows : list request -> string -> string -> response (list RawRow.t);
  generate_content : list request -> string -> response string
}.

(** The two module-level cache variables, the calls made so far (latest
    first) and the lines printed so far (latest first). *)
Record State : Type := {
  coda_data_cache : option (list page_data);
  formatted_data_cache : option string;
  calls : list request;
  stdout : list string
}.

Definition initial_state : State :=
  {| coda_data_cache := None; formatted_data_cache := None;
     calls := []; stdout := [] |}.

Definition set_coda_data_cache (c : option (list page_data)) (st : State) : State :=
  {| coda_data_cache := c; formatted_data_cache := formatted_data_cache st;
     calls := calls st; stdout := stdout st |}.

Definition set_formatted_data_cache (c : option string) (st : State) : State :=
  {| coda_data_cache := coda_data_cache st; formatted_data_cache := c;
     calls := calls st; stdout := stdout st |}.

Definition log_call (r : request) (st : State) : State :=
  {| coda_data_cache := coda_data_cache st;
     formatted_data_cache := formatted_data_cache st;
     calls := r :: calls st; stdout := stdout st |}.

Definition log_line (s : string) (st : State) : State :=
  {| coda_data_cache := coda_data_cache st;
     formatted_data_cache := formatted_data_cache st;
     calls := calls st; stdout := s :: stdout st |}.

(** ** Exceptions and the monad *)

Inductive exn : Type :=
| Fault (msg : string)
| HTTPException (status_code : Z) (detail : string).

Inductive result (A : Type) : Type :=
| Ok (a : A)
| Raise (e : exn).
Arguments Ok {A} a.
Arguments Raise {A} e.

(** A computation reads and writes the state and returns or raises; what it
    wrote before raising stays written. *)
Definition M (A : Type) : Type := State -> result A * State.

Definition ret {A : Type} (a : A) : M A := fun st => (Ok a, st).

Definition raise {A : Type} (e : exn) : M A := fun st => (Raise e, st).

Definition bind {A B : Type} (m : M A) (f : A -> M B) : M B :=
  fun st =>
    match m st with
    | (Ok a, st') => f a st'
    | (Raise e, st') => (Raise e, st')
    end.

(** [try: m  except Exception as e: h e]. *)
Definition try_except {A : Type} (m : M A) (h : exn -> M A) : M A :=
  fun st =>
    match m st with
    | (Ok a, st') => (Ok a, st')
    | (Raise e, st') => h e st'
    end.

Definition get_state : M State := fun st => (Ok st, st).
Definition modify (f : State -> State) : M unit := fun st => (Ok tt, f st).

(** [print(s)]. *)
Definition print (s : string) : M unit := modify (log_line s).

Declare Scope monad_scope.
Delimit Scope monad_scope with monad.
Notation "x <- m ;; k" := (bind m (fun x => k))
  (at level 61, m at next level, right associativity) : monad_scope.
Notation "m ;;; k" := (bind m (fun _ => k))
  (at level 61, right associativity) : monad_scope.
Local Open Scope monad_scope.

(** One round trip: the call is logged, then answered from the calls that
    came before it. *)
Definition call {A : Type} (r : request)
    (answer : list request -> response A) : M A :=
  fun st =>
    match answer (calls st) with
    | Answer items => (Ok items, log_call r st)
    | Failure msg => (Raise (Fault msg), log_call r st)
    end.

(** ** main.py *)

Definition DOC_NAME : string := "samdanielvincy's Coda Playground".

(** The two marks main.py puts in front of its chat messages, byte for
    byte as they stand in the source file. *)
Definition CROSS_MARK : string := "‚ùå".
Definition ROBOT_MARK : string := "ü§ñ".

Record CliqRequest : Type := {
  text : string;
  user_name : option string;
  user_id : option string;
  channel_name : option string
}.

Record QuestionRequest : Type := {
  question : string
}.

Record AIResponse : Type := {
  answer : string;
  status : string
}.

(** The [{text, color}] body of [/cliq/ask]. *)
Record CliqPayload : Type := {
  payload_text : string;
  payload_color : string
}.

(** The [{message, status}] body of [/refresh-cache]. *)
Record RefreshPayload : Type := {
  refresh_message : string;
  refresh_status : string
}.

Record TableSummary : Type := {
  summary_table_name : string;
  row_count : nat
}.

Record PageSummary : Type := {
  summary_page_name : string;
  summary_tables : list TableSummary
}.

Record DataSummary : Type := {
  document : string;
  total_pages : nat;
  total_tables : nat;
  total_rows : nat;
  pages_info : list PageSummary
}.

(** [table.get('parent', {}).get('id') == page_id]. *)
Definition parent_is (table : Table.t) (page_id : string) : bool :=
  match Table.parent table with
  | Some p => String.eqb p page_id
  | None => false
  end.

(** The loop of [get_tables_created_on_page]. *)
Fixpoint tables_on_page (all_tables : list Table.t) (page_id : string)
    (page_specific_tables : list Table.t) : list Table.t :=
  match all_tables with
  | [] => page_specific_tables
  | table :: rest =>
      if parent_is table page_id
      then tables_on_page rest page_id (page_specific_tables ++ [table])%list
      else tables_on_page rest page_id page_specific_tables
  end.

(** [{c["id"]: c["name"] for c in cols}]. *)
Definition column_map (cols : list Column.t) : dict string :=
  fold_left (fun m c => dict_set m (Column.id c) (Column.name c)) cols [].

(** The inner loop of [get_rows]: [clean[colmap.get(col_id, col_id)] = val]. *)
Definition clean_row (colmap : dict string) (r : RawRow.t) : row :=
  fold_left
    (fun clean cell => dict_set clean (dict_get_default colmap (fst cell) (fst cell)) (snd cell))
    (RawRow.values r) [].

(** The outer loop of [get_rows]. *)
Fixpoint readable_rows_loop (colmap : dict string) (items : list RawRow.t)
    (readable_rows : list row) : list row :=
  match items with
  | [] => readable_rows
  | r :: rest =>
      readable_rows_loop colmap rest (readable_rows ++ [clean_row colmap r])%list
  end.

(** [any(v for v in r.values() if v not in [None, "", False, "False"])]. *)
Definition has_data (r : row) : bool :=
  py_any (filter not_in_empty_values (dict_values r)).

(** The loop that fills [filtered_rows]. *)
Fixpoint filter_rows_loop (rows : list row) (filtered_rows : list row) : list row :=
  match rows with
  | [] => filtered_rows
  | r :: rest =>
      if has_data r
      then filter_rows_loop rest (filtered_rows ++ [r])%list
      else filter_rows_loop rest filtered_rows
  end.

(** [resolve_doc_id]: the test
    [d["name"].strip().lower() == doc_name.strip().lower()] and the loop over
    the listed documents. *)
Definition name_matches (unicode_lower : string -> string)
    (doc_name : string) (d : Doc.t) : bool :=
  String.eqb (py_lower unicode_lower (strip (Doc.name d)))
             (py_lower unicode_lower (strip doc_name)).

Fixpoint resolve_loop (unicode_lower : string -> string)
    (docs : list Doc.t) (doc_name : string) : option string :=
  match docs with
  | [] => None
  | d :: rest =>
      if name_matches unicode_lower doc_name d then Some (Doc.id d)
      else resolve_loop unicode_lower rest doc_name
  end.

(** [if doc_id:] on what [resolve_doc_id] returned: [None] and the empty
    string are false. *)
Definition truthy_id (doc_id : option string) : option string :=
  match doc_id with
  | Some i => if is_empty i then None else Some i
  | None => None
  end.

(** The prompt of [ask_gemini_about_data]. *)
Definition prompt_of (context_data question : string) : string :=
  LF ++
  "    You are an AI assistant analyzing data from a Coda document. " ++ LF ++
  "    Here is the data from the Coda document:" ++ LF ++
  LF ++
  "    " ++ context_data ++ LF ++
  LF ++
  "    Please analyze this data and answer the following question:" ++ LF ++
  "    " ++ question ++ LF ++
  LF ++
  "    Instructions:" ++ LF ++
  "    1. Be specific and accurate in your answer" ++ LF ++
  "    2. Reference actual data points from the tables when possible" ++ LF ++
  "    3. If the data doesn't contain information to answer the question, say so" ++ LF ++
  "    4. Provide insights based on the available data" ++ LF ++
  "    5. Keep your response clear and concise" ++ LF ++
  "    6. Format the response in a readable way without using markdown symbols like *" ++ LF ++
  LF ++
  "    Answer:" ++ LF ++
  "    ".

Section Program.

(** [repr] of a float, a list or a dictionary, [str] of an [HTTPException]
    and the lower case of the characters beyond ASCII are the runtime's and
    the framework's. *)
Variable py_repr : value -> string.
Variable http_exception_str : Z -> string -> string.
Variable unicode_lower : string -> string.

(** The world the process talks to. *)
Variable W : World.

(** [str(v)], as the f-string [f"{k}: {v}"] applies it. *)
Definition py_str (v : value) : string :=
  match v with
  | VNone => "None"
  | VBool true => "True"
  | VBool false => "False"
  | VInt n => str_Z n
  | VStr s => s
  | VFloat _ | VList _ | VDict _ => py_repr v
  end.

(** [str(e)]. *)
Definition str_exn (e : exn) : string :=
  match e with
  | Fault msg => msg
  | HTTPException code detail => http_exception_str code detail
  end.

(** *** Coda API functions *)

Definition get_all_docs : M (list Doc.t) :=
  let url := BASE_URL ++ "/docs" in
  call (Get url) (list_docs W).

Definition resolve_doc_id (doc_name : string) : M (option string) :=
  docs <- get_all_docs ;;
  ret (resolve_loop unicode_lower docs doc_name).

Definition get_pages (doc_id : string) : M (list Page.t) :=
  let url := BASE_URL ++ "/docs/" ++ doc_id ++ "/pages" in
  call (Get url) (fun h => list_pages W h doc_id).

Definition get_tables_created_on_page (doc_id page_id : string) : M (list Table.t) :=
  let url := BASE_URL ++ "/docs/" ++ doc_id ++ "/tables" in
  all_tables <- call (Get url) (fun h => list_tables W h doc_id) ;;
  ret (tables_on_page all_tables page_id []).

Definition get_column_map (doc_id table_id : string) : M (dict string) :=
  let url := BASE_URL ++ "/docs/" ++ doc_id ++ "/tables/" ++ table_id ++ "/columns" in
  cols <- call (Get url) (fun h => list_columns W h doc_id table_id) ;;
  ret (column_map cols).

Definition get_rows (doc_id table_id : string) (colmap : dict string) : M (list row) :=
  let url := BASE_URL ++ "/docs/" ++ doc_id ++ "/tables/" ++ table_id ++ "/rows" in
  items <- call (Get url) (fun h => list_rows W h doc_id table_id) ;;
  ret (readable_rows_loop colmap items []).

(** *** Aggregation *)

(** One turn of the loop over the tables of a page.  [page_tables] is the
    list [page_data["tables"]] so far. *)
Definition process_table (doc_id : string) (table : Table.t)
    (page_tables : list table_data) : M (list table_data) :=
  let name := Table.name table in
  let table_id := Table.id table in
  try_except
    (colmap <- get_column_map doc_id table_id ;;
     fetched <- get_rows doc_id table_id colmap ;;
     let filtered_rows := filter_rows_loop fetched [] in
     match filtered_rows with
     | [] => ret page_tables
     | first :: _ =>
         ret (page_tables ++
              [ {| table_name := name;
                   columns := dict_keys first;
                   rows := filtered_rows |} ])%list
     end)
    (fun e =>
       print ("Error processing table " ++ name ++ ": " ++ str_exn e) ;;;
       ret page_tables).

Fixpoint tables_loop (doc_id : string) (page_tables_in : list Table.t)
    (page_tables : list table_data) : M (list table_data) :=
  match page_tables_in with
  | [] => ret page_tables
  | table :: rest =>
      page_tables' <- process_table doc_id table page_tables ;;
      tables_loop doc_id rest page_tables'
  end.

(** One turn of the loop over the pages. *)
Definition process_page (doc_id : string) (page : Page.t)
    (all_data : list page_data) : M (list page_data) :=
  let name := Page.name page in
  let page_id := Page.id page in
  listed <- get_tables_created_on_page doc_id page_id ;;
  page_tables <- tables_loop doc_id listed [] ;;
  match page_tables with
  | [] => ret all_data
  | _ :: _ =>
      ret (all_data ++ [ {| page_name := name; tables := page_tables |} ])%list
  end.

Fixpoint pages_loop (doc_id : string) (pages : list Page.t)
    (all_data : list page_data) : M (list page_data) :=
  match pages with
  | [] => ret all_data
  | page :: rest =>
      all_data' <- process_page doc_id page all_data ;;
      pages_loop doc_id rest all_data'
  end.

Definition get_all_coda_data (doc_id : string) : M (list page_data) :=
  st <- get_state ;;
  match coda_data_cache st with
  | Some cached => ret cached
  | None =>
      pages <- get_pages doc_id ;;
      all_data <- pages_loop doc_id pages [] ;;
      modify (set_coda_data_cache (Some all_data)) ;;;
      ret all_data
  end.

(** *** Formatting *)

(** [" | ".join([f"{k}: {v}" for k, v in row.items() if v not in [...]])]. *)
Definition row_text (r : row) : string :=
  join " | "
    (map (fun kv => fst kv ++ ": " ++ py_str (snd kv))
       (filter (fun kv => not_in_empty_values (snd kv)) r)).

(** [for i, row in enumerate(table['rows'], 1)], with [i] the next number. *)
Fixpoint format_rows (table_rows : list row) (i : nat)
    (formatted_text : string) : string :=
  match table_rows with
  | [] => formatted_text
  | r :: rest =>
      format_rows rest (S i)
        (formatted_text ++ (str_nat i ++ ". " ++ row_text r ++ LF))
  end.

Fixpoint format_tables (page_tables : list table_data)
    (formatted_text : string) : string :=
  match page_tables with
  | [] => formatted_text
  | table :: rest =>
      let formatted_text :=
        formatted_text ++ (LF ++ "TABLE: " ++ table_name table ++ LF) in
      let formatted_text :=
        formatted_text ++ ("Columns: " ++ join ", " (columns table) ++ LF) in
      let formatted_text := format_rows (rows table) 1 formatted_text in
      let formatted_text := formatted_text ++ LF in
      format_tables rest formatted_text
  end.

Fixpoint format_pages (coda_data : list page_data)
    (formatted_text : string) : string :=
  match coda_data with
  | [] => formatted_text
  | page :: rest =>
      let formatted_text :=
        formatted_text ++ ("=== PAGE: " ++ page_name page ++ " ===" ++ LF) in
      let formatted_text := format_tables (tables page) formatted_text in
      format_pages rest formatted_text
  end.

Definition BANNER : string := "CODA DOCUMENT DATA:" ++ LF ++ LF.

Definition format_data_for_gemini (coda_data : list page_data) : M string :=
  st <- get_state ;;
  match formatted_data_cache st with
  | Some cached => ret cached
  | None =>
      let formatted_text := format_pages coda_data BANNER in
      modify (set_formatted_data_cache (Some formatted_text)) ;;;
      ret formatted_text
  end.

(** *** The model *)

Definition ask_gemini_about_data (context_data question : string) : M string :=
  let prompt := prompt_of context_data question in
  try_except
    (call (GenerateContent prompt) (fun h => generate_content W h prompt))
    (fun e => ret ("Error communicating with Gemini AI: " ++ str_exn e)).

(** *** Routes *)

Definition root : M (list (string * string)) :=
  ret [ ("message", "Coda AI Assistant API is running!");
        ("status", "active");
        ("docs", "/docs");
        ("version", "1.0.0") ].

Definition health_check : M (list (string * string)) :=
  ret [ ("status", "healthy"); ("service", "Coda AI Assistant") ].

Definition ask_question (request : QuestionRequest) : M AIResponse :=
  try_except
    (doc_id <- resolve_doc_id DOC_NAME ;;
     match truthy_id doc_id with
     | None => raise (HTTPException 404 "Coda document not found")
     | Some doc_id =>
         coda_data <- get_all_coda_data doc_id ;;
         formatted_data <- format_data_for_gemini coda_data ;;
         reply <- ask_gemini_about_data formatted_data (question request) ;;
         ret {| answer := reply; status := "success" |}
     end)
    (fun e =>
       raise (HTTPException 500 ("Error processing request: " ++ str_exn e))).

Definition USAGE_HINT : CliqPayload :=
  {| payload_text := "Please provide a question. Usage: /coda-ai <your question>";
     payload_color := "#FF0000" |}.

Definition cliq_webhook (request : CliqRequest) : M CliqPayload :=
  try_except
    (if is_empty (strip (text request))
     then ret USAGE_HINT
     else
       doc_id <- resolve_doc_id DOC_NAME ;;
       match truthy_id doc_id with
       | None =>
           ret {| payload_text :=
                    CROSS_MARK ++ " Coda document not found. Please check the configuration.";
                  payload_color := "#FF0000" |}
       | Some doc_id =>
           coda_data <- get_all_coda_data doc_id ;;
           formatted_data <- format_data_for_gemini coda_data ;;
           reply <- ask_gemini_about_data formatted_data (text request) ;;
           let response_text :=
             ROBOT_MARK ++ " **Coda AI Assistant**" ++ LF ++ LF ++
             "**Question:** " ++ text request ++ LF ++ LF ++
             "**Answer:** " ++ reply in
           ret {| payload_text := response_text; payload_color := "#4CAF50" |}
       end)
    (fun e =>
       ret {| payload_text :=
                CROSS_MARK ++ " Error processing your question: " ++ str_exn e;
              payload_color := "#FF0000" |}).

Definition refresh_cache : M RefreshPayload :=
  modify (set_coda_data_cache None) ;;;
  modify (set_formatted_data_cache None) ;;;
  doc_id <- resolve_doc_id DOC_NAME ;;
  match truthy_id doc_id with
  | Some doc_id =>
      get_all_coda_data doc_id ;;;
      ret {| refresh_message := "Cache refreshed successfully";
             refresh_status := "success" |}
  | None => raise (HTTPException 404 "Coda document not found")
  end.

Definition sum_nat (l : list nat) : nat := fold_left Nat.add l 0%nat.

Definition get_data_summary : M DataSummary :=
  try_except
    (doc_id <- resolve_doc_id DOC_NAME ;;
     match truthy_id doc_id with
     | None => raise (HTTPException 404 "Coda document not found")
     | Some doc_id =>
         coda_data <- get_all_coda_data doc_id ;;
         let pages := length coda_data in
         let n_tables := sum_nat (map (fun page => length (tables page)) coda_data) in
         let n_rows :=
           sum_nat (flat_map
                      (fun page => map (fun table => length (rows table)) (tables page))
                      coda_data) in
         let info :=
           map (fun page =>
                  {| summary_page_name := page_name page;
                     summary_tables :=
                       map (fun table =>
                              {| summary_table_name := table_name table;
                                 row_count := length (rows table) |})
                           (tables page) |})
               coda_data in
         ret {| document := DOC_NAME;
                total_pages := pages;
                total_tables := n_tables;
                total_rows := n_rows;
                pages_info := info |}
     end)
    (fun e =>
       raise (HTTPException 500 ("Error getting data summary: " ++ str_exn e))).

(** A context build: the two calls every answering route makes in a row. *)
Definition build_context (doc_id : string) : M (list page_data * string) :=
  coda_data <- get_all_coda_data doc_id ;;
  formatted_data <- format_data_for_gemini coda_data ;;
  ret (coda_data, formatted_data).

End Program.

(** ** Operations on the process

    What can happen to the process between two observations of its state:
    a route is served (its reply or exception goes to the client), or a
    caller builds the context. *)

Inductive operation : Type :=
| OpRoot
| OpHealth
| OpAsk (request : QuestionRequest)
| OpCliq (request : CliqRequest)
| OpRefresh
| OpDataSummary
| OpBuildContext (doc_id : string).

Definition run_op (py_repr : value -> string)
    (http_exception_str : Z -> string -> string)
    (unicode_lower : string -> string) (W : World)
    (op : operation) (st : State) : State :=
  match op with
  | OpRoot => snd (root st)
  | OpHealth => snd (health_check st)
  | OpAsk r => snd (ask_question py_repr http_exception_str unicode_lower W r st)
  | OpCliq r => snd (cliq_webhook py_repr http_exception_str unicode_lower W r st)
  | OpRefresh => snd (refresh_cache http_exception_str unicode_lower W st)
  | OpDataSummary => snd (get_data_summary http_exception_str unicode_lower W st)
  | OpBuildContext d => snd (build_context py_repr http_exception_str W d st)
  end.

Definition run_ops (py_repr : value -> string)
    (http_exception_str : Z -> string -> string)
    (unicode_lower : string -> string) (W : World)
    (ops : list operation) (st : State) : State :=
  fold_left (fun s op => run_op py_repr http_exception_str unicode_lower W op s) ops st.

(** ** Sample worlds *)

(** A world whose answers do not change over time. *)
Definition steady_world
    (docs : response (list Doc.t))
    (pages : string -> response (list Page.t))
    (tbls : string -> response (list Table.t))
    (cols : string -> string -> response (list Column.t))
    (rws : string -> string -> response (list RawRow.t))
    (model : string -> response string) : World :=
  {| list_docs := fun _ => docs;
     list_pages := fun _ => pages;
     list_tables := fun _ => tbls;
     list_columns := fun _ => cols;
     list_rows := fun _ => rws;
     generate_content := fun _ => model |}.

(** The scenario of the specification: one page [P1] with one table [T1],
    columns [Name] and [Qty], a row with data and an empty row. *)
Definition demo_docs : list Doc.t :=
  [ {| Doc.id := "d0"; Doc.name := "Other" |};
    {| Doc.id := "d1"; Doc.name := " Samdanielvincy's CODA Playground " |} ].

Definition demo_pages : list Page.t :=
  [ {| Page.id := "p1"; Page.name := "P1" |} ].

Definition demo_tables : list Table.t :=
  [ {| Table.id := "t1"; Table.name := "T1"; Table.parent := Some "p1" |} ].

Definition demo_columns : list Column.t :=
  [ {| Column.id := "c1"; Column.name := "Name" |};
    {| Column.id := "c2"; Column.name := "Qty" |} ].

Definition demo_rows : list RawRow.t :=
  [ {| RawRow.values := [("c1", VStr "A"); ("c2", VInt 1)] |};
    {| RawRow.values := [("c1", VStr ""); ("c2", VStr "")] |} ].

Definition demo_world : World :=
  steady_world (Answer demo_docs) (fun _ => Answer demo_pages)
    (fun _ => Answer demo_tables) (fun _ _ => Answer demo_columns)
    (fun _ _ => Answer demo_rows) (fun _ => Answer "42").

(** The same workspace with the table listing out of order. *)
Definition tables_down_world : World :=
  steady_world (Answer demo_docs) (fun _ => Answer demo_pages)
    (fun _ => Failure "503 Service Unavailable") (fun _ _ => Answer demo_columns)
    (fun _ _ => Answer demo_rows) (fun _ => Answer "42").

(** The same workspace with the model out of order. *)
Definition model_down_world : World :=
  steady_world (Answer demo_docs) (fun _ => Answer demo_pages)
    (fun _ => Answer demo_tables) (fun _ _ => Answer demo_columns)
    (fun _ _ => Answer demo_rows) (fun _ => Failure "model unavailable").

(** A page with two tables; the column call of the first one fails. *)
Definition two_tables : list Table.t :=
  [ {| Table.id := "t0"; Table.name := "T0"; Table.parent := Some "p1" |};
    {| Table.id := "t1"; Table.name := "T1"; Table.parent := Some "p1" |};
    {| Table.id := "t2"; Table.name := "Elsewhere"; Table.parent := Some "p9" |} ].

Definition columns_down_world : World :=
  steady_world (Answer demo_docs) (fun _ => Answer demo_pages)
    (fun _ => Answer two_tables)
    (fun _ table_id =>
       if String.eqb table_id "t0" then Failure "timeout" else Answer demo_columns)
    (fun _ _ => Answer demo_rows) (fun _ => Answer "42").

(** A workspace whose table is restocked after its rows were read once. *)
Definition restocked_rows : list RawRow.t :=
  [ {| RawRow.values := [("c1", VStr "A"); ("c2", VInt 2)] |} ].

Definition is_rows_call (r : request) : bool :=
  match r with
  | Get url => String.eqb url (BASE_URL ++ "/docs/d1/tables/t1/rows")
  | GenerateContent _ => false
  end.

Definition restocking_world : World :=
  {| list_docs := fun _ => Answer demo_docs;
     list_pages := fun _ _ => Answer demo_pages;
     list_tables := fun _ _ => Answer demo_tables;
     list_columns := fun _ _ _ => Answer demo_columns;
     list_rows := fun h _ _ =>
       if existsb is_rows_call h then Answer restocked_rows else Answer demo_rows;
     generate_content := fun _ _ => Answer "42" |}.

Definition demo_request : CliqRequest :=
  {| text := "how many?"; user_name := Some "User";
     user_id := None; channel_name := None |}.

(** An aggregated list with a row whose quantity is the number zero. *)
Definition zero_stock_data : list page_data :=
  [ {| page_name := "P1";
       tables :=
         [ {| table_name := "T1";
              columns := ["Name"; "Qty"];
              rows := [ [("Name", VStr "A"); ("Qty", VInt 0)] ] |} ] |} ].

(** [repr] and [str(HTTPException)] chosen for the samples. *)
Definition sample_repr (v : value) : string := "".
Definition sample_http_str (code : Z) (detail : string) : string := detail.

(** The lower case beyond ASCII chosen for the samples: that of the
    capital letters of Latin-1, U+00C0..U+00DE but the sign U+00D7 (bytes
    C3 80..9E but C3 97), which [str.lower] moves 32 places up; the samples
    have no other capital letter beyond ASCII. *)
Fixpoint sample_unicode_lower (s : string) : string :=
  match s with
  | EmptyString => EmptyString
  | String c1 s1 =>
      match s1 with
      | EmptyString => s
      | String c2 s2 =>
          if byte_in 195 195 c1 && byte_in 128 158 c2 && negb (byte_in 151 151 c2)
          then String c1 (String (ascii_of_nat (nat_of_ascii c2 + 32))
                                 (sample_unicode_lower s2))
          else String c1 (sample_unicode_lower s1)
      end
  end.

(** U+00A0 and U+3000, and the letters U+00C9 and U+00E9, in UTF-8. *)
Definition NO_BREAK_SPACE : string :=
  String (ascii_of_nat 194) (String (ascii_of_nat 160) EmptyString).
Definition IDEOGRAPHIC_SPACE : string :=
  String (ascii_of_nat 227)
    (String (ascii_of_nat 128) (String (ascii_of_nat 128) EmptyString)).
Definition CAPITAL_E_ACUTE : string :=
  String (ascii_of_nat 195) (String (ascii_of_nat 137) EmptyString).
Definition SMALL_E_ACUTE : string :=
  String (ascii_of_nat 195) (String (ascii_of_nat 169) EmptyString).

(** A workspace without the configured document. *)
Definition no_match_world : World :=
  steady_world (Answer [ {| Doc.id := "d0"; Doc.name := "Other" |} ])
    (fun _ => Answer demo_pages) (fun _ => Answer demo_tables)
    (fun _ _ => Answer demo_columns) (fun _ _ => Answer demo_rows)
    (fun _ => Answer "42").

(** A workspace that lists the configured document with a no-break space
    before its name and an ideographic space after it. *)
Definition padded_name_world : World :=
  steady_world
    (Answer [ {| Doc.id := "d1";
                 Doc.name := NO_BREAK_SPACE ++ "SamDanielVincy's Coda Playground" ++
                             IDEOGRAPHIC_SPACE |} ])
    (fun _ => Answer demo_pages) (fun _ => Answer demo_tables)
    (fun _ _ => Answer demo_columns) (fun _ _ => Answer demo_rows)
    (fun _ => Answer "42").

(** The process after one context build on the demo workspace: both cache
    variables are set. *)
Definition warm_state : State :=
  snd (build_context sample_repr sample_http_str demo_world "d1" initial_state).

(** ** The specification's vocabulary *)

(** The set of the emptiness rule, read element by element: absent, the
    empty string, the boolean false, the string ["False"]. *)
Definition is_listed_empty (v : value) : bool :=
  match v with
  | VNone => true
  | VBool b => negb b
  | VStr s => String.eqb s "" || String.eqb s "False"
  | VInt _ | VFloat _ | VList _ | VDict _ => false
  end.

(** The rule the filter applies, said of a row: one of its values is true
    in Python's sense and equals none of [None], [""], [False], ["False"]. *)
Definition carries_data (r : row) : bool :=
  existsb (fun v => truthy v && negb (py_in v EMPTY_VALUES)) (dict_values r).

(** What one aggregation pass received for a table: the table and, unless a
    call for it failed, its rows under column names. *)
Record fetched_table : Type := {
  ft_table : Table.t;
  ft_rows : option (list row)
}.

(** What one aggregation pass received for a page: the page and the tables
    listed for it, in the order listed. *)
Record fetched_page : Type := {
  fp_page : Page.t;
  fp_tables : list fetched_table
}.

Definition is_nil {A : Type} (l : list A) : bool :=
  match l with [] => true | _ :: _ => false end.

(** The rows of a table that survive the emptiness filter. *)
Definition surviving_rows (t : fetched_table) : list row :=
  match ft_rows t with
  | Some fetched => filter has_data fetched
  | None => []
  end.

Definition table_survives (t : fetched_table) : bool :=
  negb (is_nil (surviving_rows t)).

(** The entry of a surviving table: its columns are the keys of its first
    surviving row. *)
Definition table_entry (t : fetched_table) : table_data :=
  {| table_name := Table.name (ft_table t);
     columns := dict_keys (hd [] (surviving_rows t));
     rows := surviving_rows t |}.

Definition surviving_tables (p : fetched_page) : list table_data :=
  map table_entry (filter table_survives (fp_tables p)).

Definition page_survives (p : fetched_page) : bool :=
  negb (is_nil (surviving_tables p)).

Definition page_entry (p : fetched_page) : page_data :=
  {| page_name := Page.name (fp_page p); tables := surviving_tables p |}.

(** The aggregation result as the specification words it: the surviving
    pages with their surviving tables, in the order received. *)
Definition aggregate_spec (snapshot : list fetched_page) : list page_data :=
  map page_entry (filter page_survives snapshot).

(** The rendering as the specification words it, for a given set of
    excluded values: banner, a section per page, a block per table, a
    numbered line per row. *)
Definition render_row (py_repr : value -> string) (excluded : value -> bool)
    (numbered : nat * row) : string :=
  str_nat (fst numbered) ++ ". " ++
  join " | "
    (map (fun kv => fst kv ++ ": " ++ py_str py_repr (snd kv))
       (filter (fun kv => negb (excluded (snd kv))) (snd numbered))) ++
  LF.

Definition render_table (py_repr : value -> string) (excluded : value -> bool)
    (t : table_data) : string :=
  LF ++ "TABLE: " ++ table_name t ++ LF ++
  "Columns: " ++ join ", " (columns t) ++ LF ++
  String.concat ""
    (map (render_row py_repr excluded)
       (combine (seq 1 (length (rows t))) (rows t))) ++
  LF.

Definition render_page (py_repr : value -> string) (excluded : value -> bool)
    (p : page_data) : string :=
  "=== PAGE: " ++ page_name p ++ " ===" ++ LF ++
  String.concat "" (map (render_table py_repr excluded) (tables p)).

Definition render_spec (py_repr : value -> string) (excluded : value -> bool)
    (coda_data : list page_data) : string :=
  "CODA DOCUMENT DATA:" ++ LF ++ LF ++
  String.concat "" (map (render_page py_repr excluded) coda_data).

(** The two cache variables are in step when the rendered text is only
    there together with the aggregated list. *)
Definition text_implies_data (st : State) : Prop :=
  forall cached, formatted_data_cache st = Some cached ->
  exists data, coda_data_cache st = Some data.

(** [st'] has the cache variables of [st]. *)
Definition same_caches (st st' : State) : Prop :=
  coda_data_cache st' = coda_data_cache st /\
  formatted_data_cache st' = formatted_data_cache st.

(** A computation that leaves both cache variables alone, whether it
    returns or raises. *)
Definition keeps_caches {A : Type} (m : M A) : Prop :=
  forall st r st', m st = (r, st') -> same_caches st st'.

(** [st'] has the calls of [st] and possibly newer ones. *)
Definition extends_calls (st st' : State) : Prop :=
  exists newer, calls st' = (newer ++ calls st)%list.

(** A computation that only ever adds to the log of calls. *)
Definition grows_calls {A : Type} (m : M A) : Prop :=
  forall st r st', m st = (r, st') -> extends_calls st st'.

(** A computation that always returns. *)
Definition never_raises {A : Type} (m : M A) : Prop :=
  forall st, exists a st', m st = (Ok a, st').

(** A computation that keeps the rendered text tied to the aggregated
    list, whether it returns or raises. *)
Definition keeps_text_with_data {A : Type} (m : M A) : Prop :=
  forall st r st', text_implies_data st -> m st = (r, st') -> text_implies_data st'.

(** Both cache variables are set, or neither is. *)
Definition both_or_neither (st : State) : Prop :=
  (coda_data_cache st = None /\ formatted_data_cache st = None) \/
  (exists data cached,
     coda_data_cache st = Some data /\ formatted_data_cache st = Some cached).

(** The key a cell is stored under: [colmap.get(col_id, col_id)]. *)
Definition shown_name (colmap : dict string) (col_id : string) : string :=
  dict_get_default colmap col_id col_id.

(** A cell of a fetched row under the key it is stored under. *)
Definition renamed_cell (colmap : dict string) (cell : string * value) : string * value :=
  (shown_name colmap (fst cell), snd cell).

(** Whatever cache variable is set in [st] is set to the same in [st']. *)
Definition cache_kept (st st' : State) : Prop :=
  (forall data, coda_data_cache st = Some data -> coda_data_cache st' = Some data) /\
  (forall cached, formatted_data_cache st = Some cached ->
                  formatted_data_cache st' = Some cached).

(** A computation that never changes a cache variable that is set. *)
Definition keeps_set_caches {A : Type} (m : M A) : Prop :=
  forall st r st', m st = (r, st') -> cache_kept st st'.

Definition is_refresh (op : operation) : bool :=
  match op with OpRefresh => true | _ => false end.

(** The cached text, when there is one, is the text the formatter computes
    for the cached list. *)
Definition text_renders_data (py_repr : value -> string) (st : State) : Prop :=
  forall cached, formatted_data_cache st = Some cached ->
  exists data,
    coda_data_cache st = Some data /\
    cached = format_pages py_repr data BANNER.

(** The tables listed during a pass, over all pages, and those among them
    that were left out because a call for them failed. *)
Definition listed_tables (snapshot : list fetched_page) : list fetched_table :=
  flat_map fp_tables snapshot.

Definition is_failed (t : fetched_table) : bool :=
  match ft_rows t with None => true | Some _ => false end.

Definition failed_tables (snapshot : list fetched_page) : list fetched_table :=
  filter is_failed (listed_tables snapshot).

(** From [st] to [st']: [fixed] calls plus one or two per table were made,
    two for every table that did not fail, and one line was printed per
    failed table. *)
Definition pass_cost (st st' : State) (fixed n_tables n_failed : nat) : Prop :=
  (length (calls st') <= length (calls st) + fixed + 2 * n_tables)%nat /\
  (length (calls st) + fixed + 2 * n_tables <= length (calls st') + n_failed)%nat /\
  length (stdout st') = (length (stdout st) + n_failed)%nat.

(** An aggregated table as a pass builds it: it has a row, all its rows
    carry data, and its columns are the keys of its first row. *)
Definition table_well_formed (t : table_data) : Prop :=
  rows t <> [] /\
  Forall (fun r => has_data r = true) (rows t) /\
  columns t = dict_keys (hd [] (rows t)).

(** An aggregated page as a pass builds it: it has a table, and all its
    tables are well formed. *)
Definition page_well_formed (p : page_data) : Prop :=
  tables p <> [] /\ Forall table_well_formed (tables p).

(** The aggregated list in the cache, when there is one, is made of well
    formed pages. *)
Definition cache_well_formed (st : State) : Prop :=
  forall data, coda_data_cache st = Some data -> Forall page_well_formed data.

(** A computation that keeps a property of the state, whether it returns
    or raises. *)
Definition preserves (P : State -> Prop) {A : Type} (m : M A) : Prop :=
  forall st r st', P st -> m st = (r, st') -> P st'.

(** What the model call gives the handlers: the reply, or the error
    sentence of [ask_gemini_about_data]. *)
Definition reply_text (W : World) (history : list request) (prompt : string) : string :=
  match generate_content W history prompt with
  | Answer reply => reply
  | Failure msg => "Error communicating with Gemini AI: " ++ msg
  end.

Section Snapshot.

Variable http_exception_str : Z -> string -> string.
Variable W : World.

(** The round trips of one aggregation pass and nothing more: the same
    calls in the same order, every answer kept as received.  A table whose
    column or row call fails is kept with no rows, and the failure is
    printed. *)
Definition fetch_table (doc_id : string) (table : Table.t) : M fetched_table :=
  try_except
    (colmap <- get_column_map W doc_id (Table.id table) ;;
     fetched <- get_rows W doc_id (Table.id table) colmap ;;
     ret {| ft_table := table; ft_rows := Some fetched |})
    (fun e =>
       print ("Error processing table " ++ Table.name table ++ ": " ++
              str_exn http_exception_str e) ;;;
       ret {| ft_table := table; ft_rows := None |}).

Fixpoint fetch_tables (doc_id : string) (listed : list Table.t) : M (list fetched_table) :=
  match listed with
  | [] => ret []
  | table :: rest =>
      t <- fetch_table doc_id table ;;
      ts <- fetch_tables doc_id rest ;;
      ret (t :: ts)
  end.

Fixpoint fetch_pages (doc_id : string) (pages : list Page.t) : M (list fetched_page) :=
  match pages with
  | [] => ret []
  | page :: rest =>
      listed <- get_tables_created_on_page W doc_id (Page.id page) ;;
      ts <- fetch_tables doc_id listed ;;
      ps <- fetch_pages doc_id rest ;;
      ret ({| fp_page := page; fp_tables := ts |} :: ps)
  end.

Definition fetch_all (doc_id : string) : M (list fetched_page) :=
  pages <- get_pages W doc_id ;;
  fetch_pages doc_id pages.

End Snapshot.

(** ** Properties *)

(** *** Strings and rows *)

Lemma filter_rows_loop_app (fetched acc : list row) :
  filter_rows_loop fetched acc = (acc ++ filter has_data fetched)%list.
Proof.
  revert acc.
  induction fetched as [| r rest IH]; intros acc; simpl.
  - now rewrite app_nil_r.
  - destruct (has_data r); rewrite IH; [ | reflexivity ].
    now rewrite <- app_assoc.
Qed.

Lemma tables_on_page_app (all_tables : list Table.t) (page_id : string)
    (acc : list Table.t) :
  tables_on_page all_tables page_id acc =
  (acc ++ filter (fun table => parent_is table page_id) all_tables)%list.
Proof.
  revert acc.
  induction all_tables as [| table rest IH]; intros acc; simpl.
  - now rewrite app_nil_r.
  - destruct (parent_is table page_id); rewrite IH; [ | reflexivity ].
    now rewrite <- app_assoc.
Qed.

(** The tables of a page are the listed tables whose parent is the page,
    in the order listed. *)
Lemma tables_on_page_filter (all_tables : list Table.t) (page_id : string) :
  tables_on_page all_tables page_id [] =
  filter (fun table => parent_is table page_id) all_tables.
Proof. apply tables_on_page_app. Qed.

Lemma readable_rows_loop_app (colmap : dict string) (items : list RawRow.t)
    (acc : list row) :
  readable_rows_loop colmap items acc = (acc ++ map (clean_row colmap) items)%list.
Proof.
  revert acc.
  induction items as [| r rest IH]; intros acc; simpl.
  - now rewrite app_nil_r.
  - rewrite IH.
    now rewrite <- app_assoc.
Qed.

(** The readable rows are the rows returned, one for one and in order. *)
Lemma readable_rows_loop_map (colmap : dict string) (items : list RawRow.t) :
  readable_rows_loop colmap items [] = map (clean_row colmap) items.
Proof. apply readable_rows_loop_app. Qed.

Lemma filter_rows_loop_filter (fetched : list row) :
  filter_rows_loop fetched [] = filter has_data fetched.
Proof. apply filter_rows_loop_app. Qed.

Lemma has_data_iff (r : row) :
  has_data r = true <->
  exists v, In v (dict_values r) /\ truthy v = true /\ py_in v EMPTY_VALUES = false.
Proof.
  unfold has_data, py_any.
  rewrite existsb_exists.
  split.
  - intros (v & Hin & Ht).
    apply filter_In in Hin.
    destruct Hin as [Hin Hne].
    exists v.
    unfold not_in_empty_values in Hne.
    apply negb_true_iff in Hne.
    auto.
  - intros (v & Hin & Ht & Hne).
    exists v.
    split; [ | exact Ht ].
    apply filter_In.
    split; [ exact Hin | ].
    unfold not_in_empty_values.
    now rewrite Hne.
Qed.

Lemma has_data_carries_data (r : row) : has_data r = carries_data r.
Proof.
  unfold has_data, carries_data, py_any, not_in_empty_values.
  induction (dict_values r) as [| v vs IH]; cbn [filter existsb]; [ reflexivity | ].
  destruct (py_in v EMPTY_VALUES); cbn [negb existsb].
  - now rewrite andb_false_r.
  - now rewrite andb_true_r, IH.
Qed.

Lemma carries_data_iff (r : row) :
  carries_data r = true <->
  exists v, In v (dict_values r) /\ truthy v = true /\ py_in v EMPTY_VALUES = false.
Proof. rewrite <- has_data_carries_data. apply has_data_iff. Qed.

(** C1, as the code has it: the aggregation pass keeps a fetched row if and
    only if one of its values is true in Python's sense and is not equal
    (Python's [==]) to any of [None], [""], [False], ["False"], and the rows
    kept stay in the order fetched: the loop appends to the rows kept so
    far exactly the fetched rows that carry data, each as often as it was
    fetched and in the order fetched. *)
Theorem emptiness_filter_keeps_truthy_rows (fetched : list row) :
  (forall kept : list row,
      filter_rows_loop fetched kept = (kept ++ filter carries_data fetched)%list) /\
  filter_rows_loop fetched [] = filter carries_data fetched /\
  (forall r : row,
      carries_data r = true <->
      exists v,
        In v (dict_values r) /\ truthy v = true /\ py_in v EMPTY_VALUES = false) /\
  (forall r : row,
      In r (filter_rows_loop fetched []) <->
      In r fetched /\
      exists v,
        In v (dict_values r) /\ truthy v = true /\ py_in v EMPTY_VALUES = false).
Proof.
  assert (Hfilter : filter has_data fetched = filter carries_data fetched).
  { apply filter_ext. intros r. apply has_data_carries_data. }
  split; [ | split; [ | split ] ].
  - intros kept.
    rewrite filter_rows_loop_app.
    now rewrite Hfilter.
  - now rewrite filter_rows_loop_filter.
  - apply carries_data_iff.
  - intros r.
    rewrite filter_rows_loop_filter, filter_In, has_data_iff.
    reflexivity.
Qed.

(** C1 as stated fails: a row whose only value is the empty list has a
    value outside the listed set and is discarded all the same. *)
Lemma emptiness_filter_drops_empty_list_row :
  let r : row := [("Tags", VList [])] in
  (exists v, In v (dict_values r) /\ is_listed_empty v = false) /\
  filter_rows_loop [r] [] = [].
Proof.
  split.
  - exists (VList []).
    split; [ left | ]; reflexivity.
  - reflexivity.
Qed.

Lemma string_app_nil_r (s : string) : s ++ "" = s.
Proof. induction s as [| c s IH]; simpl; [ | rewrite IH ]; reflexivity. Qed.

Lemma string_app_assoc (a b c : string) : (a ++ b) ++ c = a ++ (b ++ c).
Proof. induction a as [| x a IH]; simpl; [ | rewrite IH ]; reflexivity. Qed.

Lemma concat_empty_cons (x : string) (l : list string) :
  String.concat "" (x :: l) = x ++ String.concat "" l.
Proof.
  destruct l as [| y l]; simpl.
  - now rewrite string_app_nil_r.
  - reflexivity.
Qed.

(** *** White space and case

    [lstrip] and [all_space] consume one white-space character at a time;
    the lemmas below are by induction on the length of the text. *)

Lemma byte_in_true (lo hi : nat) (c : ascii) :
  byte_in lo hi c = true <-> (lo <= nat_of_ascii c <= hi)%nat.
Proof.
  unfold byte_in.
  rewrite andb_true_iff, !Nat.leb_le.
  reflexivity.
Qed.

Lemma starts_space_not_continuation (c : ascii) :
  starts_space c = true -> byte_in 128 191 c = false.
Proof.
  intros H.
  destruct (byte_in 128 191 c) eqn:E; [ | reflexivity ].
  apply byte_in_true in E.
  unfold starts_space, space1 in H.
  rewrite !orb_true_iff, !byte_in_true in H.
  lia.
Qed.

Lemma space2_bytes (c1 c2 : ascii) :
  space2 c1 c2 = true -> starts_space c1 = true /\ byte_in 128 191 c2 = true.
Proof.
  unfold space2, starts_space.
  rewrite andb_true_iff, !orb_true_iff, !byte_in_true.
  lia.
Qed.

Lemma space3_bytes (c1 c2 c3 : ascii) :
  space3 c1 c2 c3 = true ->
  starts_space c1 = true /\ byte_in 128 191 c2 = true /\ byte_in 128 191 c3 = true.
Proof.
  unfold space3, starts_space.
  rewrite !orb_true_iff, !andb_true_iff, !orb_true_iff, !andb_true_iff, !orb_true_iff,
    !byte_in_true.
  lia.
Qed.

Lemma space1_starts (c : ascii) : space1 c = true -> starts_space c = true.
Proof. unfold starts_space. intros ->. reflexivity. Qed.

Lemma after_space_starts (c : ascii) (s r : string) :
  after_space (String c s) = Some r -> starts_space c = true.
Proof.
  cbn [after_space].
  destruct (space1 c) eqn:E1; [ intros _; now apply space1_starts | ].
  destruct s as [| c2 s2]; [ discriminate | ].
  destruct (space2 c c2) eqn:E2; [ intros _; now apply space2_bytes in E2 | ].
  destruct s2 as [| c3 s3]; [ discriminate | ].
  destruct (space3 c c2 c3) eqn:E3; [ intros _; now apply space3_bytes in E3 | ].
  discriminate.
Qed.

Lemma lstrip_unfold (s : string) :
  lstrip s = match after_space s with Some r => lstrip r | None => s end.
Proof.
  destruct s as [| c1 s1]; [ reflexivity | ].
  cbn [lstrip after_space].
  destruct (space1 c1); [ reflexivity | ].
  destruct s1 as [| c2 s2]; [ reflexivity | ].
  destruct (space2 c1 c2); [ reflexivity | ].
  destruct s2 as [| c3 s3]; [ reflexivity | ].
  destruct (space3 c1 c2 c3); reflexivity.
Qed.

Lemma all_space_unfold (s : string) :
  all_space s =
  match s with
  | EmptyString => true
  | String _ _ =>
      match after_space s with Some r => all_space r | None => false end
  end.
Proof.
  destruct s as [| c1 s1]; [ reflexivity | ].
  cbn [all_space after_space].
  destruct (space1 c1); [ reflexivity | ].
  destruct s1 as [| c2 s2]; [ reflexivity | ].
  destruct (space2 c1 c2); [ reflexivity | ].
  destruct s2 as [| c3 s3]; [ reflexivity | ].
  destruct (space3 c1 c2 c3); reflexivity.
Qed.

Lemma after_space_shorter (s r : string) :
  after_space s = Some r -> (String.length r < String.length s)%nat.
Proof.
  destruct s as [| c1 s1]; [ discriminate | ].
  cbn [after_space String.length].
  destruct (space1 c1); [ intros [= <-]; lia | ].
  destruct s1 as [| c2 s2]; [ discriminate | ].
  cbn [String.length].
  destruct (space2 c1 c2); [ intros [= <-]; lia | ].
  destruct s2 as [| c3 s3]; [ discriminate | ].
  cbn [String.length].
  destruct (space3 c1 c2 c3); [ intros [= <-]; lia | discriminate ].
Qed.

Lemma after_space_app (a r s : string) :
  after_space a = Some r -> after_space (a ++ s) = Some (r ++ s).
Proof.
  destruct a as [| c1 a1]; [ discriminate | ].
  cbn [after_space append].
  destruct (space1 c1); [ now intros [= <-] | ].
  destruct a1 as [| c2 a2]; [ discriminate | ].
  cbn [append].
  destruct (space2 c1 c2); [ now intros [= <-] | ].
  destruct a2 as [| c3 a3]; [ discriminate | ].
  cbn [append].
  destruct (space3 c1 c2 c3); [ now intros [= <-] | discriminate ].
Qed.

Lemma string_length_ind (P : string -> Prop) :
  (forall s, (forall r, (String.length r < String.length s)%nat -> P r) -> P s) ->
  forall s, P s.
Proof.
  intros Hstep s.
  remember (String.length s) as n eqn:Hn.
  revert s Hn.
  induction n as [n IH] using lt_wf_ind.
  intros s Hn.
  apply Hstep.
  intros r Hr.
  apply (IH (String.length r)); [ lia | reflexivity ].
Qed.

Lemma lstrip_all_space (s : string) : all_space s = true -> lstrip s = "".
Proof.
  induction s as [s IH] using string_length_ind.
  rewrite all_space_unfold, lstrip_unfold.
  destruct s as [| c s']; [ reflexivity | ].
  destruct (after_space (String c s')) as [r |] eqn:E; [ | discriminate ].
  apply IH.
  now apply after_space_shorter.
Qed.

Lemma lstrip_not_all_space (s : string) :
  all_space s = false ->
  exists c rest, lstrip s = String c rest /\ after_space (String c rest) = None.
Proof.
  induction s as [s IH] using string_length_ind.
  rewrite all_space_unfold, lstrip_unfold.
  destruct s as [| c s']; [ discriminate | ].
  destruct (after_space (String c s')) as [r |] eqn:E.
  - apply IH.
    now apply after_space_shorter.
  - intros _. now exists c, s'.
Qed.

Lemma all_space_no_space (c : ascii) (rest : string) :
  after_space (String c rest) = None -> all_space (String c rest) = false.
Proof. intros H. now rewrite all_space_unfold, H. Qed.

(** The stripped text is empty exactly when the text is all white space. *)
Lemma strip_empty_all_space (s : string) : is_empty (strip s) = all_space s.
Proof.
  unfold strip.
  destruct (all_space s) eqn:Hs.
  - now rewrite (lstrip_all_space s Hs).
  - destruct (lstrip_not_all_space s Hs) as (c & rest & -> & Hnone).
    cbn [rstrip].
    now rewrite (all_space_no_space c rest Hnone).
Qed.

Lemma all_space_app_l (a s : string) :
  all_space a = true -> all_space (a ++ s) = all_space s.
Proof.
  induction a as [a IH] using string_length_ind.
  rewrite (all_space_unfold a).
  destruct a as [| c a']; [ reflexivity | ].
  destruct (after_space (String c a')) as [r |] eqn:E; [ | discriminate ].
  intros Hr.
  rewrite all_space_unfold.
  cbn [append].
  change (String c (a' ++ s)) with (String c a' ++ s).
  rewrite (after_space_app _ _ s E).
  apply IH; [ now apply after_space_shorter | exact Hr ].
Qed.

Lemma lstrip_app_space (a s : string) :
  all_space a = true -> lstrip (a ++ s) = lstrip s.
Proof.
  induction a as [a IH] using string_length_ind.
  rewrite (all_space_unfold a).
  destruct a as [| c a']; [ reflexivity | ].
  destruct (after_space (String c a')) as [r |] eqn:E; [ | discriminate ].
  intros Hr.
  rewrite lstrip_unfold, (after_space_app _ _ s E).
  apply IH; [ now apply after_space_shorter | exact Hr ].
Qed.

Lemma all_space_starts (c : ascii) (b : string) :
  all_space (String c b) = true -> starts_space c = true.
Proof.
  rewrite all_space_unfold.
  destruct (after_space (String c b)) as [r |] eqn:E; [ | discriminate ].
  intros _.
  now apply after_space_starts in E.
Qed.

Lemma space2_not_start (c1 c2 : ascii) :
  starts_space c2 = true -> space2 c1 c2 = false.
Proof.
  intros Hs.
  destruct (space2 c1 c2) eqn:E; [ | reflexivity ].
  apply space2_bytes in E.
  apply starts_space_not_continuation in Hs.
  destruct E; congruence.
Qed.

Lemma space3_not_start2 (c1 c2 c3 : ascii) :
  starts_space c2 = true -> space3 c1 c2 c3 = false.
Proof.
  intros Hs.
  destruct (space3 c1 c2 c3) eqn:E; [ | reflexivity ].
  apply space3_bytes in E.
  apply starts_space_not_continuation in Hs.
  destruct E as (_ & ? & _); congruence.
Qed.

Lemma space3_not_start3 (c1 c2 c3 : ascii) :
  starts_space c3 = true -> space3 c1 c2 c3 = false.
Proof.
  intros Hs.
  destruct (space3 c1 c2 c3) eqn:E; [ | reflexivity ].
  apply space3_bytes in E.
  apply starts_space_not_continuation in Hs.
  destruct E as (_ & _ & ?); congruence.
Qed.

(** No white-space character lies across the end of [x] when only white
    space follows. *)
Lemma after_space_app_none (c : ascii) (x b : string) :
  after_space (String c x) = None -> all_space b = true ->
  after_space (String c x ++ b) = None.
Proof.
  intros Hnone Hb.
  assert (Hstart : b = "" \/ exists c' b', b = String c' b' /\ starts_space c' = true).
  { destruct b as [| c' b']; [ now left | right ].
    exists c', b'.
    split; [ reflexivity | now apply all_space_starts in Hb ]. }
  destruct Hstart as [-> | (c' & b' & -> & Hs)].
  { now rewrite string_app_nil_r. }
  revert Hnone.
  destruct x as [| c2 [| c3 x3]]; cbn [after_space append].
  - destruct (space1 c); [ discriminate | intros _ ].
    rewrite (space2_not_start c c' Hs).
    destruct b' as [| c3 b3]; [ reflexivity | ].
    now rewrite (space3_not_start2 c c' c3 Hs).
  - destruct (space1 c); [ discriminate | ].
    destruct (space2 c c2); [ discriminate | intros _ ].
    now rewrite (space3_not_start3 c c2 c' Hs).
  - destruct (space1 c); [ discriminate | ].
    destruct (space2 c c2); [ discriminate | ].
    destruct (space3 c c2 c3); [ discriminate | reflexivity ].
Qed.

Lemma all_space_app_r (x b : string) :
  all_space b = true -> all_space (x ++ b) = all_space x.
Proof.
  intros Hb.
  induction x as [x IH] using string_length_ind.
  destruct x as [| c x']; [ exact Hb | ].
  rewrite (all_space_unfold (String c x')), all_space_unfold.
  cbn [append].
  change (String c (x' ++ b)) with (String c x' ++ b).
  destruct (after_space (String c x')) as [r |] eqn:E.
  - rewrite (after_space_app _ _ b E).
    apply IH.
    now apply after_space_shorter.
  - now rewrite (after_space_app_none c x' b E Hb).
Qed.

Lemma lstrip_app_not_all_space (s b : string) :
  all_space s = false -> all_space b = true -> lstrip (s ++ b) = lstrip s ++ b.
Proof.
  intros Hs Hb.
  induction s as [s IH] using string_length_ind.
  destruct s as [| c s']; [ discriminate | ].
  rewrite all_space_unfold in Hs.
  rewrite (lstrip_unfold (String c s')), lstrip_unfold.
  destruct (after_space (String c s')) as [r |] eqn:E.
  - rewrite (after_space_app _ _ b E).
    apply IH; [ now apply after_space_shorter | exact Hs ].
  - now rewrite (after_space_app_none c s' b E Hb).
Qed.

Lemma rstrip_unfold (c : ascii) (s : string) :
  rstrip (String c s) =
  if all_space (String c s) then "" else String c (rstrip s).
Proof. reflexivity. Qed.

Lemma rstrip_all_space (b : string) : all_space b = true -> rstrip b = "".
Proof.
  destruct b as [| c b]; [ reflexivity | ].
  intros Hb.
  now rewrite rstrip_unfold, Hb.
Qed.

Lemma rstrip_app_space (t b : string) :
  all_space b = true -> rstrip (t ++ b) = rstrip t.
Proof.
  intros Hb.
  induction t as [| c t IH].
  - now apply rstrip_all_space.
  - change (String c t ++ b) with (String c (t ++ b)).
    rewrite !rstrip_unfold.
    change (String c (t ++ b)) with (String c t ++ b).
    now rewrite (all_space_app_r _ b Hb), IH.
Qed.

(** White space around a text is stripped with it. *)
Lemma strip_padding (a s b : string) :
  all_space a = true -> all_space b = true -> strip (a ++ s ++ b) = strip s.
Proof.
  intros Ha Hb.
  unfold strip.
  rewrite (lstrip_app_space a _ Ha).
  destruct (all_space s) eqn:Hs.
  - rewrite (lstrip_all_space s Hs), lstrip_all_space; [ reflexivity | ].
    now rewrite (all_space_app_l s b Hs).
  - rewrite (lstrip_app_not_all_space s b Hs Hb).
    now apply rstrip_app_space.
Qed.

Lemma fold_letter_byte (c : ascii) :
  nat_of_ascii (fold_letter c) =
  if byte_in 65 90 c then (nat_of_ascii c + 32)%nat else nat_of_ascii c.
Proof.
  unfold fold_letter.
  destruct (byte_in 65 90 c) eqn:E; [ | reflexivity ].
  apply byte_in_true in E.
  apply nat_ascii_embedding.
  lia.
Qed.

(** Folding a letter moves no byte into or out of a range that has no
    letter of A..Z or a..z. *)
Lemma byte_in_fold (lo hi : nat) (c : ascii) :
  (hi < 65 \/ 122 < lo)%nat ->
  byte_in lo hi (fold_letter c) = byte_in lo hi c.
Proof.
  intros Hrange.
  destruct (byte_in lo hi c) eqn:E1.
  - apply byte_in_true in E1.
    apply byte_in_true.
    rewrite fold_letter_byte.
    destruct (byte_in 65 90 c) eqn:E; [ apply byte_in_true in E; lia | exact E1 ].
  - destruct (byte_in lo hi (fold_letter c)) eqn:E2; [ | reflexivity ].
    apply byte_in_true in E2.
    rewrite fold_letter_byte in E2.
    destruct (byte_in 65 90 c) eqn:E.
    + apply byte_in_true in E. lia.
    + apply byte_in_true in E2. congruence.
Qed.

Lemma space1_fold (c : ascii) : space1 (fold_letter c) = space1 c.
Proof. unfold space1. rewrite !byte_in_fold by lia. reflexivity. Qed.

Lemma space2_fold (c1 c2 : ascii) :
  space2 (fold_letter c1) (fold_letter c2) = space2 c1 c2.
Proof. unfold space2. rewrite !byte_in_fold by lia. reflexivity. Qed.

Lemma space3_fold (c1 c2 c3 : ascii) :
  space3 (fold_letter c1) (fold_letter c2) (fold_letter c3) = space3 c1 c2 c3.
Proof. unfold space3. rewrite !byte_in_fold by lia. reflexivity. Qed.

Lemma after_space_lower (s : string) :
  after_space (lower s) = option_map lower (after_space s).
Proof.
  destruct s as [| c1 s1]; [ reflexivity | ].
  cbn [lower after_space].
  rewrite space1_fold.
  destruct (space1 c1); [ reflexivity | ].
  destruct s1 as [| c2 s2]; [ reflexivity | ].
  cbn [lower].
  rewrite space2_fold.
  destruct (space2 c1 c2); [ reflexivity | ].
  destruct s2 as [| c3 s3]; [ reflexivity | ].
  cbn [lower].
  rewrite space3_fold.
  destruct (space3 c1 c2 c3); reflexivity.
Qed.

Lemma lstrip_lower (s : string) : lstrip (lower s) = lower (lstrip s).
Proof.
  induction s as [s IH] using string_length_ind.
  rewrite (lstrip_unfold s), lstrip_unfold, after_space_lower.
  destruct (after_space s) as [r |] eqn:E; cbn [option_map]; [ | reflexivity ].
  apply IH.
  now apply after_space_shorter.
Qed.

Lemma all_space_lower (s : string) : all_space (lower s) = all_space s.
Proof.
  induction s as [s IH] using string_length_ind.
  rewrite (all_space_unfold s), all_space_unfold, after_space_lower.
  destruct s as [| c s']; [ reflexivity | ].
  cbn [lower].
  destruct (after_space (String c s')) as [r |] eqn:E; cbn [option_map];
    [ | reflexivity ].
  apply IH.
  now apply after_space_shorter.
Qed.

Lemma rstrip_lower (s : string) : rstrip (lower s) = lower (rstrip s).
Proof.
  induction s as [| c s IH]; [ reflexivity | ].
  rewrite rstrip_unfold.
  change (lower (String c s)) with (String (fold_letter c) (lower s)).
  rewrite rstrip_unfold.
  change (String (fold_letter c) (lower s)) with (lower (String c s)).
  rewrite all_space_lower, IH.
  destruct (all_space (String c s)); reflexivity.
Qed.

Lemma strip_lower (s : string) : strip (lower s) = lower (strip s).
Proof. unfold strip. now rewrite lstrip_lower, rstrip_lower. Qed.

Lemma fold_letter_twice (c : ascii) : fold_letter (fold_letter c) = fold_letter c.
Proof.
  unfold fold_letter at 1.
  destruct (byte_in 65 90 (fold_letter c)) eqn:E; [ | reflexivity ].
  apply byte_in_true in E.
  rewrite fold_letter_byte in E.
  destruct (byte_in 65 90 c) eqn:E'.
  - apply byte_in_true in E'. lia.
  - apply byte_in_true in E. congruence.
Qed.

Lemma lower_twice (s : string) : lower (lower s) = lower s.
Proof.
  induction s as [| c s IH]; cbn [lower]; [ reflexivity | ].
  now rewrite fold_letter_twice, IH.
Qed.

Lemma is_ascii_fold (c : ascii) : byte_in 0 127 (fold_letter c) = byte_in 0 127 c.
Proof.
  destruct (byte_in 0 127 c) eqn:E1.
  - apply byte_in_true in E1.
    apply byte_in_true.
    rewrite fold_letter_byte.
    destruct (byte_in 65 90 c) eqn:E; [ apply byte_in_true in E; lia | exact E1 ].
  - destruct (byte_in 0 127 (fold_letter c)) eqn:E2; [ | reflexivity ].
    apply byte_in_true in E2.
    rewrite fold_letter_byte in E2.
    destruct (byte_in 65 90 c) eqn:E.
    + apply byte_in_true in E.
      assert (H : byte_in 0 127 c = true) by (apply byte_in_true; lia).
      congruence.
    + apply byte_in_true in E2. congruence.
Qed.

Lemma is_ascii_lower (s : string) : is_ascii (lower s) = is_ascii s.
Proof.
  induction s as [| c s IH]; cbn [lower is_ascii]; [ reflexivity | ].
  now rewrite is_ascii_fold, IH.
Qed.

Section Names.

Variable unicode_lower : string -> string.

(** [lower()] of a text with A..Z already folded is [lower()] of the text. *)
Lemma py_lower_lower (s : string) :
  py_lower unicode_lower (lower s) = py_lower unicode_lower s.
Proof. unfold py_lower. now rewrite is_ascii_lower, lower_twice. Qed.

(** Two names that differ in the case of their letters A..Z and in the
    white space around them are compared as one. *)
Lemma py_lower_strip_padded (a b s t : string) :
  all_space a = true -> all_space b = true -> lower s = lower t ->
  py_lower unicode_lower (strip (a ++ s ++ b)) = py_lower unicode_lower (strip t).
Proof.
  intros Ha Hb Hst.
  rewrite (strip_padding a _ b Ha Hb).
  rewrite <- (py_lower_lower (strip s)), <- (py_lower_lower (strip t)).
  now rewrite <- !strip_lower, Hst.
Qed.

Lemma resolve_loop_first_match (docs : list Doc.t) (doc_name : string) :
  match resolve_loop unicode_lower docs doc_name with
  | Some i =>
      exists before d after,
        docs = (before ++ d :: after)%list /\
        Forall (fun d' => py_lower unicode_lower (strip (Doc.name d')) <>
                          py_lower unicode_lower (strip doc_name)) before /\
        py_lower unicode_lower (strip (Doc.name d)) =
          py_lower unicode_lower (strip doc_name) /\
        i = Doc.id d
  | None =>
      Forall (fun d => py_lower unicode_lower (strip (Doc.name d)) <>
                       py_lower unicode_lower (strip doc_name)) docs
  end.
Proof.
  induction docs as [| d rest IH]; simpl.
  - constructor.
  - unfold name_matches.
    destruct (String.eqb_spec (py_lower unicode_lower (strip (Doc.name d)))
                              (py_lower unicode_lower (strip doc_name)))
      as [Heq | Hne].
    + exists [], d, rest.
      repeat split; auto.
    + destruct (resolve_loop unicode_lower rest doc_name) as [i |].
      * destruct IH as (before & d' & after & -> & Hb & Hd & Hi).
        exists (d :: before), d', after.
        repeat split; auto.
      * constructor; assumption.
Qed.

(** The loop depends on the name asked for only through its stripped,
    lowercased form. *)
Lemma resolve_loop_same_key (docs : list Doc.t) (name1 name2 : string) :
  py_lower unicode_lower (strip name1) = py_lower unicode_lower (strip name2) ->
  resolve_loop unicode_lower docs name1 = resolve_loop unicode_lower docs name2.
Proof.
  intros Hkey.
  induction docs as [| d rest IH]; cbn [resolve_loop]; [ reflexivity | ].
  unfold name_matches.
  now rewrite Hkey, IH.
Qed.

End Names.

Lemma table_entry_of_rows (table : Table.t) (fetched : list row) :
  map table_entry
    (filter table_survives [ {| ft_table := table; ft_rows := Some fetched |} ]) =
  match filter has_data fetched with
  | [] => []
  | first :: _ =>
      [ {| table_name := Table.name table;
           columns := dict_keys first;
           rows := filter has_data fetched |} ]
  end.
Proof.
  unfold table_survives, table_entry, surviving_rows.
  cbn [filter ft_rows ft_table].
  destruct (filter has_data fetched) as [| first others] eqn:E;
    cbn [is_nil negb map ft_rows ft_table hd]; rewrite ?E; reflexivity.
Qed.

Section Properties.

Variable py_repr : value -> string.
Variable http_exception_str : Z -> string -> string.
Variable unicode_lower : string -> string.
Variable W : World.

(** *** Running the monad *)

Lemma call_answer {A : Type} (r : request) (answer : list request -> response A)
    (st : State) (items : A) :
  answer (calls st) = Answer items ->
  call r answer st = (Ok items, log_call r st).
Proof. intros H. unfold call. now rewrite H. Qed.

Lemma call_failure {A : Type} (r : request) (answer : list request -> response A)
    (st : State) (msg : string) :
  answer (calls st) = Failure msg ->
  call r answer st = (Raise (Fault msg), log_call r st).
Proof. intros H. unfold call. now rewrite H. Qed.

Lemma bind_ok {A B : Type} (m : M A) (f : A -> M B) (st st' : State) (a : A) :
  m st = (Ok a, st') -> bind m f st = f a st'.
Proof. intros H. unfold bind. now rewrite H. Qed.

Lemma bind_run {A B : Type} (m : M A) (f : A -> M B) (st : State) :
  bind m f st =
  match m st with
  | (Ok a, st') => f a st'
  | (Raise e, st') => (Raise e, st')
  end.
Proof. reflexivity. Qed.

Lemma bind_ret {A B : Type} (a : A) (f : A -> M B) (st : State) :
  bind (ret a) f st = f a st.
Proof. reflexivity. Qed.

Lemma bind_modify {B : Type} (g : State -> State) (f : unit -> M B) (st : State) :
  bind (modify g) f st = f tt (g st).
Proof. reflexivity. Qed.

Lemma bind_bind {A B C : Type} (m : M A) (f : A -> M B) (g : B -> M C) (st : State) :
  bind (bind m f) g st = bind m (fun a => bind (f a) g) st.
Proof. unfold bind. destruct (m st) as [[a | e] st']; reflexivity. Qed.

Lemma bind_raise {A B : Type} (m : M A) (f : A -> M B) (st st' : State) (e : exn) :
  m st = (Raise e, st') -> bind m f st = (Raise e, st').
Proof. intros H. unfold bind. now rewrite H. Qed.

(** *** Document resolution *)

(** Resolution depends on the name asked for only through its stripped,
    lowercased form. *)
Lemma resolve_doc_id_same_key (name1 name2 : string) (st : State) :
  py_lower unicode_lower (strip name1) = py_lower unicode_lower (strip name2) ->
  resolve_doc_id unicode_lower W name1 st = resolve_doc_id unicode_lower W name2 st.
Proof.
  intros Hkey.
  unfold resolve_doc_id.
  rewrite !bind_run.
  destruct (get_all_docs W st) as [[docs | e] st1]; [ | reflexivity ].
  unfold ret.
  now rewrite (resolve_loop_same_key unicode_lower docs name1 name2 Hkey).
Qed.

(** C7: document resolution compares names trimmed and lowercased.  Over
    any listed documents it returns the id of the first one whose name,
    stripped of the white space around it and lowercased, equals the
    configured name stripped and lowercased, and no id when none matches.
    Trimmed and case-insensitive mean what they say: a name asked for with
    white space (of any kind [str.strip] removes) put around it and with
    letters of A..Z in the other case resolves to the same result, and a
    listed document renamed in that way is matched or passed over as it
    was. *)
Theorem resolve_doc_id_first_match (doc_name : string) (docs : list Doc.t)
    (st : State) :
  list_docs W (calls st) = Answer docs ->
  (exists found,
      resolve_doc_id unicode_lower W doc_name st =
        (Ok found, log_call (Get (BASE_URL ++ "/docs")) st) /\
      match found with
      | Some i =>
          exists before d after,
            docs = (before ++ d :: after)%list /\
            Forall (fun d' => py_lower unicode_lower (strip (Doc.name d')) <>
                              py_lower unicode_lower (strip doc_name)) before /\
            py_lower unicode_lower (strip (Doc.name d)) =
              py_lower unicode_lower (strip doc_name) /\
            i = Doc.id d
      | None =>
          Forall (fun d => py_lower unicode_lower (strip (Doc.name d)) <>
                           py_lower unicode_lower (strip doc_name)) docs
      end) /\
  (forall left_pad right_pad other,
      all_space left_pad = true -> all_space right_pad = true ->
      lower other = lower doc_name ->
      resolve_doc_id unicode_lower W (left_pad ++ other ++ right_pad) st =
      resolve_doc_id unicode_lower W doc_name st) /\
  (forall left_pad right_pad other d,
      all_space left_pad = true -> all_space right_pad = true ->
      lower other = lower (Doc.name d) ->
      name_matches unicode_lower doc_name
        {| Doc.id := Doc.id d; Doc.name := left_pad ++ other ++ right_pad |} =
      name_matches unicode_lower doc_name d).
Proof.
  intros Hdocs.
  split; [ | split ].
  - exists (resolve_loop unicode_lower docs doc_name).
    split.
    + unfold resolve_doc_id, get_all_docs.
      erewrite bind_ok by (apply call_answer; exact Hdocs).
      reflexivity.
    + apply resolve_loop_first_match.
  - intros left_pad right_pad other Hl Hr Hcase.
    apply resolve_doc_id_same_key.
    now apply py_lower_strip_padded.
  - intros left_pad right_pad other d Hl Hr Hcase.
    unfold name_matches.
    cbn [Doc.name].
    now rewrite (py_lower_strip_padded unicode_lower left_pad right_pad
                   other (Doc.name d) Hl Hr Hcase).
Qed.

(** *** The cache *)

Lemma format_cached (coda_data : list page_data) (st : State) (cached : string) :
  formatted_data_cache st = Some cached ->
  format_data_for_gemini py_repr coda_data st = (Ok cached, st).
Proof.
  intros Hc.
  unfold format_data_for_gemini, bind, get_state.
  now rewrite Hc.
Qed.

(** C10: once the formatted-text variable is set, [format_data_for_gemini]
    returns the cached string whatever list it is given, and changes
    nothing; so any two lists get the same output in that state. *)
Theorem format_ignores_input_when_cached (st : State) (cached : string) :
  formatted_data_cache st = Some cached ->
  (forall coda_data,
      format_data_for_gemini py_repr coda_data st = (Ok cached, st)) /\
  (forall data1 data2,
      format_data_for_gemini py_repr data1 st =
      format_data_for_gemini py_repr data2 st).
Proof.
  intros Hc.
  split.
  - intros coda_data.
    now apply format_cached.
  - intros data1 data2.
    now rewrite (format_cached data1 st cached Hc), (format_cached data2 st cached Hc).
Qed.

Lemma get_all_coda_data_cached (doc_id : string) (st : State)
    (data : list page_data) :
  coda_data_cache st = Some data ->
  get_all_coda_data http_exception_str W doc_id st = (Ok data, st).
Proof.
  intros Hc.
  unfold get_all_coda_data, bind, get_state.
  now rewrite Hc.
Qed.

Lemma build_context_cached (doc_id : string) (st : State)
    (data : list page_data) (cached : string) :
  coda_data_cache st = Some data ->
  formatted_data_cache st = Some cached ->
  build_context py_repr http_exception_str W doc_id st = (Ok (data, cached), st).
Proof.
  intros Hd Hf.
  unfold build_context.
  erewrite bind_ok by (apply get_all_coda_data_cached; exact Hd).
  erewrite bind_ok by (apply format_cached; exact Hf).
  reflexivity.
Qed.

(** *** Aggregation against the snapshot *)

Lemma process_table_fetch (doc_id : string) (table : Table.t)
    (acc : list table_data) (st : State) :
  process_table http_exception_str W doc_id table acc st =
  match fetch_table http_exception_str W doc_id table st with
  | (Ok t, st') =>
      (Ok (acc ++ map table_entry (filter table_survives [t]))%list, st')
  | (Raise e, st') => (Raise e, st')
  end.
Proof.
  unfold process_table, fetch_table, try_except, bind.
  destruct (get_column_map W doc_id (Table.id table) st) as [[colmap | e] st1].
  - destruct (get_rows W doc_id (Table.id table) colmap st1) as [[fetched | e] st2].
    + unfold ret.
      cbv beta iota.
      rewrite filter_rows_loop_filter, table_entry_of_rows.
      destruct (filter has_data fetched) as [| first others].
      * now rewrite app_nil_r.
      * reflexivity.
    + unfold print, modify, ret. simpl.
      now rewrite app_nil_r.
  - unfold print, modify, ret. simpl.
    now rewrite app_nil_r.
Qed.

Lemma tables_loop_fetch (doc_id : string) (listed : list Table.t) :
  forall (acc : list table_data) (st : State),
  tables_loop http_exception_str W doc_id listed acc st =
  match fetch_tables http_exception_str W doc_id listed st with
  | (Ok ts, st') =>
      (Ok (acc ++ map table_entry (filter table_survives ts))%list, st')
  | (Raise e, st') => (Raise e, st')
  end.
Proof.
  induction listed as [| table rest IH]; intros acc st;
    cbn [tables_loop fetch_tables].
  - unfold ret. cbn [filter map]. now rewrite app_nil_r.
  - rewrite !bind_run, process_table_fetch.
    destruct (fetch_table http_exception_str W doc_id table st) as [[t | e] st1];
      [ | reflexivity ].
    rewrite IH, bind_run.
    destruct (fetch_tables http_exception_str W doc_id rest st1) as [[ts | e] st2];
      [ | reflexivity ].
    unfold ret.
    cbn [filter map].
    destruct (table_survives t); cbn [map app].
    + now rewrite <- app_assoc.
    + now rewrite app_nil_r.
Qed.

Lemma page_entry_of_tables (page : Page.t) (ts : list fetched_table) :
  aggregate_spec [ {| fp_page := page; fp_tables := ts |} ] =
  match map table_entry (filter table_survives ts) with
  | [] => []
  | _ :: _ =>
      [ {| page_name := Page.name page;
           tables := map table_entry (filter table_survives ts) |} ]
  end.
Proof.
  unfold aggregate_spec, page_survives, page_entry, surviving_tables.
  cbn [filter fp_tables fp_page].
  destruct (map table_entry (filter table_survives ts)) as [| t0 more] eqn:E;
    cbn [is_nil negb map fp_tables fp_page]; rewrite ?E; reflexivity.
Qed.

Lemma aggregate_spec_cons (p : fetched_page) (ps : list fetched_page) :
  aggregate_spec (p :: ps) = (aggregate_spec [p] ++ aggregate_spec ps)%list.
Proof.
  unfold aggregate_spec.
  cbn [filter].
  destruct (page_survives p); reflexivity.
Qed.

Lemma process_page_fetch (doc_id : string) (page : Page.t)
    (acc : list page_data) (st : State) :
  process_page http_exception_str W doc_id page acc st =
  match get_tables_created_on_page W doc_id (Page.id page) st with
  | (Ok listed, st1) =>
      match fetch_tables http_exception_str W doc_id listed st1 with
      | (Ok ts, st2) =>
          (Ok (acc ++ aggregate_spec [ {| fp_page := page; fp_tables := ts |} ])%list,
           st2)
      | (Raise e, st2) => (Raise e, st2)
      end
  | (Raise e, st1) => (Raise e, st1)
  end.
Proof.
  unfold process_page.
  rewrite bind_run.
  destruct (get_tables_created_on_page W doc_id (Page.id page) st)
    as [[listed | e] st1]; [ | reflexivity ].
  rewrite bind_run, tables_loop_fetch.
  destruct (fetch_tables http_exception_str W doc_id listed st1)
    as [[ts | e] st2]; [ | reflexivity ].
  rewrite page_entry_of_tables.
  cbn [app].
  destruct (map table_entry (filter table_survives ts)) as [| t0 more].
  - unfold ret. now rewrite app_nil_r.
  - reflexivity.
Qed.

Lemma pages_loop_fetch (doc_id : string) (pages : list Page.t) :
  forall (acc : list page_data) (st : State),
  pages_loop http_exception_str W doc_id pages acc st =
  match fetch_pages http_exception_str W doc_id pages st with
  | (Ok ps, st') => (Ok (acc ++ aggregate_spec ps)%list, st')
  | (Raise e, st') => (Raise e, st')
  end.
Proof.
  induction pages as [| page rest IH]; intros acc st;
    cbn [pages_loop fetch_pages].
  - unfold ret, aggregate_spec. cbn [filter map]. now rewrite app_nil_r.
  - rewrite !bind_run, process_page_fetch.
    destruct (get_tables_created_on_page W doc_id (Page.id page) st)
      as [[listed | e] st1]; [ | reflexivity ].
    rewrite bind_run.
    destruct (fetch_tables http_exception_str W doc_id listed st1)
      as [[ts | e] st2]; [ | reflexivity ].
    rewrite IH, bind_run.
    destruct (fetch_pages http_exception_str W doc_id rest st2)
      as [[ps | e] st3]; [ | reflexivity ].
    unfold ret.
    now rewrite (aggregate_spec_cons _ ps), app_assoc.
Qed.

(** *** What the helpers do to the cache variables *)

Lemma same_caches_refl (st : State) : same_caches st st.
Proof. split; reflexivity. Qed.

Lemma same_caches_trans (st1 st2 st3 : State) :
  same_caches st1 st2 -> same_caches st2 st3 -> same_caches st1 st3.
Proof. intros [H1 H2] [H3 H4]. split; congruence. Qed.

Lemma keeps_ret {A : Type} (a : A) : keeps_caches (ret a).
Proof. intros st r st' H. inversion H. apply same_caches_refl. Qed.

Lemma keeps_raise {A : Type} (e : exn) : keeps_caches (@raise A e).
Proof. intros st r st' H. inversion H. apply same_caches_refl. Qed.

Lemma keeps_call {A : Type} (r : request) (answer : list request -> response A) :
  keeps_caches (call r answer).
Proof.
  intros st res st' H.
  unfold call in H.
  destruct (answer (calls st)); inversion H; split; reflexivity.
Qed.

Lemma keeps_print (line : string) : keeps_caches (print line).
Proof. intros st r st' H. inversion H. split; reflexivity. Qed.

Lemma keeps_bind {A B : Type} (m : M A) (f : A -> M B) :
  keeps_caches m -> (forall a, keeps_caches (f a)) -> keeps_caches (bind m f).
Proof.
  intros Hm Hf st r st' H.
  rewrite bind_run in H.
  destruct (m st) as [[a | e] st1] eqn:E.
  - eapply same_caches_trans; [ eapply Hm | eapply Hf ]; eassumption.
  - inversion H; subst. eapply Hm; eassumption.
Qed.

Lemma keeps_try_except {A : Type} (m : M A) (h : exn -> M A) :
  keeps_caches m -> (forall e, keeps_caches (h e)) -> keeps_caches (try_except m h).
Proof.
  intros Hm Hh st r st' H.
  unfold try_except in H.
  destruct (m st) as [[a | e] st1] eqn:E.
  - inversion H; subst. eapply Hm; eassumption.
  - eapply same_caches_trans; [ eapply Hm | eapply Hh ]; eassumption.
Qed.

Create HintDb caches.
#[local] Hint Resolve keeps_ret keeps_raise keeps_call keeps_print : caches.
#[local] Hint Extern 2 (keeps_caches (bind _ _)) =>
  apply keeps_bind; [ | intros ? ] : caches.
#[local] Hint Extern 2 (keeps_caches (try_except _ _)) =>
  apply keeps_try_except; [ | intros ? ] : caches.

Lemma keeps_resolve_doc_id (doc_name : string) :
  keeps_caches (resolve_doc_id unicode_lower W doc_name).
Proof. unfold resolve_doc_id, get_all_docs. auto with caches. Qed.

Lemma keeps_get_pages (doc_id : string) : keeps_caches (get_pages W doc_id).
Proof. unfold get_pages. auto with caches. Qed.

Lemma keeps_get_tables (doc_id page_id : string) :
  keeps_caches (get_tables_created_on_page W doc_id page_id).
Proof. unfold get_tables_created_on_page. auto with caches. Qed.

Lemma keeps_fetch_table (doc_id : string) (table : Table.t) :
  keeps_caches (fetch_table http_exception_str W doc_id table).
Proof.
  unfold fetch_table, get_column_map, get_rows.
  auto 10 with caches.
Qed.

Lemma keeps_fetch_tables (doc_id : string) (listed : list Table.t) :
  keeps_caches (fetch_tables http_exception_str W doc_id listed).
Proof.
  induction listed as [| table rest IH]; cbn [fetch_tables].
  - auto with caches.
  - pose proof (keeps_fetch_table doc_id table).
    auto 10 with caches.
Qed.

Lemma keeps_fetch_pages (doc_id : string) (pages : list Page.t) :
  keeps_caches (fetch_pages http_exception_str W doc_id pages).
Proof.
  induction pages as [| page rest IH]; cbn [fetch_pages].
  - auto with caches.
  - pose proof (keeps_get_tables doc_id (Page.id page)).
    pose proof (keeps_fetch_tables doc_id).
    auto 10 with caches.
Qed.

Lemma keeps_fetch_all (doc_id : string) :
  keeps_caches (fetch_all http_exception_str W doc_id).
Proof.
  unfold fetch_all.
  pose proof (keeps_get_pages doc_id).
  pose proof (keeps_fetch_pages doc_id).
  auto with caches.
Qed.

Lemma keeps_ask_gemini (context_data question : string) :
  keeps_caches (ask_gemini_about_data http_exception_str W context_data question).
Proof. unfold ask_gemini_about_data. auto with caches. Qed.

(** *** What the helpers do to the log of calls *)

Lemma extends_calls_refl (st : State) : extends_calls st st.
Proof. now exists []. Qed.

Lemma extends_calls_trans (st1 st2 st3 : State) :
  extends_calls st1 st2 -> extends_calls st2 st3 -> extends_calls st1 st3.
Proof.
  intros [n1 H1] [n2 H2].
  exists (n2 ++ n1)%list.
  now rewrite H2, H1, app_assoc.
Qed.

Lemma grows_ret {A : Type} (a : A) : grows_calls (ret a).
Proof. intros st r st' H. inversion H. apply extends_calls_refl. Qed.

Lemma grows_call {A : Type} (r : request) (answer : list request -> response A) :
  grows_calls (call r answer).
Proof.
  intros st res st' H.
  unfold call in H.
  destruct (answer (calls st)); inversion H; now exists [r].
Qed.

Lemma grows_print (line : string) : grows_calls (print line).
Proof. intros st r st' H. inversion H. now exists []. Qed.

Lemma grows_bind {A B : Type} (m : M A) (f : A -> M B) :
  grows_calls m -> (forall a, grows_calls (f a)) -> grows_calls (bind m f).
Proof.
  intros Hm Hf st r st' H.
  rewrite bind_run in H.
  destruct (m st) as [[a | e] st1] eqn:E.
  - eapply extends_calls_trans; [ eapply Hm | eapply Hf ]; eassumption.
  - inversion H; subst. eapply Hm; eassumption.
Qed.

Lemma grows_try_except {A : Type} (m : M A) (h : exn -> M A) :
  grows_calls m -> (forall e, grows_calls (h e)) -> grows_calls (try_except m h).
Proof.
  intros Hm Hh st r st' H.
  unfold try_except in H.
  destruct (m st) as [[a | e] st1] eqn:E.
  - inversion H; subst. eapply Hm; eassumption.
  - eapply extends_calls_trans; [ eapply Hm | eapply Hh ]; eassumption.
Qed.

Create HintDb calls.
#[local] Hint Resolve grows_ret grows_call grows_print : calls.
#[local] Hint Extern 2 (grows_calls (bind _ _)) =>
  apply grows_bind; [ | intros ? ] : calls.
#[local] Hint Extern 2 (grows_calls (try_except _ _)) =>
  apply grows_try_except; [ | intros ? ] : calls.

Lemma grows_get_pages (doc_id : string) : grows_calls (get_pages W doc_id).
Proof. unfold get_pages. auto with calls. Qed.

Lemma grows_get_tables (doc_id page_id : string) :
  grows_calls (get_tables_created_on_page W doc_id page_id).
Proof. unfold get_tables_created_on_page. auto with calls. Qed.

Lemma grows_fetch_table (doc_id : string) (table : Table.t) :
  grows_calls (fetch_table http_exception_str W doc_id table).
Proof.
  unfold fetch_table, get_column_map, get_rows.
  auto 10 with calls.
Qed.

Lemma grows_fetch_tables (doc_id : string) (listed : list Table.t) :
  grows_calls (fetch_tables http_exception_str W doc_id listed).
Proof.
  induction listed as [| table rest IH]; cbn [fetch_tables].
  - auto with calls.
  - pose proof (grows_fetch_table doc_id table).
    auto 10 with calls.
Qed.

(** *** Which calls can make a pass raise *)

Lemma call_raise_inv {A : Type} (r : request) (answer : list request -> response A)
    (st st' : State) (e : exn) :
  call r answer st = (Raise e, st') ->
  exists msg, e = Fault msg /\ answer (calls st) = Failure msg.
Proof.
  unfold call.
  destruct (answer (calls st)) as [items | msg]; intros H; inversion H.
  now exists msg.
Qed.

Lemma get_pages_raise_inv (doc_id : string) (st st' : State) (e : exn) :
  get_pages W doc_id st = (Raise e, st') ->
  exists msg, e = Fault msg /\ list_pages W (calls st) doc_id = Failure msg.
Proof. unfold get_pages. apply call_raise_inv. Qed.

Lemma get_tables_raise_inv (doc_id page_id : string) (st st' : State) (e : exn) :
  get_tables_created_on_page W doc_id page_id st = (Raise e, st') ->
  exists msg, e = Fault msg /\ list_tables W (calls st) doc_id = Failure msg.
Proof.
  unfold get_tables_created_on_page.
  rewrite bind_run.
  destruct (call _ _ st) as [[all_tables | e0] st1] eqn:E; intros H; inversion H; subst.
  exact (call_raise_inv _ (fun h => list_tables W h doc_id) _ _ _ E).
Qed.

Lemma fetch_table_returns (doc_id : string) (table : Table.t) :
  never_raises (fetch_table http_exception_str W doc_id table).
Proof.
  intros st.
  unfold fetch_table, try_except.
  rewrite bind_run.
  destruct (get_column_map W doc_id (Table.id table) st) as [[colmap | e] st1].
  - rewrite bind_run.
    destruct (get_rows W doc_id (Table.id table) colmap st1) as [[fetched | e] st2];
      eexists; eexists; reflexivity.
  - eexists; eexists; reflexivity.
Qed.

Lemma fetch_tables_returns (doc_id : string) (listed : list Table.t) :
  never_raises (fetch_tables http_exception_str W doc_id listed).
Proof.
  induction listed as [| table rest IH]; intros st; cbn [fetch_tables].
  - eexists; eexists; reflexivity.
  - destruct (fetch_table_returns doc_id table st) as (t & st1 & Ht).
    destruct (IH st1) as (ts & st2 & Hts).
    rewrite bind_run, Ht, bind_run, Hts.
    eexists; eexists; reflexivity.
Qed.

Lemma process_table_returns (doc_id : string) (table : Table.t)
    (acc : list table_data) (st : State) :
  exists acc' st',
    process_table http_exception_str W doc_id table acc st = (Ok acc', st') /\
    (acc' = acc \/ exists t, acc' = (acc ++ [t])%list).
Proof.
  rewrite process_table_fetch.
  destruct (fetch_table_returns doc_id table st) as (t & st1 & Ht).
  rewrite Ht.
  eexists; eexists; split; [ reflexivity | ].
  cbn [filter].
  destruct (table_survives t); cbn [map].
  - right. eexists; reflexivity.
  - left. apply app_nil_r.
Qed.

Lemma fetch_pages_raise_inv (doc_id : string) (pages : list Page.t) :
  forall (st st' : State) (e : exn),
  fetch_pages http_exception_str W doc_id pages st = (Raise e, st') ->
  exists newer msg,
    e = Fault msg /\
    list_tables W (newer ++ calls st)%list doc_id = Failure msg.
Proof.
  induction pages as [| page rest IH]; intros st st' e; cbn [fetch_pages].
  - intros H; inversion H.
  - rewrite bind_run.
    destruct (get_tables_created_on_page W doc_id (Page.id page) st)
      as [[listed | e0] st1] eqn:E.
    + destruct (fetch_tables_returns doc_id listed st1) as (ts & st2 & Hts).
      rewrite bind_run, Hts, bind_run.
      destruct (fetch_pages http_exception_str W doc_id rest st2)
        as [[ps | e1] st3] eqn:E3; intros H; inversion H; subst.
      destruct (IH _ _ _ E3) as (newer & msg & -> & Hm).
      destruct (grows_get_tables _ _ _ _ _ E) as [n1 H1].
      destruct (grows_fetch_tables _ _ _ _ _ Hts) as [n2 H2].
      exists (newer ++ n2 ++ n1)%list, msg.
      split; [ reflexivity | ].
      rewrite H2, H1 in Hm.
      now rewrite <- !app_assoc.
    + intros H; inversion H; subst.
      destruct (get_tables_raise_inv _ _ _ _ _ E) as (msg & -> & Hm).
      now exists [], msg.
Qed.

Lemma get_all_coda_data_miss (doc_id : string) (st : State) :
  coda_data_cache st = None ->
  get_all_coda_data http_exception_str W doc_id st =
  match fetch_all http_exception_str W doc_id st with
  | (Ok snapshot, st') =>
      (Ok (aggregate_spec snapshot),
       set_coda_data_cache (Some (aggregate_spec snapshot)) st')
  | (Raise e, st') => (Raise e, st')
  end.
Proof.
  intros Hc.
  unfold get_all_coda_data, fetch_all.
  rewrite bind_run.
  cbn [get_state].
  rewrite Hc, !bind_run.
  destruct (get_pages W doc_id st) as [[pages | e] st1]; [ | reflexivity ].
  rewrite bind_run, pages_loop_fetch.
  destruct (fetch_pages http_exception_str W doc_id pages st1)
    as [[ps | e] st2]; reflexivity.
Qed.

(** What a call of [get_all_coda_data] does to the cache variables. *)
Lemma get_all_coda_data_effect (doc_id : string) (st st' : State)
    (r : result (list page_data)) :
  get_all_coda_data http_exception_str W doc_id st = (r, st') ->
  formatted_data_cache st' = formatted_data_cache st /\
  match r with
  | Ok data => coda_data_cache st' = Some data
  | Raise _ => coda_data_cache st' = coda_data_cache st
  end.
Proof.
  destruct (coda_data_cache st) as [data |] eqn:Hc.
  - rewrite (get_all_coda_data_cached doc_id st data Hc).
    intros H; inversion H; subst. auto.
  - rewrite (get_all_coda_data_miss doc_id st Hc).
    destruct (fetch_all http_exception_str W doc_id st) as [[snapshot | e] st1] eqn:E;
      intros H; inversion H; subst;
      destruct (keeps_fetch_all doc_id _ _ _ E) as [H1 H2].
    + split; [ exact H2 | reflexivity ].
    + split; [ exact H2 | congruence ].
Qed.

(** What a call of [format_data_for_gemini] does: it always returns, and the
    text it returns is the text the cache then holds. *)
Lemma format_effect (coda_data : list page_data) (st : State) :
  exists formatted st',
    format_data_for_gemini py_repr coda_data st = (Ok formatted, st') /\
    formatted_data_cache st' = Some formatted /\
    coda_data_cache st' = coda_data_cache st /\
    calls st' = calls st.
Proof.
  unfold format_data_for_gemini.
  rewrite bind_run.
  cbn [get_state].
  destruct (formatted_data_cache st) as [cached |] eqn:Hc.
  - exists cached, st. auto.
  - eexists; eexists; split; [ reflexivity | ]. auto.
Qed.

Lemma ask_gemini_returns (context_data question : string) :
  never_raises (ask_gemini_about_data http_exception_str W context_data question).
Proof.
  intros st.
  unfold ask_gemini_about_data, try_except.
  destruct (call _ _ st) as [[reply | e] st1]; eexists; eexists; reflexivity.
Qed.

(** What the model call gives: the reply, or the error sentence. *)
Lemma ask_gemini_run (context_data question : string) (st : State) :
  ask_gemini_about_data http_exception_str W context_data question st =
  (Ok (reply_text W (calls st) (prompt_of context_data question)),
   log_call (GenerateContent (prompt_of context_data question)) st).
Proof.
  unfold ask_gemini_about_data, try_except, call, reply_text.
  cbv zeta.
  destruct (generate_content W (calls st) (prompt_of context_data question));
    reflexivity.
Qed.

(** *** Aggregation *)

(** C6: on a cache miss the aggregation result is built from what the
    Workspace Client returned, in the order returned: the pages that end
    with a surviving table, each with its tables that have a surviving row,
    each table with the keys of its first surviving row as columns; the
    result is stored in the cache.  A pass that raises stores nothing. *)
Theorem aggregation_keeps_surviving_in_order (doc_id : string) (st : State) :
  coda_data_cache st = None ->
  match fetch_all http_exception_str W doc_id st with
  | (Ok snapshot, st') =>
      let data := map page_entry (filter page_survives snapshot) in
      get_all_coda_data http_exception_str W doc_id st =
        (Ok data, set_coda_data_cache (Some data) st') /\
      Forall (fun p => tables p <> []) data /\
      Forall (fun p =>
                Forall (fun t => rows t <> [] /\
                                 Forall (fun r => has_data r = true) (rows t) /\
                                 columns t = dict_keys (hd [] (rows t)))
                       (tables p)) data
  | (Raise e, st') =>
      get_all_coda_data http_exception_str W doc_id st = (Raise e, st')
  end.
Proof.
  intros Hc.
  rewrite (get_all_coda_data_miss doc_id st Hc).
  destruct (fetch_all http_exception_str W doc_id st) as [[snapshot | e] st'];
    [ | reflexivity ].
  cbv zeta.
  split; [ reflexivity | ].
  split.
  - apply Forall_forall.
    intros p Hp.
    apply in_map_iff in Hp.
    destruct Hp as (fp & <- & Hfp).
    apply filter_In in Hfp.
    destruct Hfp as [_ Hs].
    unfold page_survives in Hs.
    cbn [page_entry tables].
    destruct (surviving_tables fp); [ discriminate Hs | discriminate ].
  - apply Forall_forall.
    intros p Hp.
    apply in_map_iff in Hp.
    destruct Hp as (fp & <- & _).
    cbn [page_entry tables].
    unfold surviving_tables.
    apply Forall_forall.
    intros t Ht.
    apply in_map_iff in Ht.
    destruct Ht as (ft & <- & Hft).
    apply filter_In in Hft.
    destruct Hft as [_ Hs].
    unfold table_survives in Hs.
    cbn [table_entry rows columns].
    repeat split.
    + destruct (surviving_rows ft); [ discriminate Hs | discriminate ].
    + unfold surviving_rows.
      destruct (ft_rows ft) as [fetched |]; [ | constructor ].
      apply Forall_forall.
      intros r Hr.
      apply filter_In in Hr.
      exact (proj2 Hr).
Qed.

(** C4, as the code has it: a table's turn never raises; it adds the
    table's entry or nothing and keeps the tables gathered before it; when
    the column call or the row call of the table fails, the table is left
    out and one line is printed.  A pass that raises was failed by the
    page-listing call or by a table-listing call made during the pass. *)
Theorem aggregation_raises_only_on_listing (doc_id : string) (st : State) :
  coda_data_cache st = None ->
  (forall table acc s,
      exists acc' s',
        process_table http_exception_str W doc_id table acc s = (Ok acc', s') /\
        (acc' = acc \/ exists t, acc' = (acc ++ [t])%list)) /\
  (forall table acc s e s',
      (colmap <- get_column_map W doc_id (Table.id table) ;;
       get_rows W doc_id (Table.id table) colmap) s = (Raise e, s') ->
      process_table http_exception_str W doc_id table acc s =
        (Ok acc,
         log_line ("Error processing table " ++ Table.name table ++ ": " ++
                   str_exn http_exception_str e) s')) /\
  (forall e st',
      get_all_coda_data http_exception_str W doc_id st = (Raise e, st') ->
      exists newer msg,
        e = Fault msg /\
        (list_pages W (newer ++ calls st)%list doc_id = Failure msg \/
         list_tables W (newer ++ calls st)%list doc_id = Failure msg)).
Proof.
  intros Hc.
  split; [ | split ].
  - intros table acc s.
    apply process_table_returns.
  - intros table acc s e s' Hraise.
    rewrite bind_run in Hraise.
    unfold process_table, try_except.
    rewrite bind_run.
    destruct (get_column_map W doc_id (Table.id table) s) as [[colmap | e0] s1].
    + rewrite bind_run, Hraise.
      reflexivity.
    + inversion Hraise; subst.
      reflexivity.
  - intros e st' Hraise.
    rewrite (get_all_coda_data_miss doc_id st Hc) in Hraise.
    unfold fetch_all in Hraise.
    rewrite bind_run in Hraise.
    destruct (get_pages W doc_id st) as [[pages | e0] st1] eqn:Ep.
    + destruct (fetch_pages http_exception_str W doc_id pages st1)
        as [[ps | e1] st2] eqn:Ef; inversion Hraise; subst.
      destruct (fetch_pages_raise_inv _ _ _ _ _ Ef) as (newer & msg & -> & Hm).
      destruct (grows_get_pages _ _ _ _ Ep) as [n1 H1].
      exists (newer ++ n1)%list, msg.
      rewrite H1 in Hm.
      rewrite <- app_assoc.
      auto.
    + inversion Hraise; subst.
      destruct (get_pages_raise_inv _ _ _ _ Ep) as (msg & -> & Hm).
      exists [], msg. auto.
Qed.

(** C5: with both cache variables set, a context build returns the cached
    list and the cached text, makes no call and changes nothing; so a
    context build that follows a completed one gives the same result
    without any call. *)
Theorem build_context_uses_cache (doc_id : string) (st : State) :
  (forall data cached,
      coda_data_cache st = Some data ->
      formatted_data_cache st = Some cached ->
      build_context py_repr http_exception_str W doc_id st = (Ok (data, cached), st)) /\
  (forall built st1 doc_id',
      build_context py_repr http_exception_str W doc_id st = (Ok built, st1) ->
      build_context py_repr http_exception_str W doc_id' st1 = (Ok built, st1)).
Proof.
  split.
  - intros data cached Hd Hf.
    now apply build_context_cached.
  - intros built st1 doc_id' Hb.
    unfold build_context in Hb.
    rewrite bind_run in Hb.
    destruct (get_all_coda_data http_exception_str W doc_id st)
      as [[data | e] st0] eqn:Ed; [ | discriminate Hb ].
    destruct (get_all_coda_data_effect _ _ _ _ Ed) as [_ Hdata].
    destruct (format_effect data st0) as (formatted & st2 & Hf & Hcache & Hkeep & _).
    rewrite bind_run, Hf in Hb.
    inversion Hb; subst.
    apply build_context_cached; congruence.
Qed.

(** *** The two cache variables across operations *)

Lemma same_caches_text_implies_data (st st' : State) :
  same_caches st st' -> text_implies_data st -> text_implies_data st'.
Proof.
  intros [Hd Hf] Hinv cached Hc.
  rewrite Hd.
  apply (Hinv cached).
  congruence.
Qed.

Lemma keeps_caches_text {A : Type} (m : M A) :
  keeps_caches m -> keeps_text_with_data m.
Proof.
  intros Hm st r st' Hinv Hrun.
  eapply same_caches_text_implies_data; [ eapply Hm | ]; eassumption.
Qed.

Lemma text_bind {A B : Type} (m : M A) (f : A -> M B) :
  keeps_text_with_data m -> (forall a, keeps_text_with_data (f a)) ->
  keeps_text_with_data (bind m f).
Proof.
  intros Hm Hf st r st' Hinv H.
  rewrite bind_run in H.
  destruct (m st) as [[a | e] st1] eqn:E.
  - eapply Hf; [ eapply Hm | ]; eassumption.
  - inversion H; subst. eapply Hm; eassumption.
Qed.

Lemma text_try_except {A : Type} (m : M A) (h : exn -> M A) :
  keeps_text_with_data m -> (forall e, keeps_text_with_data (h e)) ->
  keeps_text_with_data (try_except m h).
Proof.
  intros Hm Hh st r st' Hinv H.
  unfold try_except in H.
  destruct (m st) as [[a | e] st1] eqn:E.
  - inversion H; subst. eapply Hm; eassumption.
  - eapply Hh; [ eapply Hm | ]; eassumption.
Qed.

Lemma text_get_all_coda_data (doc_id : string) :
  keeps_text_with_data (get_all_coda_data http_exception_str W doc_id).
Proof.
  intros st r st' Hinv Hrun.
  destruct (get_all_coda_data_effect _ _ _ _ Hrun) as [Hf Hd].
  intros cached Hc.
  destruct r as [data | e].
  - now exists data.
  - rewrite Hd.
    apply (Hinv cached).
    congruence.
Qed.

(** Aggregation followed by formatting, then anything that leaves the
    cache variables alone. *)
Lemma text_context_then {B : Type} (doc_id : string)
    (k : list page_data -> string -> M B) :
  (forall data formatted, keeps_caches (k data formatted)) ->
  keeps_text_with_data
    (coda_data <- get_all_coda_data http_exception_str W doc_id ;;
     formatted_data <- format_data_for_gemini py_repr coda_data ;;
     k coda_data formatted_data).
Proof.
  intros Hk st r st' Hinv H.
  rewrite bind_run in H.
  destruct (get_all_coda_data http_exception_str W doc_id st)
    as [[data | e] st1] eqn:Ed.
  - destruct (get_all_coda_data_effect _ _ _ _ Ed) as [_ Hdata].
    destruct (format_effect data st1) as (formatted & st2 & Hf & _ & Hkeep & _).
    rewrite bind_run, Hf in H.
    apply (same_caches_text_implies_data st2).
    + eapply Hk. exact H.
    + intros cached _.
      exists data.
      congruence.
  - inversion H; subst.
    eapply text_get_all_coda_data; eassumption.
Qed.

Lemma text_ask_question (request : QuestionRequest) :
  keeps_text_with_data (ask_question py_repr http_exception_str unicode_lower W request).
Proof.
  unfold ask_question.
  apply text_try_except.
  - apply text_bind.
    + apply keeps_caches_text, keeps_resolve_doc_id.
    + intros found.
      destruct (truthy_id found) as [doc_id |].
      * apply text_context_then.
        intros data formatted.
        pose proof (keeps_ask_gemini formatted (question request)).
        auto with caches.
      * apply keeps_caches_text. auto with caches.
  - intros e. apply keeps_caches_text. auto with caches.
Qed.

Lemma text_cliq_webhook (request : CliqRequest) :
  keeps_text_with_data (cliq_webhook py_repr http_exception_str unicode_lower W request).
Proof.
  unfold cliq_webhook.
  apply text_try_except.
  - destruct (is_empty (strip (text request))).
    + apply keeps_caches_text. auto with caches.
    + apply text_bind.
      * apply keeps_caches_text, keeps_resolve_doc_id.
      * intros found.
        destruct (truthy_id found) as [doc_id |].
        -- apply text_context_then.
           intros data formatted.
           pose proof (keeps_ask_gemini formatted (text request)).
           auto with caches.
        -- apply keeps_caches_text. auto with caches.
  - intros e. apply keeps_caches_text. auto with caches.
Qed.

Lemma text_get_data_summary :
  keeps_text_with_data (get_data_summary http_exception_str unicode_lower W).
Proof.
  unfold get_data_summary.
  apply text_try_except.
  - apply text_bind.
    + apply keeps_caches_text, keeps_resolve_doc_id.
    + intros found.
      destruct (truthy_id found) as [doc_id |].
      * apply text_bind.
        -- apply text_get_all_coda_data.
        -- intros data. apply keeps_caches_text. auto with caches.
      * apply keeps_caches_text. auto with caches.
  - intros e. apply keeps_caches_text. auto with caches.
Qed.

(** [refresh_cache], step by step. *)
Lemma refresh_cache_run (st : State) :
  let st0 :=
    log_call (Get (BASE_URL ++ "/docs"))
      (set_formatted_data_cache None (set_coda_data_cache None st)) in
  refresh_cache http_exception_str unicode_lower W st =
  match list_docs W (calls st) with
  | Failure msg => (Raise (Fault msg), st0)
  | Answer docs =>
      match truthy_id (resolve_loop unicode_lower docs DOC_NAME) with
      | None => (Raise (HTTPException 404 "Coda document not found"), st0)
      | Some doc_id =>
          match get_all_coda_data http_exception_str W doc_id st0 with
          | (Ok _, st1) =>
              (Ok {| refresh_message := "Cache refreshed successfully";
                     refresh_status := "success" |}, st1)
          | (Raise e, st1) => (Raise e, st1)
          end
      end
  end.
Proof.
  cbv zeta.
  unfold refresh_cache, resolve_doc_id, get_all_docs.
  rewrite !bind_modify, bind_bind.
  destruct (list_docs W (calls st)) as [docs | msg] eqn:E.
  - erewrite bind_ok by (apply call_answer; exact E).
    rewrite bind_ret.
    destruct (truthy_id (resolve_loop unicode_lower docs DOC_NAME))
        as [doc_id |]; [ | reflexivity ].
    rewrite bind_run.
    destruct (get_all_coda_data http_exception_str W doc_id _) as [[data | e] st1];
      reflexivity.
  - erewrite bind_raise by (apply call_failure; exact E).
    reflexivity.
Qed.

Lemma refresh_cache_text_unset (st : State) :
  formatted_data_cache (snd (refresh_cache http_exception_str unicode_lower W st)) = None.
Proof.
  rewrite refresh_cache_run.
  cbv zeta.
  destruct (list_docs W (calls st)) as [docs | msg]; [ | reflexivity ].
  destruct (truthy_id (resolve_loop unicode_lower docs DOC_NAME))
      as [doc_id |]; [ | reflexivity ].
  destruct (get_all_coda_data http_exception_str W doc_id _) as [[data | e] st1] eqn:E;
    destruct (get_all_coda_data_effect _ _ _ _ E) as [Hf _];
    cbn [snd]; rewrite Hf; reflexivity.
Qed.

Lemma run_op_text_implies_data (op : operation) (st : State) :
  text_implies_data st ->
  text_implies_data (run_op py_repr http_exception_str unicode_lower W op st).
Proof.
  intros Hinv.
  destruct op as [| | q | r | | | d]; cbn [run_op].
  - exact Hinv.
  - exact Hinv.
  - eapply text_ask_question; [ exact Hinv | apply surjective_pairing ].
  - eapply text_cliq_webhook; [ exact Hinv | apply surjective_pairing ].
  - intros cached Hc.
    rewrite refresh_cache_text_unset in Hc.
    discriminate Hc.
  - eapply text_get_data_summary; [ exact Hinv | apply surjective_pairing ].
  - eapply (text_context_then d (fun data formatted => ret (data, formatted)));
      [ intros; apply keeps_ret | exact Hinv | apply surjective_pairing ].
Qed.

(** C2, as the code has it: after any operations on a state in which the
    formatted text is only set together with the aggregated list, the
    formatted text is again only set together with the aggregated list. *)
Theorem text_cache_only_with_data_cache (ops : list operation) (st : State) :
  text_implies_data st ->
  text_implies_data (run_ops py_repr http_exception_str unicode_lower W ops st).
Proof.
  revert st.
  induction ops as [| op rest IH]; intros st Hinv; cbn [run_ops fold_left].
  - exact Hinv.
  - apply IH.
    now apply run_op_text_implies_data.
Qed.

(** C3, as the code has it: [refresh_cache] clears both cache variables,
    resolves the configured name and runs the aggregation path alone.  If
    the name resolves and the pass returns, the aggregated list is set and
    the formatted text is left unset; if the pass or the listing raises,
    the exception reaches the caller with both unset; if the name does not
    resolve, the caller gets the 404 not-found error with both unset. *)
Theorem refresh_cache_rebuilds_data_only (st : State) :
  let st0 :=
    log_call (Get (BASE_URL ++ "/docs"))
      (set_formatted_data_cache None (set_coda_data_cache None st)) in
  match list_docs W (calls st) with
  | Failure msg =>
      refresh_cache http_exception_str unicode_lower W st = (Raise (Fault msg), st0)
  | Answer docs =>
      match truthy_id (resolve_loop unicode_lower docs DOC_NAME) with
      | None =>
          refresh_cache http_exception_str unicode_lower W st =
            (Raise (HTTPException 404 "Coda document not found"), st0)
      | Some doc_id =>
          match get_all_coda_data http_exception_str W doc_id st0 with
          | (Ok data, st1) =>
              refresh_cache http_exception_str unicode_lower W st =
                (Ok {| refresh_message := "Cache refreshed successfully";
                       refresh_status := "success" |}, st1) /\
              coda_data_cache st1 = Some data /\
              formatted_data_cache st1 = None
          | (Raise e, st1) =>
              refresh_cache http_exception_str unicode_lower W st = (Raise e, st1) /\
              coda_data_cache st1 = None /\
              formatted_data_cache st1 = None
          end
      end
  end /\
  coda_data_cache st0 = None /\ formatted_data_cache st0 = None.
Proof.
  cbv zeta.
  rewrite refresh_cache_run.
  cbv zeta.
  split; [ | split; reflexivity ].
  destruct (list_docs W (calls st)) as [docs | msg]; [ | reflexivity ].
  destruct (truthy_id (resolve_loop unicode_lower docs DOC_NAME))
      as [doc_id |]; [ | reflexivity ].
  destruct (get_all_coda_data http_exception_str W doc_id _) as [[data | e] st1] eqn:E;
    destruct (get_all_coda_data_effect _ _ _ _ E) as [Hf Hd];
    cbn [formatted_data_cache coda_data_cache log_call set_formatted_data_cache
         set_coda_data_cache] in Hf, Hd;
    auto.
Qed.

(** *** The chat webhook *)

(** [cliq_webhook], step by step. *)
Lemma cliq_webhook_run (request : CliqRequest) (st : State) :
  let failed e :=
    {| payload_text := CROSS_MARK ++ " Error processing your question: " ++
                       str_exn http_exception_str e;
       payload_color := "#FF0000" |} in
  cliq_webhook py_repr http_exception_str unicode_lower W request st =
  if all_space (text request) then (Ok USAGE_HINT, st)
  else
    match resolve_doc_id unicode_lower W DOC_NAME st with
    | (Raise e, st1) => (Ok (failed e), st1)
    | (Ok found, st1) =>
        match truthy_id found with
        | None =>
            (Ok {| payload_text :=
                     CROSS_MARK ++
                     " Coda document not found. Please check the configuration.";
                   payload_color := "#FF0000" |}, st1)
        | Some doc_id =>
            match get_all_coda_data http_exception_str W doc_id st1 with
            | (Raise e, st2) => (Ok (failed e), st2)
            | (Ok coda_data, st2) =>
                match format_data_for_gemini py_repr coda_data st2 with
                | (Raise e, st3) => (Ok (failed e), st3)
                | (Ok formatted_data, st3) =>
                    match ask_gemini_about_data http_exception_str W
                            formatted_data (text request) st3 with
                    | (Raise e, st4) => (Ok (failed e), st4)
                    | (Ok reply, st4) =>
                        (Ok {| payload_text :=
                                 ROBOT_MARK ++ " **Coda AI Assistant**" ++ LF ++ LF ++
                                 "**Question:** " ++ text request ++ LF ++ LF ++
                                 "**Answer:** " ++ reply;
                               payload_color := "#4CAF50" |}, st4)
                    end
                end
            end
        end
    end.
Proof.
  cbv zeta.
  unfold cliq_webhook, try_except.
  rewrite strip_empty_all_space.
  destruct (all_space (text request)); [ reflexivity | ].
  rewrite bind_run.
  destruct (resolve_doc_id unicode_lower
      W DOC_NAME st) as [[found | e] st1]; [ | reflexivity ].
  destruct (truthy_id found) as [doc_id |]; [ | reflexivity ].
  rewrite bind_run.
  destruct (get_all_coda_data http_exception_str W doc_id st1)
    as [[coda_data | e] st2]; [ | reflexivity ].
  rewrite bind_run.
  destruct (format_data_for_gemini py_repr coda_data st2)
    as [[formatted_data | e] st3]; [ | reflexivity ].
  rewrite bind_run.
  destruct (ask_gemini_about_data http_exception_str W formatted_data
              (text request) st3) as [[reply | e] st4]; reflexivity.
Qed.

(** C8, as the code has it: [/cliq/ask] always returns a [{text, color}]
    body and never raises.  For an empty or all-white-space text the body
    is the usage hint and no call is made.  A failed document listing, a
    name that does not resolve and a failed aggregation pass give a body
    coloured ["#FF0000"].  Once the aggregation has returned, the text is
    formatted, the model is called once on the prompt made of that text
    and the question, and the body is coloured ["#4CAF50"] whatever the
    model call does: its answer is the model's reply, or, when the model
    call fails, the error sentence that quotes the failure. *)
Theorem cliq_webhook_always_replies (request : CliqRequest) (st : State) :
  let red message :=
    {| payload_text := CROSS_MARK ++ message; payload_color := "#FF0000" |} in
  let green reply :=
    {| payload_text :=
         ROBOT_MARK ++ " **Coda AI Assistant**" ++ LF ++ LF ++
         "**Question:** " ++ text request ++ LF ++ LF ++
         "**Answer:** " ++ reply;
       payload_color := "#4CAF50" |} in
  exists payload st',
    cliq_webhook py_repr http_exception_str unicode_lower
        W request st = (Ok payload, st') /\
    (all_space (text request) = true -> payload = USAGE_HINT /\ st' = st) /\
    (all_space (text request) = false ->
     match resolve_doc_id unicode_lower W DOC_NAME st with
     | (Raise e, st1) =>
         payload =
           red (" Error processing your question: " ++ str_exn http_exception_str e) /\
         st' = st1
     | (Ok found, st1) =>
         match truthy_id found with
         | None =>
             payload =
               red " Coda document not found. Please check the configuration." /\
             st' = st1
         | Some doc_id =>
             match get_all_coda_data http_exception_str W doc_id st1 with
             | (Raise e, st2) =>
                 payload =
                   red (" Error processing your question: " ++
                        str_exn http_exception_str e) /\
                 st' = st2
             | (Ok coda_data, st2) =>
                 exists formatted st3,
                   format_data_for_gemini py_repr coda_data st2 = (Ok formatted, st3) /\
                   let prompt := prompt_of formatted (text request) in
                   st' = log_call (GenerateContent prompt) st3 /\
                   match generate_content W (calls st3) prompt with
                   | Answer reply => payload = green reply
                   | Failure message =>
                       payload =
                         green ("Error communicating with Gemini AI: " ++ message)
                   end
             end
         end
     end).
Proof.
  cbv zeta.
  rewrite cliq_webhook_run.
  cbv zeta.
  destruct (all_space (text request)).
  { eexists; eexists; split; [ reflexivity | ].
    split; [ auto | discriminate ]. }
  destruct (resolve_doc_id unicode_lower W DOC_NAME st) as [[found | e] st1].
  2: { eexists; eexists; split; [ reflexivity | ].
       split; [ discriminate | auto ]. }
  destruct (truthy_id found) as [doc_id |].
  2: { eexists; eexists; split; [ reflexivity | ].
       split; [ discriminate | auto ]. }
  destruct (get_all_coda_data http_exception_str W doc_id st1)
    as [[coda_data | e] st2].
  2: { eexists; eexists; split; [ reflexivity | ].
       split; [ discriminate | auto ]. }
  destruct (format_effect coda_data st2) as (formatted & st3 & Hformat & _).
  rewrite Hformat, ask_gemini_run.
  eexists; eexists; split; [ reflexivity | ].
  split; [ discriminate | intros _ ].
  exists formatted, st3.
  split; [ reflexivity | ].
  split; [ reflexivity | ].
  unfold reply_text.
  destruct (generate_content W (calls st3) (prompt_of formatted (text request)));
    reflexivity.
Qed.

(** *** Formatting *)

Lemma format_rows_render (table_rows : list row) :
  forall (i : nat) (acc : string),
  format_rows py_repr table_rows i acc =
  acc ++ String.concat ""
           (map (render_row py_repr (fun v => py_in v EMPTY_VALUES))
                (combine (seq i (length table_rows)) table_rows)).
Proof.
  induction table_rows as [| r rest IH]; intros i acc;
    cbn [format_rows length seq combine map].
  - cbn [String.concat]. now rewrite string_app_nil_r.
  - rewrite IH, concat_empty_cons, string_app_assoc.
    reflexivity.
Qed.

Lemma format_tables_render (page_tables : list table_data) :
  forall acc : string,
  format_tables py_repr page_tables acc =
  acc ++ String.concat ""
           (map (render_table py_repr (fun v => py_in v EMPTY_VALUES)) page_tables).
Proof.
  induction page_tables as [| t rest IH]; intros acc;
    cbn [format_tables map].
  - cbn [String.concat]. now rewrite string_app_nil_r.
  - cbv zeta.
    rewrite IH, format_rows_render, concat_empty_cons.
    unfold render_table.
    now rewrite !string_app_assoc.
Qed.

Lemma format_pages_render (coda_data : list page_data) :
  forall acc : string,
  format_pages py_repr coda_data acc =
  acc ++ String.concat ""
           (map (render_page py_repr (fun v => py_in v EMPTY_VALUES)) coda_data).
Proof.
  induction coda_data as [| p rest IH]; intros acc;
    cbn [format_pages map].
  - cbn [String.concat]. now rewrite string_app_nil_r.
  - cbv zeta.
    rewrite IH, format_tables_render, concat_empty_cons.
    unfold render_page.
    now rewrite !string_app_assoc.
Qed.

(** C9, as the code has it: with the formatted-text cache unset the
    formatter returns, and stores, the banner, then per page a heading with
    the page name, per table a heading with the table name and the
    comma-joined columns, then one line per row, numbered from 1 in every
    table, joining with [" | "] the ["column: value"] pairs of the values
    that are not equal (Python's [==], under which [0] and [0.0] equal
    [False]) to any of [None], [""], [False], ["False"]; a second call on
    the same list returns the same text. *)
Theorem format_renders_spec_text (coda_data : list page_data) (st : State) :
  formatted_data_cache st = None ->
  let rendered := render_spec py_repr (fun v => py_in v EMPTY_VALUES) coda_data in
  let st' := set_formatted_data_cache (Some rendered) st in
  format_data_for_gemini py_repr coda_data st = (Ok rendered, st') /\
  format_data_for_gemini py_repr coda_data st' = (Ok rendered, st').
Proof.
  intros Hc.
  cbv zeta.
  assert (Hrender :
    format_pages py_repr coda_data BANNER =
    render_spec py_repr (fun v => py_in v EMPTY_VALUES) coda_data).
  { rewrite format_pages_render.
    unfold render_spec, BANNER.
    now rewrite !string_app_assoc. }
  split.
  - unfold format_data_for_gemini.
    rewrite bind_run.
    cbn [get_state].
    rewrite Hc, bind_modify, Hrender.
    reflexivity.
  - apply format_cached.
    reflexivity.
Qed.

(** *** Dictionaries *)

Lemma dict_get_set_same {V : Type} (d : dict V) (k : string) (v : V) :
  dict_get (dict_set d k v) k = Some v.
Proof.
  induction d as [| [k' v'] d IH]; simpl.
  - now rewrite String.eqb_refl.
  - destruct (String.eqb k' k) eqn:E; simpl; rewrite E; [ reflexivity | exact IH ].
Qed.

Lemma dict_get_set_other {V : Type} (d : dict V) (k k' : string) (v : V) :
  k <> k' -> dict_get (dict_set d k v) k' = dict_get d k'.
Proof.
  intros Hne.
  induction d as [| [k0 v0] d IH]; simpl.
  - destruct (String.eqb_spec k k'); [ contradiction | reflexivity ].
  - destruct (String.eqb_spec k0 k) as [-> | Hk]; simpl.
    + destruct (String.eqb_spec k k'); [ contradiction | reflexivity ].
    + destruct (String.eqb k0 k'); [ reflexivity | exact IH ].
Qed.

Lemma in_dict_keys_set {V : Type} (d : dict V) (k x : string) (v : V) :
  In x (dict_keys (dict_set d k v)) <-> x = k \/ In x (dict_keys d).
Proof.
  unfold dict_keys.
  induction d as [| [k0 v0] d IH]; simpl.
  - split; (intros [H | H]; [ left; symmetry; exact H | right; exact H ]).
  - destruct (String.eqb_spec k0 k) as [-> | Hk]; simpl.
    + split; [ intros [H | H]; [ left; symmetry; exact H | right; right; exact H ] | ].
      intros [H | [H | H]];
        [ left; symmetry; exact H | left; exact H | right; exact H ].
    + rewrite IH.
      split; [ intros [H | [H | H]] | intros [H | [H | H]] ];
        [ right; left; exact H | left; exact H | right; right; exact H
        | right; left; exact H | left; exact H | right; right; exact H ].
Qed.

Lemma dict_set_keys_NoDup {V : Type} (d : dict V) (k : string) (v : V) :
  NoDup (dict_keys d) -> NoDup (dict_keys (dict_set d k v)).
Proof.
  induction d as [| [k0 v0] d IH]; simpl; intros Hd.
  - constructor; [ intros [] | constructor ].
  - inversion Hd as [| ? ? Hnotin Hrest]; subst.
    destruct (String.eqb_spec k0 k) as [-> | Hk]; simpl.
    + constructor; assumption.
    + constructor; [ | now apply IH ].
      intros Hin.
      apply (in_dict_keys_set d k k0 v) in Hin.
      destruct Hin as [-> | Hin]; [ now apply Hk | now apply Hnotin ].
Qed.

Lemma dict_set_fresh {V : Type} (d : dict V) (k : string) (v : V) :
  ~ In k (dict_keys d) -> dict_set d k v = (d ++ [(k, v)])%list.
Proof.
  induction d as [| [k0 v0] d IH]; simpl; intros Hk; [ reflexivity | ].
  destruct (String.eqb_spec k0 k) as [-> | Hne].
  - exfalso. apply Hk. now left.
  - rewrite IH; [ reflexivity | ].
    intros Hin. apply Hk. now right.
Qed.

Lemma find_app_first {X : Type} (f : X -> bool) (l1 l2 : list X) :
  find f (l1 ++ l2) =
  match find f l1 with Some x => Some x | None => find f l2 end.
Proof.
  induction l1 as [| x l1 IH]; simpl; [ reflexivity | ].
  destruct (f x); [ reflexivity | exact IH ].
Qed.

(** A dictionary filled from a list by assignment: a key gives the value
    of the last element assigned to it. *)
Lemma dict_get_fold_set {X V : Type} (key : X -> string) (val : X -> V)
    (l : list X) :
  forall (d : dict V) (k : string),
  dict_get (fold_left (fun m x => dict_set m (key x) (val x)) l d) k =
  match find (fun x => String.eqb (key x) k) (rev l) with
  | Some x => Some (val x)
  | None => dict_get d k
  end.
Proof.
  induction l as [| x l IH]; intros d k; simpl; [ reflexivity | ].
  rewrite IH, find_app_first.
  destruct (find (fun x0 => String.eqb (key x0) k) (rev l)); [ reflexivity | ].
  simpl.
  destruct (String.eqb_spec (key x) k) as [<- | Hne].
  - apply dict_get_set_same.
  - now apply dict_get_set_other.
Qed.

Lemma fold_set_keys_NoDup {X V : Type} (key : X -> string) (val : X -> V)
    (l : list X) :
  forall d : dict V,
  NoDup (dict_keys d) ->
  NoDup (dict_keys (fold_left (fun m x => dict_set m (key x) (val x)) l d)).
Proof.
  induction l as [| x l IH]; intros d Hd; simpl; [ exact Hd | ].
  apply IH.
  now apply dict_set_keys_NoDup.
Qed.

Lemma fold_set_fresh {X V : Type} (key : X -> string) (val : X -> V)
    (l : list X) :
  forall d : dict V,
  NoDup (map key l) ->
  (forall x, In x l -> ~ In (key x) (dict_keys d)) ->
  fold_left (fun m x => dict_set m (key x) (val x)) l d =
  (d ++ map (fun x => (key x, val x)) l)%list.
Proof.
  induction l as [| x l IH]; intros d Hnd Hfresh; simpl.
  - now rewrite app_nil_r.
  - inversion Hnd as [| ? ? Hx Hl]; subst.
    rewrite dict_set_fresh by (apply Hfresh; now left).
    rewrite IH; [ now rewrite <- app_assoc | exact Hl | ].
    intros y Hy Hin.
    unfold dict_keys in Hin.
    rewrite map_app in Hin.
    apply in_app_or in Hin.
    destruct Hin as [Hin | [Heq | []]].
    + apply (Hfresh y); [ now right | exact Hin ].
    + simpl in Heq.
      apply Hx.
      rewrite Heq.
      now apply in_map.
Qed.

(** *** The Workspace Client *)

(** X1: the tables of a page are the listed tables whose parent id is the
    page id, in the order listed, fetched with one call; a table without a
    parent belongs to no page, and no table is returned for two pages with
    different ids. *)
Theorem tables_of_a_page_are_its_children (doc_id page_id : string)
    (all_tables : list Table.t) (st : State) :
  list_tables W (calls st) doc_id = Answer all_tables ->
  exists on_page,
    get_tables_created_on_page W doc_id page_id st =
      (Ok on_page, log_call (Get (BASE_URL ++ "/docs/" ++ doc_id ++ "/tables")) st) /\
    on_page = filter (fun table => parent_is table page_id) all_tables /\
    (forall table, In table on_page <->
                   In table all_tables /\ Table.parent table = Some page_id) /\
    (forall table other_page,
        In table on_page ->
        In table (tables_on_page all_tables other_page []) ->
        other_page = page_id).
Proof.
  intros Hlist.
  exists (filter (fun table => parent_is table page_id) all_tables).
  assert (Hparent : forall table p, parent_is table p =
      true <-> Table.parent table = Some p).
  { intros table p.
    unfold parent_is.
    destruct (Table.parent table) as [q |].
    - destruct (String.eqb_spec q p); split; congruence.
    - split; discriminate. }
  split; [ | split; [ reflexivity | split ] ].
  - unfold get_tables_created_on_page.
    erewrite bind_ok by (apply call_answer; exact Hlist).
    now rewrite tables_on_page_filter.
  - intros table.
    now rewrite filter_In, Hparent.
  - intros table other_page Hin Hother.
    rewrite tables_on_page_filter in Hother.
    apply filter_In in Hin.
    apply filter_In in Hother.
    destruct Hin as [_ Hin].
    destruct Hother as [_ Hother].
    apply Hparent in Hin.
    apply Hparent in Hother.
    congruence.
Qed.

(** X2: the column map sends a column id to the name of the last listed
    column with that id, has no entry for an id that is not listed, and
    holds every id once. *)
Theorem column_map_gives_last_listed_name (doc_id table_id : string)
    (cols : list Column.t) (st : State) :
  list_columns W (calls st) doc_id table_id = Answer cols ->
  exists colmap,
    get_column_map W doc_id table_id st =
      (Ok colmap,
       log_call (Get (BASE_URL ++ "/docs/" ++ doc_id ++ "/tables/" ++ table_id ++
                      "/columns")) st) /\
    (forall col_id,
        dict_get colmap col_id =
        option_map Column.name
          (find (fun c => String.eqb (Column.id c) col_id) (rev cols))) /\
    (forall col_id,
        ~ In col_id (map Column.id cols) -> shown_name colmap col_id = col_id) /\
    NoDup (dict_keys colmap).
Proof.
  intros Hlist.
  exists (column_map cols).
  assert (Hget : forall col_id,
             dict_get (column_map cols) col_id =
             option_map Column.name
               (find (fun c => String.eqb (Column.id c) col_id) (rev cols))).
  { intros col_id.
    unfold column_map.
    rewrite (dict_get_fold_set Column.id Column.name).
    destruct (find _ (rev cols)); reflexivity. }
  split; [ | split; [ exact Hget | split ] ].
  - unfold get_column_map.
    erewrite bind_ok by (apply call_answer; exact Hlist).
    reflexivity.
  - intros col_id Hnot.
    unfold shown_name, dict_get_default.
    rewrite Hget.
    destruct (find (fun c => String.eqb (Column.id c) col_id) (rev cols)) as [c |] eqn:E;
      [ | reflexivity ].
    apply find_some in E.
    destruct E as [Hin Heq].
    apply String.eqb_eq in Heq.
    exfalso.
    apply Hnot.
    rewrite <- Heq.
    apply in_map.
    now apply in_rev.
  - unfold column_map.
    apply (fold_set_keys_NoDup Column.id Column.name).
    constructor.
Qed.

Lemma clean_row_fold (colmap : dict string) (item : RawRow.t) :
  clean_row colmap item =
  fold_left (fun m cell => dict_set m (shown_name colmap (fst cell)) (snd cell))
    (RawRow.values item) [].
Proof. reflexivity. Qed.

(** X3: [get_rows] returns one readable row per fetched row, in order; in
    every readable row the keys are pairwise distinct, and a key gives the
    value of the last cell stored under it, so of two cells whose columns
    share a name only the later one is kept. *)
Theorem readable_rows_keep_last_cell_per_name (doc_id table_id : string)
    (colmap : dict string) (items : list RawRow.t) (st : State) :
  list_rows W (calls st) doc_id table_id = Answer items ->
  exists readable,
    get_rows W doc_id table_id colmap st =
      (Ok readable,
       log_call (Get (BASE_URL ++ "/docs/" ++ doc_id ++ "/tables/" ++ table_id ++
                      "/rows")) st) /\
    readable = map (clean_row colmap) items /\
    Forall (fun r => NoDup (dict_keys r)) readable /\
    (forall item key,
        dict_get (clean_row colmap item) key =
        option_map snd
          (find (fun cell => String.eqb (shown_name colmap (fst cell)) key)
                (rev (RawRow.values item)))).
Proof.
  intros Hlist.
  exists (map (clean_row colmap) items).
  split; [ | split; [ reflexivity | split ] ].
  - unfold get_rows.
    erewrite bind_ok by (apply call_answer; exact Hlist).
    now rewrite readable_rows_loop_map.
  - apply Forall_forall.
    intros r Hr.
    apply in_map_iff in Hr.
    destruct Hr as (item & <- & _).
    rewrite clean_row_fold.
    apply (fold_set_keys_NoDup (fun cell => shown_name colmap (fst cell)) snd).
    constructor.
  - intros item key.
    rewrite clean_row_fold.
    rewrite (dict_get_fold_set (fun cell => shown_name colmap (fst cell)) snd).
    destruct (find _ (rev (RawRow.values item))); reflexivity.
Qed.

(** X4: when the cells of a fetched row are stored under pairwise distinct
    names, the readable row is the fetched row with every column id
    replaced by its name: same length, same order, every value untouched. *)
Theorem clean_row_renames_in_place (colmap : dict string) (item : RawRow.t) :
  NoDup (map (fun cell => shown_name colmap (fst cell)) (RawRow.values item)) ->
  clean_row colmap item = map (renamed_cell colmap) (RawRow.values item) /\
  dict_values (clean_row colmap item) = dict_values (RawRow.values item).
Proof.
  intros Hnd.
  assert (Hrow : clean_row colmap item = map (renamed_cell colmap) (RawRow.values item)).
  { rewrite clean_row_fold.
    rewrite (fold_set_fresh (fun cell => shown_name colmap (fst cell)) snd);
      [ reflexivity | exact Hnd | intros x _ [] ]. }
  split; [ exact Hrow | ].
  rewrite Hrow.
  unfold dict_values.
  rewrite map_map.
  reflexivity.
Qed.

(** *** The model and the answering routes *)

(** [ask_question], step by step. *)
Lemma ask_question_run (request : QuestionRequest) (st : State) :
  let failed e :=
    Raise (HTTPException 500
             ("Error processing request: " ++ str_exn http_exception_str e)) in
  ask_question py_repr http_exception_str unicode_lower W request st =
  match resolve_doc_id unicode_lower W DOC_NAME st with
  | (Raise e, st1) => (failed e, st1)
  | (Ok found, st1) =>
      match truthy_id found with
      | None => (failed (HTTPException 404 "Coda document not found"), st1)
      | Some doc_id =>
          match get_all_coda_data http_exception_str W doc_id st1 with
          | (Raise e, st2) => (failed e, st2)
          | (Ok coda_data, st2) =>
              match format_data_for_gemini py_repr coda_data st2 with
              | (Raise e, st3) => (failed e, st3)
              | (Ok formatted_data, st3) =>
                  match ask_gemini_about_data http_exception_str W
                          formatted_data (question request) st3 with
                  | (Raise e, st4) => (failed e, st4)
                  | (Ok reply, st4) =>
                      (Ok {| answer := reply; status := "success" |}, st4)
                  end
              end
          end
      end
  end.
Proof.
  cbv zeta.
  unfold ask_question, try_except.
  rewrite bind_run.
  destruct (resolve_doc_id unicode_lower
      W DOC_NAME st) as [[found | e] st1]; [ | reflexivity ].
  destruct (truthy_id found) as [doc_id |]; [ | reflexivity ].
  rewrite bind_run.
  destruct (get_all_coda_data http_exception_str W doc_id st1)
    as [[coda_data | e] st2]; [ | reflexivity ].
  rewrite bind_run.
  destruct (format_data_for_gemini py_repr coda_data st2)
    as [[formatted_data | e] st3]; [ | reflexivity ].
  rewrite bind_run.
  destruct (ask_gemini_about_data http_exception_str W formatted_data
              (question request) st3) as [[reply | e] st4]; reflexivity.
Qed.

(** X5: [/ask] answers with status ["success"] or raises an
    [HTTPException] with status 500, never another one: the 404 raised for
    a name that does not resolve is caught by the route's own [except] and
    comes out as a 500 whose detail quotes it. *)
Theorem ask_question_raises_only_500 (request : QuestionRequest) (st : State) :
  match fst (ask_question py_repr http_exception_str unicode_lower W request st) with
  | Ok response => status response = "success"
  | Raise e =>
      exists cause,
        e = HTTPException 500
              ("Error processing request: " ++ str_exn http_exception_str cause)
  end /\
  (forall docs,
      list_docs W (calls st) = Answer docs ->
      truthy_id (resolve_loop unicode_lower docs DOC_NAME) = None ->
      ask_question py_repr http_exception_str unicode_lower W request st =
      (Raise (HTTPException 500
                ("Error processing request: " ++
                 http_exception_str 404 "Coda document not found")),
       log_call (Get (BASE_URL ++ "/docs")) st)).
Proof.
  split.
  - rewrite ask_question_run.
    cbv zeta.
    destruct (resolve_doc_id unicode_lower W DOC_NAME st) as [[found | e] st1];
      [ | now exists e ].
    destruct (truthy_id found) as [doc_id |];
      [ | now exists (HTTPException 404 "Coda document not found") ].
    destruct (get_all_coda_data http_exception_str W doc_id st1)
      as [[coda_data | e] st2]; [ | now exists e ].
    destruct (format_data_for_gemini py_repr coda_data st2)
      as [[formatted_data | e] st3]; [ | now exists e ].
    rewrite ask_gemini_run.
    reflexivity.
  - intros docs Hdocs Hnone.
    rewrite ask_question_run.
    cbv zeta.
    unfold resolve_doc_id, get_all_docs.
    erewrite bind_ok by (apply call_answer; exact Hdocs).
    cbn [ret].
    now rewrite Hnone.
Qed.

(** The document listing that opens every answering route. *)
Lemma resolve_doc_id_run (doc_name : string) (docs : list Doc.t) (st : State) :
  list_docs W (calls st) = Answer docs ->
  resolve_doc_id unicode_lower W doc_name st =
  (Ok (resolve_loop unicode_lower docs doc_name), log_call (Get (BASE_URL ++ "/docs")) st).
Proof.
  intros Hdocs.
  unfold resolve_doc_id, get_all_docs.
  erewrite bind_ok by (apply call_answer; exact Hdocs).
  reflexivity.
Qed.

(** X6: with both cache variables set and the configured name resolving,
    [/ask] makes exactly two calls, the document listing and the model
    call on the cached text, and returns the model's reply, or the error
    sentence when the model call fails, with status ["success"]; the cache
    variables stay as they were. *)
Theorem ask_question_on_warm_cache (request : QuestionRequest) (st : State)
    (data : list page_data) (cached : string) (docs : list Doc.t)
    (doc_id : string) :
  coda_data_cache st = Some data ->
  formatted_data_cache st = Some cached ->
  list_docs W (calls st) = Answer docs ->
  truthy_id (resolve_loop unicode_lower docs DOC_NAME) = Some doc_id ->
  let listing := Get (BASE_URL ++ "/docs") in
  let prompt := prompt_of cached (question request) in
  ask_question py_repr http_exception_str unicode_lower W request st =
  (Ok {| answer := reply_text W (listing :: calls st) prompt;
         status := "success" |},
   log_call (GenerateContent prompt) (log_call listing st)).
Proof.
  intros Hd Hf Hdocs Hid.
  cbv zeta.
  rewrite ask_question_run.
  cbv zeta.
  rewrite (resolve_doc_id_run DOC_NAME docs st Hdocs), Hid.
  rewrite (get_all_coda_data_cached doc_id _ data) by exact Hd.
  rewrite (format_cached data _ cached) by exact Hf.
  rewrite ask_gemini_run.
  reflexivity.
Qed.

(** X7: with both cache variables set, a question that is not blank and
    the configured name resolving, [/cliq/ask] makes exactly two calls, the
    document listing and the model call on the cached text, and returns
    the green body that quotes the question and the model's reply, or the
    error sentence when the model call fails. *)
Theorem cliq_webhook_on_warm_cache (request : CliqRequest) (st : State)
    (data : list page_data) (cached : string) (docs : list Doc.t)
    (doc_id : string) :
  coda_data_cache st = Some data ->
  formatted_data_cache st = Some cached ->
  all_space (text request) = false ->
  list_docs W (calls st) = Answer docs ->
  truthy_id (resolve_loop unicode_lower docs DOC_NAME) = Some doc_id ->
  let listing := Get (BASE_URL ++ "/docs") in
  let prompt := prompt_of cached (text request) in
  cliq_webhook py_repr http_exception_str unicode_lower W request st =
  (Ok {| payload_text :=
           ROBOT_MARK ++ " **Coda AI Assistant**" ++ LF ++ LF ++
           "**Question:** " ++ text request ++ LF ++ LF ++
           "**Answer:** " ++ reply_text W (listing :: calls st) prompt;
         payload_color := "#4CAF50" |},
   log_call (GenerateContent prompt) (log_call listing st)).
Proof.
  intros Hd Hf Hblank Hdocs Hid.
  cbv zeta.
  rewrite cliq_webhook_run.
  cbv zeta.
  rewrite Hblank.
  rewrite (resolve_doc_id_run DOC_NAME docs st Hdocs), Hid.
  rewrite (get_all_coda_data_cached doc_id _ data) by exact Hd.
  rewrite (format_cached data _ cached) by exact Hf.
  rewrite ask_gemini_run.
  reflexivity.
Qed.

(** *** The data summary *)

Lemma fold_add_acc (l : list nat) (a : nat) :
  fold_left Nat.add l a = (a + sum_nat l)%nat.
Proof.
  unfold sum_nat.
  revert a.
  induction l as [| x l IH]; intros a; simpl.
  - now rewrite Nat.add_0_r.
  - rewrite (IH (a + x)%nat), (IH x).
    now rewrite Nat.add_assoc.
Qed.

Lemma sum_nat_cons (x : nat) (l : list nat) :
  sum_nat (x :: l) = (x + sum_nat l)%nat.
Proof. unfold sum_nat at 1. simpl. apply fold_add_acc. Qed.

Lemma sum_nat_app (l1 l2 : list nat) :
  sum_nat (l1 ++ l2) = (sum_nat l1 + sum_nat l2)%nat.
Proof.
  induction l1 as [| x l1 IH]; [ reflexivity | ].
  cbn [app].
  rewrite !sum_nat_cons, IH.
  now rewrite Nat.add_assoc.
Qed.

Lemma sum_nat_flat_map {X : Type} (g : X -> list nat) (l : list X) :
  sum_nat (flat_map g l) = sum_nat (map (fun x => sum_nat (g x)) l).
Proof.
  induction l as [| x l IH]; [ reflexivity | ].
  cbn [flat_map map].
  now rewrite sum_nat_app, sum_nat_cons, IH.
Qed.

(** [get_data_summary], step by step. *)
Lemma get_data_summary_run (st : State) :
  let failed e :=
    Raise (HTTPException 500
             ("Error getting data summary: " ++ str_exn http_exception_str e)) in
  get_data_summary http_exception_str unicode_lower W st =
  match resolve_doc_id unicode_lower W DOC_NAME st with
  | (Raise e, st1) => (failed e, st1)
  | (Ok found, st1) =>
      match truthy_id found with
      | None => (failed (HTTPException 404 "Coda document not found"), st1)
      | Some doc_id =>
          match get_all_coda_data http_exception_str W doc_id st1 with
          | (Raise e, st2) => (failed e, st2)
          | (Ok coda_data, st2) =>
              (Ok {| document := DOC_NAME;
                     total_pages := length coda_data;
                     total_tables :=
                       sum_nat (map (fun page => length (tables page)) coda_data);
                     total_rows :=
                       sum_nat (flat_map
                                  (fun page =>
                                     map (fun table => length (rows table)) (tables page))
                                  coda_data);
                     pages_info :=
                       map (fun page =>
                              {| summary_page_name := page_name page;
                                 summary_tables :=
                                   map (fun table =>
                                          {| summary_table_name := table_name table;
                                             row_count := length (rows table) |})
                                       (tables page) |})
                           coda_data |}, st2)
          end
      end
  end.
Proof.
  cbv zeta.
  unfold get_data_summary, try_except.
  rewrite bind_run.
  destruct (resolve_doc_id unicode_lower
      W DOC_NAME st) as [[found | e] st1]; [ | reflexivity ].
  destruct (truthy_id found) as [doc_id |]; [ | reflexivity ].
  rewrite bind_run.
  destruct (get_all_coda_data http_exception_str W doc_id st1)
    as [[coda_data | e] st2]; reflexivity.
Qed.

(** X8: a data summary that is returned describes the aggregated list the
    cache then holds: its pages in order, and totals that agree with its
    own breakdown (pages counted, tables summed over pages, row counts
    summed over all tables); it leaves the formatted text alone.  A data
    summary that fails raises an [HTTPException] with status 500. *)
Theorem data_summary_totals_agree (st : State) :
  match get_data_summary http_exception_str unicode_lower W st with
  | (Ok summary, st') =>
      exists data,
        coda_data_cache st' = Some data /\
        formatted_data_cache st' = formatted_data_cache st /\
        document summary = DOC_NAME /\
        map summary_page_name (pages_info summary) = map page_name data /\
        map (fun p => map row_count (summary_tables p)) (pages_info summary) =
          map (fun p => map (fun t => length (rows t)) (tables p)) data /\
        total_pages summary = length (pages_info summary) /\
        total_tables summary =
          sum_nat (map (fun p => length (summary_tables p)) (pages_info summary)) /\
        total_rows summary =
          sum_nat (map (fun p => sum_nat (map row_count (summary_tables p)))
                       (pages_info summary))
  | (Raise e, _) =>
      exists cause,
        e = HTTPException 500
              ("Error getting data summary: " ++ str_exn http_exception_str cause)
  end.
Proof.
  rewrite get_data_summary_run.
  cbv zeta.
  destruct (resolve_doc_id unicode_lower W DOC_NAME st) as [[found | e] st1] eqn:Er;
    [ | now exists e ].
  destruct (truthy_id found) as [doc_id |];
    [ | now exists (HTTPException 404 "Coda document not found") ].
  destruct (get_all_coda_data http_exception_str W doc_id st1)
    as [[coda_data | e] st2] eqn:Ed; [ | now exists e ].
  destruct (get_all_coda_data_effect _ _ _ _ Ed) as [Hf Hd].
  destruct (keeps_resolve_doc_id DOC_NAME _ _ _ Er) as [_ Hf1].
  exists coda_data.
  cbn [document total_pages total_tables total_rows pages_info].
  rewrite !map_map, length_map.
  cbn [summary_page_name summary_tables].
  repeat split.
  - exact Hd.
  - congruence.
  - apply map_ext. intros p. rewrite map_map. reflexivity.
  - f_equal. apply map_ext. intros p. now rewrite length_map.
  - rewrite sum_nat_flat_map.
    f_equal. apply map_ext. intros p. now rewrite map_map.
Qed.

(** *** What stays in the cache *)

Lemma cache_kept_refl (st : State) : cache_kept st st.
Proof. split; auto. Qed.

Lemma cache_kept_trans (st1 st2 st3 : State) :
  cache_kept st1 st2 -> cache_kept st2 st3 -> cache_kept st1 st3.
Proof. intros [H1 H2] [H3 H4]. split; auto. Qed.

Lemma same_caches_kept (st st' : State) : same_caches st st' -> cache_kept st st'.
Proof. intros [Hd Hf]. split; intros x Hx; congruence. Qed.

Lemma keeps_caches_set {A : Type} (m : M A) :
  keeps_caches m -> keeps_set_caches m.
Proof.
  intros Hm st r st' Hrun.
  apply same_caches_kept.
  eapply Hm. exact Hrun.
Qed.

Lemma set_bind {A B : Type} (m : M A) (f : A -> M B) :
  keeps_set_caches m -> (forall a, keeps_set_caches (f a)) ->
  keeps_set_caches (bind m f).
Proof.
  intros Hm Hf st r st' H.
  rewrite bind_run in H.
  destruct (m st) as [[a | e] st1] eqn:E.
  - eapply cache_kept_trans; [ eapply Hm | eapply Hf ]; eassumption.
  - inversion H; subst. eapply Hm; eassumption.
Qed.

Lemma set_try_except {A : Type} (m : M A) (h : exn -> M A) :
  keeps_set_caches m -> (forall e, keeps_set_caches (h e)) ->
  keeps_set_caches (try_except m h).
Proof.
  intros Hm Hh st r st' H.
  unfold try_except in H.
  destruct (m st) as [[a | e] st1] eqn:E.
  - inversion H; subst. eapply Hm; eassumption.
  - eapply cache_kept_trans; [ eapply Hm | eapply Hh ]; eassumption.
Qed.

Lemma set_get_all_coda_data (doc_id : string) :
  keeps_set_caches (get_all_coda_data http_exception_str W doc_id).
Proof.
  intros st r st' Hrun.
  destruct (get_all_coda_data_effect _ _ _ _ Hrun) as [Hf Hd].
  split.
  - intros data Hc.
    rewrite (get_all_coda_data_cached doc_id st data Hc) in Hrun.
    inversion Hrun; subst.
    exact Hc.
  - intros cached Hc.
    congruence.
Qed.

Lemma format_run (coda_data : list page_data) (st : State) :
  format_data_for_gemini py_repr coda_data st =
  match formatted_data_cache st with
  | Some cached => (Ok cached, st)
  | None =>
      (Ok (format_pages py_repr coda_data BANNER),
       set_formatted_data_cache (Some (format_pages py_repr coda_data BANNER)) st)
  end.
Proof.
  unfold format_data_for_gemini.
  rewrite bind_run.
  cbn [get_state].
  destruct (formatted_data_cache st); reflexivity.
Qed.

Lemma set_format (coda_data : list page_data) :
  keeps_set_caches (format_data_for_gemini py_repr coda_data).
Proof.
  intros st r st' Hrun.
  rewrite format_run in Hrun.
  destruct (formatted_data_cache st) as [cached |] eqn:Hc;
    inversion Hrun; subst.
  - apply cache_kept_refl.
  - split; [ auto | ].
    intros cached Hc'.
    congruence.
Qed.

Lemma set_context_then {B : Type} (doc_id : string)
    (k : list page_data -> string -> M B) :
  (forall data formatted, keeps_caches (k data formatted)) ->
  keeps_set_caches
    (coda_data <- get_all_coda_data http_exception_str W doc_id ;;
     formatted_data <- format_data_for_gemini py_repr coda_data ;;
     k coda_data formatted_data).
Proof.
  intros Hk.
  apply set_bind; [ apply set_get_all_coda_data | intros data ].
  apply set_bind; [ apply set_format | intros formatted ].
  apply keeps_caches_set, Hk.
Qed.

Lemma set_ask_question (request : QuestionRequest) :
  keeps_set_caches (ask_question py_repr http_exception_str unicode_lower W request).
Proof.
  unfold ask_question.
  apply set_try_except.
  - apply set_bind.
    + apply keeps_caches_set, keeps_resolve_doc_id.
    + intros found.
      destruct (truthy_id found) as [doc_id |].
      * apply set_context_then.
        intros data formatted.
        pose proof (keeps_ask_gemini formatted (question request)).
        auto with caches.
      * apply keeps_caches_set. auto with caches.
  - intros e. apply keeps_caches_set. auto with caches.
Qed.

Lemma set_cliq_webhook (request : CliqRequest) :
  keeps_set_caches (cliq_webhook py_repr http_exception_str unicode_lower W request).
Proof.
  unfold cliq_webhook.
  apply set_try_except.
  - destruct (is_empty (strip (text request))).
    + apply keeps_caches_set. auto with caches.
    + apply set_bind.
      * apply keeps_caches_set, keeps_resolve_doc_id.
      * intros found.
        destruct (truthy_id found) as [doc_id |].
        -- apply set_context_then.
           intros data formatted.
           pose proof (keeps_ask_gemini formatted (text request)).
           auto with caches.
        -- apply keeps_caches_set. auto with caches.
  - intros e. apply keeps_caches_set. auto with caches.
Qed.

Lemma set_get_data_summary :
  keeps_set_caches (get_data_summary http_exception_str unicode_lower W).
Proof.
  unfold get_data_summary.
  apply set_try_except.
  - apply set_bind.
    + apply keeps_caches_set, keeps_resolve_doc_id.
    + intros found.
      destruct (truthy_id found) as [doc_id |].
      * apply set_bind.
        -- apply set_get_all_coda_data.
        -- intros data. apply keeps_caches_set. auto with caches.
      * apply keeps_caches_set. auto with caches.
  - intros e. apply keeps_caches_set. auto with caches.
Qed.

Lemma run_op_cache_kept (op : operation) (st : State) :
  is_refresh op = false ->
  cache_kept st (run_op py_repr http_exception_str unicode_lower W op st).
Proof.
  intros Hop.
  destruct op as [| | q | r | | | d]; cbn [run_op]; try discriminate Hop.
  - apply cache_kept_refl.
  - apply cache_kept_refl.
  - eapply set_ask_question. apply surjective_pairing.
  - eapply set_cliq_webhook. apply surjective_pairing.
  - eapply set_get_data_summary. apply surjective_pairing.
  - eapply (set_context_then d (fun data formatted => ret (data, formatted))).
    + intros. apply keeps_ret.
    + apply surjective_pairing.
Qed.

(** X9: only a refresh replaces what the cache holds: across any
    operations other than [/refresh-cache], an aggregated list that is set
    stays the same list and a formatted text that is set stays the same
    text, whatever the workspace answers in the meantime. *)
Theorem cache_is_kept_until_refresh (ops : list operation) (st : State) :
  forallb (fun op => negb (is_refresh op)) ops = true ->
  cache_kept st (run_ops py_repr http_exception_str unicode_lower W ops st).
Proof.
  revert st.
  induction ops as [| op rest IH]; intros st Hops; cbn [run_ops fold_left].
  - apply cache_kept_refl.
  - cbn [forallb] in Hops.
    apply andb_true_iff in Hops.
    destruct Hops as [Hop Hrest].
    apply negb_true_iff in Hop.
    eapply cache_kept_trans; [ apply run_op_cache_kept; exact Hop | ].
    apply IH.
    exact Hrest.
Qed.

(** *** The cached text is the text of the cached list *)

Lemma same_caches_renders (st st' : State) :
  same_caches st st' -> text_renders_data py_repr st -> text_renders_data py_repr st'.
Proof.
  intros [Hd Hf] Hinv cached Hc.
  rewrite Hd.
  apply Hinv.
  congruence.
Qed.

Lemma renders_get_all_coda_data (doc_id : string) (st st' : State)
    (r : result (list page_data)) :
  text_renders_data py_repr st ->
  get_all_coda_data http_exception_str W doc_id st = (r, st') ->
  text_renders_data py_repr st'.
Proof.
  intros Hinv Hrun cached Hc.
  destruct (get_all_coda_data_effect _ _ _ _ Hrun) as [Hf _].
  rewrite Hf in Hc.
  destruct (Hinv cached Hc) as (data & Hd & Htext).
  rewrite (get_all_coda_data_cached doc_id st data Hd) in Hrun.
  inversion Hrun; subst.
  now exists data.
Qed.

Lemma renders_context_then {B : Type} (doc_id : string)
    (k : list page_data -> string -> M B) (st st' : State) (r : result B) :
  (forall data formatted, keeps_caches (k data formatted)) ->
  text_renders_data py_repr st ->
  (coda_data <- get_all_coda_data http_exception_str W doc_id ;;
   formatted_data <- format_data_for_gemini py_repr coda_data ;;
   k coda_data formatted_data) st = (r, st') ->
  text_renders_data py_repr st'.
Proof.
  intros Hk Hinv H.
  rewrite bind_run in H.
  destruct (get_all_coda_data http_exception_str W doc_id st)
    as [[data | e] st1] eqn:Ed.
  - pose proof (renders_get_all_coda_data _ _ _ _ Hinv Ed) as Hinv1.
    destruct (get_all_coda_data_effect _ _ _ _ Ed) as [_ Hdata].
    rewrite bind_run, format_run in H.
    destruct (formatted_data_cache st1) as [cached |] eqn:Hc.
    + eapply same_caches_renders; [ eapply Hk; exact H | exact Hinv1 ].
    + eapply same_caches_renders; [ eapply Hk; exact H | ].
      intros cached Hcached.
      cbn [formatted_data_cache set_formatted_data_cache] in Hcached.
      exists data.
      split; [ exact Hdata | congruence ].
  - inversion H; subst.
    eapply renders_get_all_coda_data; eassumption.
Qed.

Lemma run_op_renders (op : operation) (st : State) :
  text_renders_data py_repr st ->
  text_renders_data py_repr (run_op py_repr http_exception_str unicode_lower W op st).
Proof.
  intros Hinv.
  destruct op as [| | q | r | | | d]; cbn [run_op].
  - exact Hinv.
  - exact Hinv.
  - rewrite ask_question_run.
    cbv zeta.
    destruct (resolve_doc_id unicode_lower W DOC_NAME st) as [[found | e] st1] eqn:Er;
      pose proof (same_caches_renders _ _ (keeps_resolve_doc_id _ _ _ _ Er) Hinv)
        as Hinv1; [ | exact Hinv1 ].
    destruct (truthy_id found) as [doc_id |]; [ | exact Hinv1 ].
    pose proof (renders_context_then doc_id
                  (fun _ formatted =>
                     ask_gemini_about_data http_exception_str W formatted (question q))
                  st1) as Hctx.
    rewrite !bind_run in Hctx.
    destruct (get_all_coda_data http_exception_str W doc_id st1)
      as [[data | e] st2]; [ | eapply Hctx; eauto using keeps_ask_gemini ].
    rewrite bind_run in Hctx.
    destruct (format_data_for_gemini py_repr data st2) as [[formatted | e] st3];
      [ | eapply Hctx; eauto using keeps_ask_gemini ].
    destruct (ask_gemini_about_data http_exception_str W formatted (question q) st3)
      as [[reply | e] st4] eqn:Eg;
      eapply Hctx; eauto using keeps_ask_gemini.
  - rewrite cliq_webhook_run.
    cbv zeta.
    destruct (all_space (text r)); [ exact Hinv | ].
    destruct (resolve_doc_id unicode_lower W DOC_NAME st) as [[found | e] st1] eqn:Er;
      pose proof (same_caches_renders _ _ (keeps_resolve_doc_id _ _ _ _ Er) Hinv)
        as Hinv1; [ | exact Hinv1 ].
    destruct (truthy_id found) as [doc_id |]; [ | exact Hinv1 ].
    pose proof (renders_context_then doc_id
                  (fun _ formatted =>
                     ask_gemini_about_data http_exception_str W formatted (text r))
                  st1) as Hctx.
    rewrite !bind_run in Hctx.
    destruct (get_all_coda_data http_exception_str W doc_id st1)
      as [[data | e] st2]; [ | eapply Hctx; eauto using keeps_ask_gemini ].
    rewrite bind_run in Hctx.
    destruct (format_data_for_gemini py_repr data st2) as [[formatted | e] st3];
      [ | eapply Hctx; eauto using keeps_ask_gemini ].
    destruct (ask_gemini_about_data http_exception_str W formatted (text r) st3)
      as [[reply | e] st4] eqn:Eg;
      eapply Hctx; eauto using keeps_ask_gemini.
  - intros cached Hc.
    rewrite refresh_cache_text_unset in Hc.
    discriminate Hc.
  - rewrite get_data_summary_run.
    cbv zeta.
    destruct (resolve_doc_id unicode_lower W DOC_NAME st) as [[found | e] st1] eqn:Er;
      pose proof (same_caches_renders _ _ (keeps_resolve_doc_id _ _ _ _ Er) Hinv)
        as Hinv1; [ | exact Hinv1 ].
    destruct (truthy_id found) as [doc_id |]; [ | exact Hinv1 ].
    destruct (get_all_coda_data http_exception_str W doc_id st1)
      as [[data | e] st2] eqn:Ed;
      eapply renders_get_all_coda_data; eassumption.
  - eapply (renders_context_then d (fun data formatted => ret (data, formatted)) st);
      [ intros; apply keeps_ret | exact Hinv | apply surjective_pairing ].
Qed.

(** X10: the cached text is never out of step with the cached list: when
    the formatted text is set, the aggregated list is set and the text is
    exactly what the formatter computes for that list, and every operation
    keeps it so. *)
Theorem cached_text_is_text_of_cached_list (ops : list operation) (st : State) :
  text_renders_data py_repr st ->
  text_renders_data py_repr (run_ops py_repr http_exception_str unicode_lower W ops st).
Proof.
  revert st.
  induction ops as [| op rest IH]; intros st Hinv; cbn [run_ops fold_left].
  - exact Hinv.
  - apply IH.
    now apply run_op_renders.
Qed.

(** *** Rows and their lines *)

Lemma is_empty_app (a b : string) : is_empty (a ++ b) = is_empty a && is_empty b.
Proof. destruct a; reflexivity. Qed.

Lemma concat_head_not_empty (sep x : string) (l : list string) :
  is_empty x = false -> is_empty (String.concat sep (x :: l)) = false.
Proof.
  intros Hx.
  destruct l as [| y l]; cbn [String.concat]; [ exact Hx | ].
  now rewrite is_empty_app, Hx.
Qed.

Lemma row_text_empty (r : row) :
  is_empty (row_text py_repr r) =
  is_nil (filter (fun kv => not_in_empty_values (snd kv)) r).
Proof.
  unfold row_text, join.
  destruct (filter (fun kv => not_in_empty_values (snd kv)) r) as [| kv rest];
    [ reflexivity | ].
  cbn [map is_nil].
  apply concat_head_not_empty.
  rewrite !is_empty_app.
  cbn.
  apply andb_false_r.
Qed.

(** X11: the line of a row is empty exactly when every value of the row is
    equal to one of [None], [""], [False], ["False"]; so every row that
    survived the emptiness filter is rendered with at least one
    ["column: value"] pair. *)
Theorem surviving_row_has_a_pair (r : row) :
  (is_empty (row_text py_repr r) = true <->
   Forall (fun kv => py_in (snd kv) EMPTY_VALUES = true) r) /\
  (has_data r = true -> is_empty (row_text py_repr r) = false).
Proof.
  assert (Hall :
    is_nil (filter (fun kv => not_in_empty_values (snd kv)) r) = true <->
    Forall (fun kv => py_in (snd kv) EMPTY_VALUES = true) r).
  { induction r as [| kv r IH]; cbn [filter].
    - split; [ constructor | reflexivity ].
    - unfold not_in_empty_values at 1.
      destruct (py_in (snd kv) EMPTY_VALUES) eqn:E; cbn [negb].
      + rewrite IH.
        split; [ now constructor | now inversion 1 ].
      + cbn [is_nil].
        split; [ discriminate | ].
        inversion 1; congruence. }
  split.
  - now rewrite row_text_empty.
  - intros Hdata.
    rewrite row_text_empty.
    apply not_true_is_false.
    intros E.
    apply Hall in E.
    apply has_data_iff in Hdata.
    destruct Hdata as (v & Hin & _ & Hv).
    unfold dict_values in Hin.
    apply in_map_iff in Hin.
    destruct Hin as (kv & <- & Hkv).
    rewrite Forall_forall in E.
    rewrite (E kv Hkv) in Hv.
    discriminate Hv.
Qed.

(** *** Names *)

(** X12: document resolution does not see white space around a name or
    the case of its letters A..Z, on either side: the configured name
    written with these letters in lower case and padded with white space
    resolves as the name itself, and a listed document named so matches as
    the document itself. *)
Theorem resolution_ignores_padding_and_case (before after : string) :
  all_space before = true ->
  all_space after = true ->
  (forall doc_name st,
      resolve_doc_id unicode_lower W (before ++ lower doc_name ++ after) st =
      resolve_doc_id unicode_lower W doc_name st) /\
  (forall doc_name d,
      name_matches unicode_lower doc_name
        {| Doc.id := Doc.id d; Doc.name := before ++ lower (Doc.name d) ++ after |} =
      name_matches unicode_lower doc_name d).
Proof.
  intros Ha Hb.
  split.
  - intros doc_name st.
    apply resolve_doc_id_same_key.
    apply py_lower_strip_padded; [ exact Ha | exact Hb | apply lower_twice ].
  - intros doc_name d.
    unfold name_matches.
    cbn [Doc.name].
    now rewrite (py_lower_strip_padded unicode_lower before after
                   (lower (Doc.name d)) (Doc.name d) Ha Hb (lower_twice _)).
Qed.

(** *** The cost of a pass *)

Lemma call_cost {A : Type} (r : request) (answer : list request -> response A)
    (st st' : State) (res : result A) :
  call r answer st = (res, st') ->
  length (calls st') = S (length (calls st)) /\ stdout st' = stdout st.
Proof.
  unfold call.
  destruct (answer (calls st)); intros H; inversion H; split; reflexivity.
Qed.

Lemma fetch_table_cost (doc_id : string) (table : Table.t) (st st' : State)
    (t : fetched_table) :
  fetch_table http_exception_str W doc_id table st = (Ok t, st') ->
  pass_cost st st' 0 1 (if is_failed t then 1 else 0).
Proof.
  unfold fetch_table, try_except, get_column_map, get_rows, pass_cost.
  rewrite !bind_run.
  destruct (call _ _ st) as [[cols | e] st1] eqn:E1;
    destruct (call_cost _ _ _ _ _ E1) as [Hc1 Hs1].
  - cbn [ret].
    rewrite !bind_run.
    destruct (call _ _ st1) as [[items | e] st2] eqn:E2;
      destruct (call_cost _ _ _ _ _ E2) as [Hc2 Hs2];
      intros H; inversion H; subst; cbn; rewrite ?Hs2, ?Hs1; lia.
  - intros H; inversion H; subst; cbn; rewrite ?Hs1; lia.
Qed.

Lemma fetch_tables_cost (doc_id : string) (listed : list Table.t) :
  forall (st st' : State) (ts : list fetched_table),
  fetch_tables http_exception_str W doc_id listed st = (Ok ts, st') ->
  pass_cost st st' 0 (length ts) (length (filter is_failed ts)).
Proof.
  induction listed as [| table rest IH]; intros st st' ts; cbn [fetch_tables].
  - intros H; inversion H; subst.
    unfold pass_cost. cbn. lia.
  - rewrite bind_run.
    destruct (fetch_table http_exception_str W doc_id table st)
      as [[t | e] st1] eqn:Et; [ | discriminate ].
    rewrite bind_run.
    destruct (fetch_tables http_exception_str W doc_id rest st1)
      as [[ts' | e] st2] eqn:Ets; [ | discriminate ].
    intros H; inversion H; subst.
    pose proof (fetch_table_cost _ _ _ _ _ Et) as Ht.
    pose proof (IH _ _ _ Ets) as Hts.
    unfold pass_cost in *.
    cbn [length filter].
    destruct (is_failed t); cbn [length]; lia.
Qed.

Lemma fetch_pages_cost (doc_id : string) (pages : list Page.t) :
  forall (st st' : State) (ps : list fetched_page),
  fetch_pages http_exception_str W doc_id pages st = (Ok ps, st') ->
  map fp_page ps = pages /\
  pass_cost st st' (length ps) (length (listed_tables ps))
    (length (failed_tables ps)).
Proof.
  induction pages as [| page rest IH]; intros st st' ps; cbn [fetch_pages].
  - intros H; inversion H; subst.
    split; [ reflexivity | ].
    unfold pass_cost. cbn. lia.
  - rewrite bind_run.
    unfold get_tables_created_on_page at 1.
    rewrite bind_run.
    destruct (call _ _ st) as [[all_tables | e] st0] eqn:Ec; [ | discriminate ].
    destruct (call_cost _ _ _ _ _ Ec) as [Hc0 Hs0].
    cbn [ret].
    rewrite bind_run.
    destruct (fetch_tables http_exception_str W doc_id _ st0)
      as [[ts | e] st1] eqn:Ets; [ | discriminate ].
    rewrite bind_run.
    destruct (fetch_pages http_exception_str W doc_id rest st1)
      as [[ps' | e] st2] eqn:Eps; [ | discriminate ].
    intros H; inversion H; subst.
    pose proof (fetch_tables_cost _ _ _ _ _ Ets) as Hts.
    destruct (IH _ _ _ Eps) as [Hpages Hps].
    split; [ cbn; now rewrite Hpages | ].
    unfold pass_cost, failed_tables, listed_tables in *.
    cbn [flat_map length fp_tables].
    rewrite filter_app, !length_app.
    rewrite Hs0 in Hts.
    lia.
Qed.

Lemma get_pages_answer (doc_id : string) (st st' : State) (pages : list Page.t) :
  get_pages W doc_id st = (Ok pages, st') ->
  list_pages W (calls st) doc_id = Answer pages.
Proof.
  unfold get_pages, call.
  cbv zeta.
  destruct (list_pages W (calls st) doc_id) as [items | msg];
    intros H; inversion H; reflexivity.
Qed.

(** X13: an aggregation pass that returns on a cache miss has listed the
    pages once and the tables once per listed page, and has made one or
    two calls per listed table, two for every table it did not skip; it
    has printed exactly one line per skipped table and nothing else.  The
    pages are those the page listing answered, the tables are those the
    pass received for these pages, and the result is built from them. *)
Theorem aggregation_pass_cost (doc_id : string) (st st' : State)
    (data : list page_data) :
  coda_data_cache st = None ->
  get_all_coda_data http_exception_str W doc_id st = (Ok data, st') ->
  exists pages snapshot st1,
    list_pages W (calls st) doc_id = Answer pages /\
    fetch_all http_exception_str W doc_id st = (Ok snapshot, st1) /\
    map fp_page snapshot = pages /\
    data = aggregate_spec snapshot /\
    st' = set_coda_data_cache (Some data) st1 /\
    pass_cost st st' (1 + length pages) (length (listed_tables snapshot))
      (length (failed_tables snapshot)).
Proof.
  intros Hc Hrun.
  rewrite (get_all_coda_data_miss doc_id st Hc) in Hrun.
  unfold fetch_all in *.
  rewrite bind_run in *.
  destruct (get_pages W doc_id st) as [[pages | e] st0] eqn:Ep; [ | discriminate ].
  destruct (call_cost _ _ _ _ _ Ep) as [Hc0 Hs0].
  destruct (fetch_pages http_exception_str W doc_id pages st0)
    as [[snapshot | e] st1] eqn:Ef; [ | discriminate ].
  inversion Hrun; subst.
  exists pages, snapshot, st1.
  destruct (fetch_pages_cost _ _ _ _ _ Ef) as [Hpages Hcost].
  split; [ exact (get_pages_answer _ _ _ _ Ep) | ].
  split; [ reflexivity | ].
  split; [ exact Hpages | ].
  split; [ reflexivity | ].
  split; [ reflexivity | ].
  rewrite <- Hpages, length_map.
  unfold pass_cost in *.
  cbn [calls stdout set_coda_data_cache].
  rewrite Hs0 in Hcost.
  lia.
Qed.

(** *** The cache holds no empty page and no empty table *)

Lemma aggregate_spec_well_formed (snapshot : list fetched_page) :
  Forall page_well_formed (aggregate_spec snapshot).
Proof.
  apply Forall_forall.
  intros p Hp.
  apply in_map_iff in Hp.
  destruct Hp as (fp & <- & Hfp).
  apply filter_In in Hfp.
  destruct Hfp as [_ Hs].
  unfold page_survives in Hs.
  split.
  - cbn [page_entry tables].
    destruct (surviving_tables fp); [ discriminate Hs | discriminate ].
  - cbn [page_entry tables].
    unfold surviving_tables.
    apply Forall_forall.
    intros t Ht.
    apply in_map_iff in Ht.
    destruct Ht as (ft & <- & Hft).
    apply filter_In in Hft.
    destruct Hft as [_ Hts].
    unfold table_survives in Hts.
    unfold table_well_formed.
    cbn [table_entry rows columns].
    split; [ | split; [ | reflexivity ] ].
    + destruct (surviving_rows ft); [ discriminate Hts | discriminate ].
    + unfold surviving_rows.
      destruct (ft_rows ft) as [fetched |]; [ | constructor ].
      apply Forall_forall.
      intros r Hr.
      apply filter_In in Hr.
      tauto.
Qed.

Lemma preserves_bind {A B : Type} (P : State -> Prop) (m : M A) (f : A -> M B) :
  preserves P m -> (forall a, preserves P (f a)) -> preserves P (bind m f).
Proof.
  intros Hm Hf st r st' HP H.
  rewrite bind_run in H.
  destruct (m st) as [[a | e] st1] eqn:E.
  - eapply Hf; [ eapply Hm | ]; eassumption.
  - inversion H; subst. eapply Hm; eassumption.
Qed.

Lemma preserves_try_except {A : Type} (P : State -> Prop) (m : M A)
    (h : exn -> M A) :
  preserves P m -> (forall e, preserves P (h e)) -> preserves P (try_except m h).
Proof.
  intros Hm Hh st r st' HP H.
  unfold try_except in H.
  destruct (m st) as [[a | e] st1] eqn:E.
  - inversion H; subst. eapply Hm; eassumption.
  - eapply Hh; [ eapply Hm | ]; eassumption.
Qed.

Lemma well_formed_same_data (st st' : State) :
  coda_data_cache st' = coda_data_cache st ->
  cache_well_formed st -> cache_well_formed st'.
Proof.
  intros Hd Hwf data Hc.
  apply Hwf.
  congruence.
Qed.

Lemma well_formed_keeps_caches {A : Type} (m : M A) :
  keeps_caches m -> preserves cache_well_formed m.
Proof.
  intros Hm st r st' Hwf Hrun.
  destruct (Hm _ _ _ Hrun) as [Hd _].
  eapply well_formed_same_data; eassumption.
Qed.

Lemma well_formed_get_all_coda_data (doc_id : string) :
  preserves cache_well_formed (get_all_coda_data http_exception_str W doc_id).
Proof.
  intros st r st' Hwf Hrun.
  destruct (coda_data_cache st) as [data |] eqn:Hc.
  - rewrite (get_all_coda_data_cached doc_id st data Hc) in Hrun.
    inversion Hrun; subst.
    exact Hwf.
  - rewrite (get_all_coda_data_miss doc_id st Hc) in Hrun.
    destruct (fetch_all http_exception_str W doc_id st) as [[snapshot | e] st1] eqn:E;
      inversion Hrun; subst.
    + intros data Hdata.
      cbn [coda_data_cache set_coda_data_cache] in Hdata.
      inversion Hdata; subst.
      apply aggregate_spec_well_formed.
    + destruct (keeps_fetch_all doc_id _ _ _ E) as [Hd _].
      eapply well_formed_same_data; eassumption.
Qed.

Lemma well_formed_format (coda_data : list page_data) :
  preserves cache_well_formed (format_data_for_gemini py_repr coda_data).
Proof.
  intros st r st' Hwf Hrun.
  rewrite format_run in Hrun.
  destruct (formatted_data_cache st); inversion Hrun; subst; exact Hwf.
Qed.

Lemma well_formed_refresh_cache :
  preserves cache_well_formed (refresh_cache http_exception_str unicode_lower W).
Proof.
  intros st r st' _ Hrun.
  rewrite refresh_cache_run in Hrun.
  cbv zeta in Hrun.
  assert (Hcleared : forall st0,
             coda_data_cache st0 = None -> cache_well_formed st0)
    by (intros st0 H0 data Hdata; congruence).
  destruct (list_docs W (calls st)) as [docs | msg].
  - destruct (truthy_id (resolve_loop unicode_lower docs DOC_NAME)) as [doc_id |].
    + destruct (get_all_coda_data http_exception_str W doc_id _)
        as [[data | e] st1] eqn:Ed;
        inversion Hrun; subst;
        eapply well_formed_get_all_coda_data; try exact Ed;
        apply Hcleared; reflexivity.
    + inversion Hrun; subst. now apply Hcleared.
  - inversion Hrun; subst. now apply Hcleared.
Qed.

Lemma well_formed_context_then {B : Type} (doc_id : string)
    (k : list page_data -> string -> M B) :
  (forall data formatted, keeps_caches (k data formatted)) ->
  preserves cache_well_formed
    (coda_data <- get_all_coda_data http_exception_str W doc_id ;;
     formatted_data <- format_data_for_gemini py_repr coda_data ;;
     k coda_data formatted_data).
Proof.
  intros Hk.
  apply preserves_bind; [ apply well_formed_get_all_coda_data | intros data ].
  apply preserves_bind; [ apply well_formed_format | intros formatted ].
  apply well_formed_keeps_caches, Hk.
Qed.

Lemma well_formed_ask_question (request : QuestionRequest) :
  preserves cache_well_formed (ask_question py_repr http_exception_str unicode_lower
      W request).
Proof.
  unfold ask_question.
  apply preserves_try_except.
  - apply preserves_bind.
    + apply well_formed_keeps_caches, keeps_resolve_doc_id.
    + intros found.
      destruct (truthy_id found) as [doc_id |].
      * apply well_formed_context_then.
        intros data formatted.
        pose proof (keeps_ask_gemini formatted (question request)).
        auto with caches.
      * apply well_formed_keeps_caches. auto with caches.
  - intros e. apply well_formed_keeps_caches. auto with caches.
Qed.

Lemma well_formed_cliq_webhook (request : CliqRequest) :
  preserves cache_well_formed (cliq_webhook py_repr http_exception_str unicode_lower
      W request).
Proof.
  unfold cliq_webhook.
  apply preserves_try_except.
  - destruct (is_empty (strip (text request))).
    + apply well_formed_keeps_caches. auto with caches.
    + apply preserves_bind.
      * apply well_formed_keeps_caches, keeps_resolve_doc_id.
      * intros found.
        destruct (truthy_id found) as [doc_id |].
        -- apply well_formed_context_then.
           intros data formatted.
           pose proof (keeps_ask_gemini formatted (text request)).
           auto with caches.
        -- apply well_formed_keeps_caches. auto with caches.
  - intros e. apply well_formed_keeps_caches. auto with caches.
Qed.

Lemma well_formed_get_data_summary :
  preserves cache_well_formed (get_data_summary http_exception_str unicode_lower W).
Proof.
  unfold get_data_summary.
  apply preserves_try_except.
  - apply preserves_bind.
    + apply well_formed_keeps_caches, keeps_resolve_doc_id.
    + intros found.
      destruct (truthy_id found) as [doc_id |].
      * apply preserves_bind.
        -- apply well_formed_get_all_coda_data.
        -- intros data. apply well_formed_keeps_caches. auto with caches.
      * apply well_formed_keeps_caches. auto with caches.
  - intros e. apply well_formed_keeps_caches. auto with caches.
Qed.

Lemma run_op_well_formed (op : operation) (st : State) :
  cache_well_formed st ->
  cache_well_formed (run_op py_repr http_exception_str unicode_lower W op st).
Proof.
  intros Hwf.
  destruct op as [| | q | r | | | d]; cbn [run_op].
  - exact Hwf.
  - exact Hwf.
  - eapply well_formed_ask_question; [ exact Hwf | apply surjective_pairing ].
  - eapply well_formed_cliq_webhook; [ exact Hwf | apply surjective_pairing ].
  - eapply well_formed_refresh_cache; [ exact Hwf | apply surjective_pairing ].
  - eapply well_formed_get_data_summary; [ exact Hwf | apply surjective_pairing ].
  - eapply (well_formed_context_then d (fun data formatted => ret (data, formatted)));
      [ intros; apply keeps_ret | exact Hwf | apply surjective_pairing ].
Qed.

(** X14: the cache never holds an empty page or an empty table: when the
    aggregated list in the cache is made of pages with at least one table,
    tables with at least one row, rows that carry data and columns that are
    the keys of the first row, it is so again after any operations. *)
Theorem cache_holds_well_formed_pages (ops : list operation) (st : State) :
  cache_well_formed st ->
  cache_well_formed (run_ops py_repr http_exception_str unicode_lower W ops st).
Proof.
  revert st.
  induction ops as [| op rest IH]; intros st Hwf; cbn [run_ops fold_left].
  - exact Hwf.
  - apply IH.
    now apply run_op_well_formed.
Qed.

Lemma sum_nat_map_le {X : Type} (f g : X -> nat) (l : list X) :
  Forall (fun x => f x <= g x)%nat l ->
  (sum_nat (map f l) <= sum_nat (map g l))%nat.
Proof.
  induction 1 as [| x l Hx Hl IH]; [ apply Nat.le_refl | ].
  cbn [map].
  rewrite !sum_nat_cons.
  lia.
Qed.

Lemma sum_nat_map_one {X : Type} (l : list X) :
  sum_nat (map (fun _ => 1%nat) l) = length l.
Proof.
  induction l as [| x l IH]; [ reflexivity | ].
  cbn [map length].
  rewrite sum_nat_cons, IH.
  reflexivity.
Qed.

Lemma length_positive {X : Type} (l : list X) : l <> [] -> (1 <= length l)%nat.
Proof. destruct l; [ congruence | cbn; lia ]. Qed.

(** X15: over a well formed cache a data summary that is returned never
    reports an empty page or an empty table: every page of the breakdown
    has a table, every table has a row count of at least one, and the
    totals rise from pages to tables to rows. *)
Theorem data_summary_has_no_empty_entry (st st' : State) (summary : DataSummary) :
  cache_well_formed st ->
  get_data_summary http_exception_str unicode_lower W st = (Ok summary, st') ->
  Forall (fun p => summary_tables p <> [] /\
                   Forall (fun t => 1 <= row_count t)%nat (summary_tables p))
         (pages_info summary) /\
  (total_pages summary <= total_tables summary)%nat /\
  (total_tables summary <= total_rows summary)%nat.
Proof.
  intros Hwf Hrun.
  rewrite get_data_summary_run in Hrun.
  cbv zeta in Hrun.
  destruct (resolve_doc_id unicode_lower W DOC_NAME st) as [[found | e] st1] eqn:Er;
    [ | discriminate ].
  destruct (truthy_id found) as [doc_id |]; [ | discriminate ].
  destruct (get_all_coda_data http_exception_str W doc_id st1)
    as [[data | e] st2] eqn:Ed; [ | discriminate ].
  inversion Hrun; subst.
  cbn [pages_info total_pages total_tables total_rows].
  assert (Hdata : Forall page_well_formed data).
  { destruct (get_all_coda_data_effect _ _ _ _ Ed) as [_ Hd].
    eapply (well_formed_get_all_coda_data doc_id st1); [ | exact Ed | exact Hd ].
    eapply well_formed_keeps_caches;
      [ apply (keeps_resolve_doc_id DOC_NAME) | exact Hwf | exact Er ]. }
  rewrite Forall_forall in Hdata.
  split; [ | split ].
  - apply Forall_forall.
    intros p Hp.
    apply in_map_iff in Hp.
    destruct Hp as (page & <- & Hpage).
    destruct (Hdata page Hpage) as [Hne Htables].
    cbn [summary_tables].
    split.
    + destruct (tables page); [ congruence | discriminate ].
    + apply Forall_forall.
      intros t Ht.
      apply in_map_iff in Ht.
      destruct Ht as (table & <- & Htable).
      rewrite Forall_forall in Htables.
      destruct (Htables table Htable) as [Hrows _].
      cbn [row_count].
      now apply length_positive.
  - rewrite <- (sum_nat_map_one data).
    apply sum_nat_map_le.
    apply Forall_forall.
    intros page Hpage.
    apply length_positive.
    apply (Hdata page Hpage).
  - rewrite sum_nat_flat_map.
    apply sum_nat_map_le.
    apply Forall_forall.
    intros page Hpage.
    destruct (Hdata page Hpage) as [_ Htables].
    rewrite <- (sum_nat_map_one (tables page)).
    apply sum_nat_map_le.
    apply Forall_forall.
    intros table Htable.
    rewrite Forall_forall in Htables.
    apply length_positive.
    apply (Htables table Htable).
Qed.

(** *** The row filter again *)

Lemma truthy_not_listed (v : value) :
  truthy v = true -> py_in v EMPTY_VALUES = py_eq v (VStr "False").
Proof.
  unfold py_in, EMPTY_VALUES.
  cbn [existsb].
  destruct v as [| b | n | q | s | l | d]; simpl; intros Ht.
  - discriminate Ht.
  - subst b. reflexivity.
  - apply negb_true_iff in Ht.
    now rewrite Ht.
  - apply negb_true_iff in Ht.
    now rewrite Ht.
  - destruct s as [| c s]; [ discriminate Ht | ].
    change (String.eqb (String c s) "") with false.
    now rewrite orb_false_r.
  - reflexivity.
  - reflexivity.
Qed.

(** X16: in the row filter only the string ["False"] adds to the truth
    test: a row is kept exactly when one of its values is true in Python's
    sense and is not the string ["False"]; the entries [None], [""] and
    [False] of the list exclude nothing that the truth test lets through. *)
Theorem has_data_is_truthy_and_not_False_string (r : row) :
  has_data r =
  existsb (fun v => truthy v && negb (py_eq v (VStr "False"))) (dict_values r).
Proof.
  unfold has_data, py_any.
  induction (dict_values r) as [| v vs IH]; [ reflexivity | ].
  cbn [filter existsb].
  unfold not_in_empty_values at 1.
  destruct (truthy v) eqn:Ht.
  - rewrite (truthy_not_listed v Ht).
    destruct (py_eq v (VStr "False")); cbn [negb existsb andb orb].
    + exact IH.
    + now rewrite Ht.
  - cbn [andb orb].
    destruct (negb (py_in v EMPTY_VALUES)); cbn [existsb].
    + now rewrite Ht.
    + exact IH.
Qed.

End Properties.

(** ** The properties on the sample worlds *)

(** The scenario of the specification, end to end. *)
Example demo_aggregation :
  fst (get_all_coda_data sample_http_str demo_world "d1" initial_state) =
  Ok [ {| page_name := "P1";
          tables :=
            [ {| table_name := "T1";
                 columns := ["Name"; "Qty"];
                 rows := [ [("Name", VStr "A"); ("Qty", VInt 1)] ] |} ] |} ].
Proof. reflexivity. Qed.

Example demo_formatted_text :
  fst (build_context sample_repr sample_http_str demo_world "d1" initial_state) =
  Ok ([ {| page_name := "P1";
           tables :=
             [ {| table_name := "T1";
                  columns := ["Name"; "Qty"];
                  rows := [ [("Name", VStr "A"); ("Qty", VInt 1)] ] |} ] |} ],
      "CODA DOCUMENT DATA:" ++ LF ++ LF ++
      "=== PAGE: P1 ===" ++ LF ++ LF ++
      "TABLE: T1" ++ LF ++
      "Columns: Name, Qty" ++ LF ++
      "1. Name: A | Qty: 1" ++ LF ++ LF).
Proof. reflexivity. Qed.

(** A table whose column call fails is left out and reported; the table
    after it is aggregated as usual. *)
Example failed_table_is_skipped :
  let run := get_all_coda_data sample_http_str columns_down_world "d1" initial_state in
  option_map (map (fun p => map table_name (tables p))) (coda_data_cache (snd run)) =
    Some [ ["T1"] ] /\
  stdout (snd run) = ["Error processing table T0: timeout"].
Proof. split; reflexivity. Qed.

(** A second context build reads the cache; after a refresh the next build
    shows the rows as they are then. *)
Example refresh_then_build_shows_new_rows :
  let run := run_ops sample_repr sample_http_str sample_unicode_lower restocking_world in
  let st1 := run [OpBuildContext "d1"] initial_state in
  let st2 := run [OpBuildContext "d1"] st1 in
  let st3 := run [OpRefresh; OpBuildContext "d1"] st2 in
  st2 = st1 /\
  formatted_data_cache st1 =
    Some ("CODA DOCUMENT DATA:" ++ LF ++ LF ++ "=== PAGE: P1 ===" ++ LF ++ LF ++
          "TABLE: T1" ++ LF ++ "Columns: Name, Qty" ++ LF ++
          "1. Name: A | Qty: 1" ++ LF ++ LF) /\
  formatted_data_cache st3 =
    Some ("CODA DOCUMENT DATA:" ++ LF ++ LF ++ "=== PAGE: P1 ===" ++ LF ++ LF ++
          "TABLE: T1" ++ LF ++ "Columns: Name, Qty" ++ LF ++
          "1. Name: A | Qty: 2" ++ LF ++ LF).
Proof. repeat split. Qed.

(** An empty question is answered with the usage hint and no call. *)
Example blank_question_gets_usage_hint :
  cliq_webhook sample_repr sample_http_str sample_unicode_lower demo_world
    {| text := "  "; user_name := None; user_id := None; channel_name := None |}
    initial_state = (Ok USAGE_HINT, initial_state).
Proof. reflexivity. Qed.

(** Numeric zero is equal to [False], so a row that only holds zeros is
    dropped as well. *)
Example zero_only_row_is_dropped :
  filter_rows_loop [ [("Qty", VInt 0)]; [("Qty", VInt 3)] ] [] = [ [("Qty", VInt 3)] ].
Proof. reflexivity. Qed.

(** The names of the specification's test, whatever the lower case beyond
    ASCII is; white space beyond ASCII is trimmed as well. *)
Example names_match_trimmed_and_lowercased (unicode_lower : string -> string) :
  let listed name := [ {| Doc.id := "x"; Doc.name := name |} ] in
  resolve_loop unicode_lower (listed "My Doc ") "my doc" = Some "x" /\
  resolve_loop unicode_lower (listed "my doc") " MY DOC" = Some "x" /\
  resolve_loop unicode_lower (listed "my doc") "mydoc" = None /\
  resolve_loop unicode_lower (listed (NO_BREAK_SPACE ++ "My Doc" ++ IDEOGRAPHIC_SPACE))
    "my doc" = Some "x".
Proof. repeat split. Qed.

(** A capital letter beyond ASCII is lowercased by the runtime's table. *)
Example names_match_beyond_ascii :
  resolve_loop sample_unicode_lower
    [ {| Doc.id := "x"; Doc.name := CAPITAL_E_ACUTE ++ "COLE " |} ]
    (SMALL_E_ACUTE ++ "cole") = Some "x".
Proof. reflexivity. Qed.

(** White space beyond ASCII around the listed name is trimmed, and the
    name resolves on every route. *)
Example padded_listed_name_resolves :
  fst (resolve_doc_id sample_unicode_lower padded_name_world DOC_NAME initial_state) =
    Ok (Some "d1") /\
  fst (refresh_cache sample_http_str sample_unicode_lower padded_name_world
         initial_state) =
    Ok {| refresh_message := "Cache refreshed successfully";
          refresh_status := "success" |} /\
  fst (ask_question sample_repr sample_http_str sample_unicode_lower padded_name_world
         {| question := "how many?" |} initial_state) =
    Ok {| answer := "42"; status := "success" |}.
Proof. repeat split. Qed.

(** A question made of no-break spaces is blank, as an empty one is. *)
Example no_break_space_question_is_blank :
  cliq_webhook sample_repr sample_http_str sample_unicode_lower demo_world
    {| text := NO_BREAK_SPACE ++ " " ++ NO_BREAK_SPACE;
       user_name := None; user_id := None; channel_name := None |}
    initial_state = (Ok USAGE_HINT, initial_state).
Proof. reflexivity. Qed.

Lemma resolve_doc_id_first_match_witness :
  list_docs demo_world (calls initial_state) = Answer demo_docs /\
  fst (resolve_doc_id sample_unicode_lower demo_world DOC_NAME initial_state) =
    Ok (Some "d1") /\
  resolve_doc_id sample_unicode_lower demo_world
    (NO_BREAK_SPACE ++ "SamDanielVincy's CODA playground" ++ "  ") initial_state =
  resolve_doc_id sample_unicode_lower demo_world DOC_NAME initial_state.
Proof.
  destruct (resolve_doc_id_first_match sample_unicode_lower demo_world DOC_NAME
              demo_docs initial_state eq_refl) as (_ & Hasked & _).
  split; [ reflexivity | ].
  split; [ reflexivity | ].
  apply Hasked; reflexivity.
Defined.

Lemma format_ignores_input_when_cached_witness :
  let st := set_formatted_data_cache (Some "cached text") initial_state in
  formatted_data_cache st = Some "cached text" /\
  fst (format_data_for_gemini sample_repr zero_stock_data st) = Ok "cached text" /\
  format_data_for_gemini sample_repr zero_stock_data st =
  format_data_for_gemini sample_repr [] st.
Proof.
  cbv zeta.
  destruct (format_ignores_input_when_cached sample_repr
              (set_formatted_data_cache (Some "cached text") initial_state)
              "cached text" eq_refl) as [Hget Hsame].
  split; [ reflexivity | ].
  split; [ rewrite Hget; reflexivity | apply Hsame ].
Defined.

Lemma build_context_uses_cache_witness :
  let first := build_context sample_repr sample_http_str demo_world "d1" initial_state in
  build_context sample_repr sample_http_str demo_world "d1" (snd first) =
  (fst first, snd first) /\
  calls (snd first) <> [].
Proof.
  cbv zeta.
  destruct (build_context sample_repr sample_http_str demo_world "d1" initial_state)
    as [[built | e] st1] eqn:E.
  - split.
    + exact (proj2 (build_context_uses_cache sample_repr sample_http_str demo_world
                      "d1" initial_state) built st1 "d1" E).
    + vm_compute in E.
      inversion E.
      discriminate.
  - vm_compute in E.
    discriminate E.
Defined.

Lemma aggregation_keeps_surviving_in_order_witness :
  coda_data_cache initial_state = None /\
  exists data,
    fst (get_all_coda_data sample_http_str demo_world "d1" initial_state) = Ok data /\
    Forall (fun p => tables p <> []) data.
Proof.
  split; [ reflexivity | ].
  pose proof (aggregation_keeps_surviving_in_order sample_http_str demo_world "d1"
                initial_state eq_refl) as H.
  destruct (fetch_all sample_http_str demo_world "d1" initial_state)
    as [[snapshot | e] st'] eqn:E.
  - destruct H as (Hrun & Hpages & _).
    eexists.
    split; [ rewrite Hrun; reflexivity | exact Hpages ].
  - vm_compute in E.
    discriminate E.
Defined.

Lemma aggregation_raises_only_on_listing_witness :
  coda_data_cache initial_state = None /\
  fst (get_all_coda_data sample_http_str tables_down_world "d1" initial_state) =
    Raise (Fault "503 Service Unavailable") /\
  exists newer msg,
    Fault "503 Service Unavailable" = Fault msg /\
    (list_pages tables_down_world (newer ++ calls initial_state)%list "d1" =
        Failure msg \/
     list_tables tables_down_world (newer ++ calls initial_state)%list "d1" =
         Failure msg).
Proof.
  split; [ reflexivity | ].
  split; [ reflexivity | ].
  destruct (aggregation_raises_only_on_listing sample_http_str tables_down_world "d1"
              initial_state eq_refl) as (_ & _ & Hraise).
  eapply Hraise.
  reflexivity.
Defined.

Lemma text_cache_only_with_data_cache_witness :
  text_implies_data initial_state /\
  text_implies_data
    (run_ops sample_repr sample_http_str sample_unicode_lower demo_world
       [OpCliq demo_request; OpRefresh; OpDataSummary; OpAsk {| question := "and now?" |}]
       initial_state).
Proof.
  assert (H0 : text_implies_data initial_state)
    by (intros cached H; discriminate H).
  split; [ exact H0 | ].
  apply (text_cache_only_with_data_cache sample_repr sample_http_str sample_unicode_lower
      demo_world).
  exact H0.
Defined.

Lemma format_renders_spec_text_witness :
  formatted_data_cache initial_state = None /\
  fst (format_data_for_gemini sample_repr zero_stock_data initial_state) =
  Ok (render_spec sample_repr (fun v => py_in v EMPTY_VALUES) zero_stock_data).
Proof.
  split; [ reflexivity | ].
  destruct (format_renders_spec_text sample_repr zero_stock_data initial_state eq_refl)
    as [Hfirst _].
  rewrite Hfirst.
  reflexivity.
Defined.

(** C2 as stated fails: after a refresh the aggregated list is set and the
    formatted text is not. *)
Lemma refresh_leaves_one_cache_set :
  let st := run_op sample_repr sample_http_str sample_unicode_lower
      demo_world OpRefresh initial_state in
  (exists data, coda_data_cache st = Some data) /\
  formatted_data_cache st = None /\
  ~ both_or_neither st.
Proof.
  cbv zeta.
  split; [ eexists; reflexivity | ].
  split; [ reflexivity | ].
  intros [[Hd _] | (data & cached & _ & Hf)].
  - vm_compute in Hd. discriminate Hd.
  - vm_compute in Hf. discriminate Hf.
Qed.

(** C3 as stated fails: the configured name resolves, the refresh
    succeeds, and the formatted text, set before the refresh, is unset
    after it. *)
Lemma refresh_does_not_store_text :
  let before := run_op sample_repr sample_http_str sample_unicode_lower
      demo_world (OpCliq demo_request)
                  initial_state in
  let run := refresh_cache sample_http_str sample_unicode_lower demo_world before in
  truthy_id (resolve_loop sample_unicode_lower demo_docs DOC_NAME) = Some "d1" /\
  (exists cached, formatted_data_cache before = Some cached) /\
  fst run = Ok {| refresh_message := "Cache refreshed successfully";
                  refresh_status := "success" |} /\
  (exists data, coda_data_cache (snd run) = Some data) /\
  formatted_data_cache (snd run) = None.
Proof.
  cbv zeta.
  split; [ reflexivity | ].
  split; [ eexists; reflexivity | ].
  split; [ reflexivity | ].
  split; [ eexists; reflexivity | reflexivity ].
Qed.

(** C4 as stated fails: neither document resolution nor the page listing
    fails, and the pass raises all the same, on the table listing. *)
Lemma table_listing_failure_aborts_pass :
  (forall h, list_docs tables_down_world h = Answer demo_docs) /\
  (forall h doc_id, list_pages tables_down_world h doc_id = Answer demo_pages) /\
  fst (resolve_doc_id sample_unicode_lower
      tables_down_world DOC_NAME initial_state) = Ok (Some "d1") /\
  fst (get_all_coda_data sample_http_str tables_down_world "d1" initial_state) =
    Raise (Fault "503 Service Unavailable").
Proof. repeat split. Qed.

(** C8 as stated fails: the model call fails in the middle of the
    pipeline and the body comes back in the colour of success. *)
Lemma model_failure_is_answered_in_green :
  let run := cliq_webhook sample_repr sample_http_str sample_unicode_lower
      model_down_world demo_request
               initial_state in
  (forall h prompt, generate_content model_down_world h prompt =
      Failure "model unavailable") /\
  existsb is_generate (calls (snd run)) = true /\
  option_map payload_color
    (match fst run with Ok payload => Some payload | Raise _ => None end) =
    Some "#4CAF50".
Proof. repeat split. Qed.

(** C9 as stated fails: the number zero is outside the listed set, and its
    pair is left out of the row's line. *)
Lemma format_leaves_out_zero :
  is_listed_empty (VInt 0) = false /\
  fst (format_data_for_gemini sample_repr zero_stock_data initial_state) =
    Ok ("CODA DOCUMENT DATA:" ++ LF ++ LF ++
        "=== PAGE: P1 ===" ++ LF ++ LF ++
        "TABLE: T1" ++ LF ++
        "Columns: Name, Qty" ++ LF ++
        "1. Name: A" ++ LF ++ LF) /\
  render_spec sample_repr is_listed_empty zero_stock_data =
    "CODA DOCUMENT DATA:" ++ LF ++ LF ++
    "=== PAGE: P1 ===" ++ LF ++ LF ++
    "TABLE: T1" ++ LF ++
    "Columns: Name, Qty" ++ LF ++
    "1. Name: A | Qty: 0" ++ LF ++ LF.
Proof. repeat split. Qed.

(** ** Further properties on the sample worlds *)

Lemma tables_of_a_page_are_its_children_witness :
  list_tables columns_down_world (calls initial_state) "d1" = Answer two_tables /\
  exists on_page,
    fst (get_tables_created_on_page columns_down_world "d1" "p1" initial_state) =
      Ok on_page /\
    map Table.name on_page = ["T0"; "T1"].
Proof.
  split; [ reflexivity | ].
  destruct (tables_of_a_page_are_its_children columns_down_world "d1" "p1"
              two_tables initial_state eq_refl) as (on_page & Hrun & Heq & _).
  exists on_page.
  split; [ rewrite Hrun; reflexivity | rewrite Heq; reflexivity ].
Defined.

Lemma column_map_gives_last_listed_name_witness :
  list_columns demo_world (calls initial_state) "d1" "t1" = Answer demo_columns /\
  exists colmap,
    fst (get_column_map demo_world "d1" "t1" initial_state) = Ok colmap /\
    dict_get colmap "c2" = Some "Qty" /\
    shown_name colmap "c9" = "c9".
Proof.
  split; [ reflexivity | ].
  destruct (column_map_gives_last_listed_name demo_world "d1" "t1" demo_columns
              initial_state eq_refl) as (colmap & Hrun & Hget & Hshown & _).
  exists colmap.
  split; [ rewrite Hrun; reflexivity | ].
  split; [ rewrite Hget; reflexivity | ].
  apply Hshown.
  simpl.
  intros [H | [H | []]]; discriminate H.
Defined.

Lemma readable_rows_keep_last_cell_per_name_witness :
  list_rows demo_world (calls initial_state) "d1" "t1" = Answer demo_rows /\
  exists readable,
    fst (get_rows demo_world "d1" "t1" (column_map demo_columns) initial_state) =
      Ok readable /\
    length readable = 2%nat /\
    Forall (fun r => NoDup (dict_keys r)) readable.
Proof.
  split; [ reflexivity | ].
  destruct (readable_rows_keep_last_cell_per_name demo_world "d1" "t1"
              (column_map demo_columns) demo_rows initial_state eq_refl)
    as (readable & Hrun & Heq & Hkeys & _).
  exists readable.
  split; [ rewrite Hrun; reflexivity | ].
  split; [ rewrite Heq; reflexivity | exact Hkeys ].
Defined.

Lemma clean_row_renames_in_place_witness :
  let item := {| RawRow.values := [("c1", VStr "A"); ("c2", VInt 1)] |} in
  let colmap := column_map demo_columns in
  NoDup (map (fun cell => shown_name colmap (fst cell)) (RawRow.values item)) /\
  clean_row colmap item = [("Name", VStr "A"); ("Qty", VInt 1)].
Proof.
  cbv zeta.
  assert (Hnd : NoDup (map (fun cell => shown_name (column_map demo_columns) (fst cell))
                           [("c1", VStr "A"); ("c2", VInt 1)])).
  { change (NoDup ["Name"; "Qty"]).
    constructor.
    - intros [H | []]. discriminate H.
    - constructor; [ intros [] | constructor ]. }
  split; [ exact Hnd | ].
  destruct (clean_row_renames_in_place (column_map demo_columns)
              {| RawRow.values := [("c1", VStr "A"); ("c2", VInt 1)] |} Hnd)
    as [Hrow _].
  rewrite Hrow.
  reflexivity.
Defined.

Lemma ask_question_on_warm_cache_witness :
  let run := ask_question sample_repr sample_http_str sample_unicode_lower demo_world
               {| question := "how many?" |} warm_state in
  fst run = Ok {| answer := "42"; status := "success" |} /\
  length (calls (snd run)) = (length (calls warm_state) + 2)%nat /\
  coda_data_cache (snd run) = coda_data_cache warm_state.
Proof.
  cbv zeta.
  pose proof (ask_question_on_warm_cache sample_repr sample_http_str sample_unicode_lower
      demo_world
                {| question := "how many?" |} warm_state _ _ demo_docs "d1"
                eq_refl eq_refl eq_refl eq_refl) as H.
  cbv zeta in H.
  rewrite H.
  repeat split.
Defined.

Lemma cliq_webhook_on_warm_cache_witness :
  let run := cliq_webhook sample_repr sample_http_str sample_unicode_lower
      model_down_world demo_request
               warm_state in
  option_map payload_color
    (match fst run with Ok payload => Some payload | Raise _ => None end) =
    Some "#4CAF50" /\
  length (calls (snd run)) = (length (calls warm_state) + 2)%nat.
Proof.
  cbv zeta.
  pose proof (cliq_webhook_on_warm_cache sample_repr sample_http_str sample_unicode_lower
      model_down_world
                demo_request warm_state _ _ demo_docs "d1"
                eq_refl eq_refl eq_refl eq_refl eq_refl) as H.
  cbv zeta in H.
  rewrite H.
  split; reflexivity.
Defined.

Lemma cache_is_kept_until_refresh_witness :
  let ops := [OpCliq demo_request; OpDataSummary; OpAsk {| question := "and now?" |};
              OpBuildContext "d9"] in
  forallb (fun op => negb (is_refresh op)) ops = true /\
  cache_kept warm_state
    (run_ops sample_repr sample_http_str sample_unicode_lower
        restocking_world ops warm_state).
Proof.
  cbv zeta.
  split; [ reflexivity | ].
  apply (cache_is_kept_until_refresh sample_repr sample_http_str sample_unicode_lower
      restocking_world).
  reflexivity.
Defined.

Lemma cached_text_is_text_of_cached_list_witness :
  text_renders_data sample_repr initial_state /\
  text_renders_data sample_repr
    (run_ops sample_repr sample_http_str sample_unicode_lower restocking_world
       [OpCliq demo_request; OpRefresh; OpBuildContext "d1"; OpDataSummary]
       initial_state).
Proof.
  assert (H0 : text_renders_data sample_repr initial_state)
    by (intros cached H; discriminate H).
  split; [ exact H0 | ].
  apply (cached_text_is_text_of_cached_list sample_repr sample_http_str sample_unicode_lower
           restocking_world).
  exact H0.
Defined.

Lemma resolution_ignores_padding_and_case_witness :
  all_space "  " = true /\
  all_space " " = true /\
  resolve_doc_id sample_unicode_lower
      demo_world ("  " ++ lower DOC_NAME ++ " ") initial_state =
  resolve_doc_id sample_unicode_lower demo_world DOC_NAME initial_state.
Proof.
  split; [ reflexivity | ].
  split; [ reflexivity | ].
  apply (resolution_ignores_padding_and_case sample_unicode_lower demo_world
           "  " " " eq_refl eq_refl).
Defined.

Lemma aggregation_pass_cost_witness :
  let run := get_all_coda_data sample_http_str columns_down_world "d1" initial_state in
  coda_data_cache initial_state = None /\
  exists snapshot,
    fst (fetch_all sample_http_str columns_down_world "d1" initial_state) =
      Ok snapshot /\
    map fp_page snapshot = demo_pages /\
    fst run = Ok (aggregate_spec snapshot) /\
    pass_cost initial_state (snd run) (1 + length demo_pages)
      (length (listed_tables snapshot)) (length (failed_tables snapshot)).
Proof.
  cbv zeta.
  split; [ reflexivity | ].
  destruct (get_all_coda_data sample_http_str columns_down_world "d1" initial_state)
    as [[data | e] st'] eqn:E.
  - destruct (aggregation_pass_cost sample_http_str columns_down_world "d1"
                initial_state st' data eq_refl E)
      as (pages & snapshot & st1 & Hpages & Hfetch & Hmap & Hdata & _ & Hcost).
    assert (Hlisted : pages = demo_pages).
    { change (Answer demo_pages = Answer pages) in Hpages.
      now inversion Hpages. }
    exists snapshot.
    rewrite Hfetch.
    cbn [fst snd].
    rewrite <- Hlisted.
    split; [ reflexivity | ].
    split; [ exact Hmap | ].
    split; [ now rewrite Hdata | exact Hcost ].
  - vm_compute in E.
    discriminate E.
Defined.

Lemma cache_holds_well_formed_pages_witness :
  cache_well_formed initial_state /\
  cache_well_formed
    (run_ops sample_repr sample_http_str sample_unicode_lower columns_down_world
       [OpDataSummary; OpCliq demo_request; OpRefresh] initial_state).
Proof.
  assert (H0 : cache_well_formed initial_state)
    by (intros data H; discriminate H).
  split; [ exact H0 | ].
  apply (cache_holds_well_formed_pages sample_repr sample_http_str sample_unicode_lower
      columns_down_world).
  exact H0.
Defined.

Lemma data_summary_has_no_empty_entry_witness :
  let run := get_data_summary sample_http_str sample_unicode_lower
      demo_world initial_state in
  cache_well_formed initial_state /\
  exists summary,
    fst run = Ok summary /\
    (total_pages summary <= total_tables summary)%nat /\
    (total_tables summary <= total_rows summary)%nat.
Proof.
  cbv zeta.
  assert (H0 : cache_well_formed initial_state)
    by (intros data H; discriminate H).
  split; [ exact H0 | ].
  destruct (get_data_summary sample_http_str sample_unicode_lower
      demo_world initial_state)
    as [[summary | e] st'] eqn:E.
  - destruct (data_summary_has_no_empty_entry sample_http_str sample_unicode_lower
                demo_world
                initial_state st' summary H0 E) as (_ & Hpt & Htr).
    exists summary.
    auto.
  - vm_compute in E.
    discriminate E.
Defined.

(** A name that does not resolve: [/ask] answers 500, [/refresh-cache] 404,
    [/cliq/ask] the red body. *)
Example not_found_by_route :
  fst (ask_question sample_repr sample_http_str sample_unicode_lower no_match_world
         {| question := "how many?" |} initial_state) =
    Raise (HTTPException 500 "Error processing request: Coda document not found") /\
  fst (refresh_cache sample_http_str sample_unicode_lower no_match_world initial_state) =
    Raise (HTTPException 404 "Coda document not found") /\
  option_map payload_color
    (match fst (cliq_webhook sample_repr sample_http_str sample_unicode_lower
        no_match_world demo_request
                  initial_state) with
     | Ok payload => Some payload
     | Raise _ => None
     end) = Some "#FF0000".
Proof. repeat split. Qed.

(** Two columns with one name: the later cell takes the place of the
    earlier one. *)
Example same_name_columns_collapse :
  clean_row (column_map [ {| Column.id := "c1"; Column.name := "Qty" |};
                          {| Column.id := "c2"; Column.name := "Qty" |} ])
    {| RawRow.values := [("c1", VInt 1); ("c2", VInt 2)] |} =
  [("Qty", VInt 2)].
Proof. reflexivity. Qed.
